(** * The access-control store of [api/app.py]

    A shallow embedding of the Flask application that keeps the xray
    credential files: the [.user_uuids] table, the [.disabled_users] set,
    [config.json], the subscription files and the monitoring ledgers.

    Conventions of the model.
    - A Python [str] is a [string]; its characters are the code points
      below 256, and the character classes ([str.isspace], [str.isalnum],
      the line boundaries of [str.splitlines]) are Python's on that range.
    - A [dict] is an association list in insertion order with one binding
      per key; a [set] is a duplicate-free list used only through
      membership, [add], [discard] and [sorted].
    - A JSON file is kept as what [json.loads] makes of its text, a
      subscription file as what [base64.b64decode(...).decode()] makes of
      it.  Writing a file always succeeds.
    - Every handler runs under [file_lock()], so a handler is one atomic
      step on the files; an exception that leaves a handler is the
      request's HTTP 500. *)

From Stdlib Require Import List Bool Arith ZArith NArith.
From Stdlib Require Import Ascii String DecimalString.
From Stdlib Require Import Sorted Permutation.
Import ListNotations.

Local Open Scope list_scope.
Local Open Scope string_scope.

(* ================================================================== *)
(** * Python strings *)
(* ================================================================== *)

Module Py.

Definition code (c : ascii) : N := N_of_ascii c.

Definition between (lo hi : N) (c : ascii) : bool :=
  (lo <=? code c)%N && (code c <=? hi)%N.

Definition is_code (n : N) (c : ascii) : bool := (code c =? n)%N.

(** [str.isspace] on one character. *)
Definition isspace (c : ascii) : bool :=
  between 9 13 c || between 28 32 c || is_code 133 c || is_code 160 c.

(** The line boundaries of [str.splitlines]. *)
Definition is_linebreak (c : ascii) : bool :=
  between 10 13 c || between 28 30 c || is_code 133 c.

(** [str.isalnum] on one character: letters, decimal digits, and the
    other characters with a numeric value. *)
Definition isalnum_char (c : ascii) : bool :=
  between 48 57 c || between 65 90 c || between 97 122 c
  || is_code 170 c || between 178 179 c || is_code 181 c || between 185 186 c
  || between 188 190 c || between 192 214 c || between 216 246 c
  || between 248 255 c.

Fixpoint all_chars (p : ascii -> bool) (s : string) : bool :=
  match s with
  | EmptyString => true
  | String c r => p c && all_chars p r
  end.

Fixpoint any_char (p : ascii -> bool) (s : string) : bool :=
  match s with
  | EmptyString => false
  | String c r => p c || any_char p r
  end.

(** [s.isalnum()]: false on the empty string. *)
Definition isalnum (s : string) : bool :=
  match s with
  | EmptyString => false
  | _ => all_chars isalnum_char s
  end.

(** [s.replace(c, "")] for a one-character [c]. *)
Fixpoint remove_char (c : ascii) (s : string) : string :=
  match s with
  | EmptyString => EmptyString
  | String d r => if (d =? c)%char then remove_char c r
                  else String d (remove_char c r)
  end.

Fixpoint lstrip (s : string) : string :=
  match s with
  | EmptyString => EmptyString
  | String c r => if isspace c then lstrip r else s
  end.

Fixpoint rstrip (s : string) : string :=
  match s with
  | EmptyString => EmptyString
  | String c r =>
      match rstrip r with
      | EmptyString => if isspace c then EmptyString else String c EmptyString
      | r' => String c r'
      end
  end.

(** [s.strip()]. *)
Definition strip (s : string) : string := rstrip (lstrip s).

Definition starts_with_lf (s : string) : bool :=
  match s with
  | String c _ => is_code 10 c
  | EmptyString => false
  end.

(** [s.splitlines()]: the lines without their boundaries; a carriage
    return followed by a line feed is one boundary, and a final boundary
    opens no further line. *)
Fixpoint splitlines (s : string) : list string :=
  match s with
  | EmptyString => []
  | String c r =>
      if is_linebreak c then
        if is_code 13 c && starts_with_lf r then splitlines r
        else EmptyString :: splitlines r
      else match splitlines r with
           | [] => [String c EmptyString]
           | l :: ls => String c l :: ls
           end
  end.

(** [s.split(sep, 1)] when [sep in s]: the text before the first [sep]
    and the text after it; [None] when [sep] does not occur. *)
Fixpoint split_once (sep : ascii) (s : string) : option (string * string) :=
  match s with
  | EmptyString => None
  | String c r =>
      if (c =? sep)%char then Some (EmptyString, r)
      else match split_once sep r with
           | Some (a, b) => Some (String c a, b)
           | None => None
           end
  end.

(** [needle in hay]. *)
Fixpoint contains (needle hay : string) : bool :=
  String.prefix needle hay
  || match hay with
     | EmptyString => false
     | String _ r => contains needle r
     end.

Definition startswith (s p : string) : bool := String.prefix p s.

Definition nl : string := String (ascii_of_N 10) EmptyString.

(** [sep.join(l)]. *)
Definition join (sep : string) (l : list string) : string :=
  String.concat sep l.

(** [sorted(l)] on strings, which Python compares code point by code
    point. *)
Fixpoint insert_sorted (x : string) (l : list string) : list string :=
  match l with
  | [] => [x]
  | y :: r => if (x <=? y)%string then x :: l else y :: insert_sorted x r
  end.

Fixpoint sorted (l : list string) : list string :=
  match l with
  | [] => []
  | x :: r => insert_sorted x (sorted r)
  end.

(** Sets of strings. *)
Definition pyset := list string.

Definition set_mem (x : string) (s : pyset) : bool :=
  existsb (String.eqb x) s.

Definition set_add (x : string) (s : pyset) : pyset :=
  if set_mem x s then s else (s ++ [x])%list.

Definition set_discard (x : string) (s : pyset) : pyset :=
  filter (fun y => negb (y =? x)) s.

Fixpoint set_of_list (l : list string) : pyset :=
  match l with
  | [] => []
  | x :: r => let s := set_of_list r in
              if set_mem x s then s else x :: s
  end.

End Py.

(* ================================================================== *)
(** * Python dictionaries with string keys *)
(* ================================================================== *)

Section Dict.
Context {V : Type}.

Definition dict := list (string * V).

(** [d.get(k)] *)
Fixpoint dict_get (d : dict) (k : string) : option V :=
  match d with
  | [] => None
  | (k', v) :: r => if k' =? k then Some v else dict_get r k
  end.

(** [k in d] *)
Definition dict_mem (k : string) (d : dict) : bool :=
  match dict_get d k with
  | Some _ => true
  | None => false
  end.

(** [d[k] = v]: an existing key keeps its place. *)
Fixpoint dict_set (d : dict) (k : string) (v : V) : dict :=
  match d with
  | [] => [(k, v)]
  | (k', v') :: r => if k' =? k then (k', v) :: r
                     else (k', v') :: dict_set r k v
  end.

(** [del d[k]] for a present key, [d.pop(k, None)] in general. *)
Definition dict_del (d : dict) (k : string) : dict :=
  filter (fun p => negb (fst p =? k)) d.

Definition dict_keys (d : dict) : list string := map fst d.
End Dict.

Arguments dict V : clear implicits.

(* ================================================================== *)
(** * JSON values and the Python operations applied to them *)
(* ================================================================== *)

(** What [json.loads] returns.  Of a float the model keeps the two things
    Python code can observe without arithmetic: whether it is non-zero
    and how [str] prints it. *)
#[local] Unset Elimination Schemes.
Inductive json : Type :=
| JNull
| JBool (b : bool)
| JInt (n : Z)
| JFloat (nonzero : bool) (text : string)
| JStr (s : string)
| JList (l : list json)
| JDict (kv : list (string * json)).
#[local] Set Elimination Schemes.

(** The exceptions the handlers can let escape. *)
Inductive exn : Type :=
| FileNotFoundError
| JSONDecodeError
| AttributeError
| KeyError
| TypeError
| IndexError.

(** A computation that returns or raises. *)
Definition res (A : Type) : Type := (exn + A)%type.

Definition rbind {A B : Type} (m : res A) (k : A -> res B) : res B :=
  match m with
  | inl e => inl e
  | inr a => k a
  end.

Notation "x <-? m ;; k" := (rbind m (fun x => k))
  (at level 61, m at next level, right associativity).

Fixpoint map_res {A B : Type} (f : A -> res B) (l : list A) : res (list B) :=
  match l with
  | [] => inr []
  | a :: r => b <-? f a ;; bs <-? map_res f r ;; inr (b :: bs)
  end.

Module PyVal.

(** Truth value of [if v:]. *)
Definition truthy (v : json) : bool :=
  match v with
  | JNull => false
  | JBool b => b
  | JInt n => negb (n =? 0)%Z
  | JFloat nonzero _ => nonzero
  | JStr s => negb (s =? "")
  | JList l => match l with [] => false | _ => true end
  | JDict kv => match kv with [] => false | _ => true end
  end.

(** [v.get(k, default)]: only a dict has [get]. *)
Definition get (v : json) (k : string) (default : json) : res json :=
  match v with
  | JDict kv => inr (match dict_get kv k with
                     | Some x => x
                     | None => default
                     end)
  | _ => inl AttributeError
  end.

(** [v[k]] for a string [k]. *)
Definition getitem (v : json) (k : string) : res json :=
  match v with
  | JDict kv => match dict_get kv k with
                | Some x => inr x
                | None => inl KeyError
                end
  | _ => inl TypeError
  end.

(** [v[0]]. *)
Definition item0 (v : json) : res json :=
  match v with
  | JList (x :: _) => inr x
  | JList [] => inl IndexError
  | JStr (String c _) => inr (JStr (String c EmptyString))
  | JStr EmptyString => inl IndexError
  | JDict _ => inl KeyError
  | _ => inl TypeError
  end.

(** [v[k] = x] for a string [k]. *)
Definition setitem (v : json) (k : string) (x : json) : res json :=
  match v with
  | JDict kv => inr (JDict (dict_set kv k x))
  | _ => inl TypeError
  end.

(** [v.pop(k, None)]: a list takes one argument at most, the other
    values have no [pop]. *)
Definition pop (v : json) (k : string) : res json :=
  match v with
  | JDict kv => inr (JDict (dict_del kv k))
  | JList _ => inl TypeError
  | _ => inl AttributeError
  end.

(** The items [for x in v] runs through. *)
Definition iter (v : json) : res (list json) :=
  match v with
  | JList l => inr l
  | JDict kv => inr (map (fun p => JStr (fst p)) kv)
  | JStr s => inr (map (fun c => JStr (String c EmptyString))
                       (list_ascii_of_string s))
  | _ => inl TypeError
  end.

Definition hex_digit (n : N) : ascii :=
  if (n <? 10)%N then ascii_of_N (48 + n) else ascii_of_N (87 + n).

Definition hex2 (c : ascii) : string :=
  String (hex_digit (Py.code c / 16)) (String (hex_digit (Py.code c mod 16)) EmptyString).

Definition dquote : ascii := ascii_of_N 34.
Definition squote : ascii := ascii_of_N 39.
Definition backslash : ascii := ascii_of_N 92.

Definition escape_char (q c : ascii) : string :=
  if (c =? q)%char || (c =? backslash)%char
  then String backslash (String c EmptyString)
  else if Py.is_code 9 c then "\t"
  else if Py.is_code 10 c then "\n"
  else if Py.is_code 13 c then "\r"
  else if (Py.code c <? 32)%N || Py.is_code 127 c then "\x" ++ hex2 c
  else if (Py.code c <? 127)%N then String c EmptyString
  else if (Py.code c <=? 160)%N || Py.is_code 173 c then "\x" ++ hex2 c
  else String c EmptyString.

Fixpoint escape (q : ascii) (s : string) : string :=
  match s with
  | EmptyString => EmptyString
  | String c r => escape_char q c ++ escape q r
  end.

(** [repr(s)] of a string: single quotes unless the text has a single
    quote and no double quote. *)
Definition repr_str (s : string) : string :=
  let q := if Py.any_char (Ascii.eqb squote) s
              && negb (Py.any_char (Ascii.eqb dquote) s)
           then dquote else squote in
  String q (escape q s ++ String q EmptyString).

Fixpoint repr (v : json) : string :=
  match v with
  | JNull => "None"
  | JBool true => "True"
  | JBool false => "False"
  | JInt n => NilZero.string_of_int (Z.to_int n)
  | JFloat _ text => text
  | JStr s => repr_str s
  | JList l => "[" ++ Py.join ", " (map repr l) ++ "]"
  | JDict kv =>
      "{" ++ Py.join ", "
               (map (fun p => let '(k, x) := p in repr_str k ++ ": " ++ repr x) kv)
          ++ "}"
  end.

(** What an f-string field [{v}] prints. *)
Definition format (v : json) : string :=
  match v with
  | JStr s => s
  | _ => repr v
  end.

End PyVal.

(* ================================================================== *)
(** * The files and the handler monad *)
(* ================================================================== *)

(** The text of a JSON file as [json.loads] sees it. *)
Inductive json_text : Type :=
| Garbage
| Doc (j : json).

(** An entry of [SUB_DIR]; of a regular file, [decoded] is the result of
    [base64.b64decode(f.read_text().strip()).decode()], [None] when that
    raises. *)
Inductive dir_entry : Type :=
| Directory (name : string)
| File (name : string) (decoded : option string).

Definition entry_name (e : dir_entry) : string :=
  match e with
  | Directory n => n
  | File n _ => n
  end.

(** The files under [/data]; a missing file is [None].  [sub_dir] lists
    [SUB_DIR] in the order [iterdir()] yields it.  [xray_restarts] counts
    the calls of [restart_xray]. *)
Record fs : Type := mkFs {
  uuids_file : option string;       (* CONFIG_DIR / ".user_uuids" *)
  disabled_file : option string;    (* CONFIG_DIR / ".disabled_users" *)
  config_file : option json_text;   (* CONFIG_DIR / "config.json" *)
  sub_dir : list dir_entry;         (* SUB_DIR *)
  totals_file : option json_text;   (* MON_DIR / "totals.json" *)
  stats_file : option json_text;    (* MON_DIR / "stats.json" *)
  history_file : option json_text;  (* MON_DIR / "history.json" *)
  xray_restarts : nat
}.

Definition set_uuids_file (t : option string) (st : fs) : fs :=
  mkFs t (disabled_file st) (config_file st) (sub_dir st)
       (totals_file st) (stats_file st) (history_file st) (xray_restarts st).

Definition set_disabled_file (t : option string) (st : fs) : fs :=
  mkFs (uuids_file st) t (config_file st) (sub_dir st)
       (totals_file st) (stats_file st) (history_file st) (xray_restarts st).

Definition set_config_file (t : option json_text) (st : fs) : fs :=
  mkFs (uuids_file st) (disabled_file st) t (sub_dir st)
       (totals_file st) (stats_file st) (history_file st) (xray_restarts st).

Definition set_sub_dir (d : list dir_entry) (st : fs) : fs :=
  mkFs (uuids_file st) (disabled_file st) (config_file st) d
       (totals_file st) (stats_file st) (history_file st) (xray_restarts st).

Definition set_totals_file (t : option json_text) (st : fs) : fs :=
  mkFs (uuids_file st) (disabled_file st) (config_file st) (sub_dir st)
       t (stats_file st) (history_file st) (xray_restarts st).

Definition set_stats_file (t : option json_text) (st : fs) : fs :=
  mkFs (uuids_file st) (disabled_file st) (config_file st) (sub_dir st)
       (totals_file st) t (history_file st) (xray_restarts st).

Definition set_history_file (t : option json_text) (st : fs) : fs :=
  mkFs (uuids_file st) (disabled_file st) (config_file st) (sub_dir st)
       (totals_file st) (stats_file st) t (xray_restarts st).

Definition set_xray_restarts (n : nat) (st : fs) : fs :=
  mkFs (uuids_file st) (disabled_file st) (config_file st) (sub_dir st)
       (totals_file st) (stats_file st) (history_file st) n.

(** A handler step: it returns or raises, and leaves the files as they
    are at that point. *)
Definition M (A : Type) : Type := fs -> res A * fs.

Definition ret {A : Type} (a : A) : M A := fun st => (inr a, st).

Definition raise {A : Type} (e : exn) : M A := fun st => (inl e, st).

Definition bind {A B : Type} (m : M A) (k : A -> M B) : M B :=
  fun st => match m st with
            | (inr a, st') => k a st'
            | (inl e, st') => (inl e, st')
            end.

Notation "x <- m ;; k" := (bind m (fun x => k))
  (at level 61, m at next level, right associativity).
Notation "m ;;; k" := (bind m (fun _ => k))
  (at level 61, right associativity).

(** Reading through a function of the files, running a computation that
    may raise, changing the files. *)
Definition gets {A : Type} (f : fs -> A) : M A := fun st => (inr (f st), st).

Definition lift {A : Type} (r : res A) : M A := fun st => (r, st).

Definition modify (f : fs -> fs) : M unit := fun st => (inr tt, f st).

(** [try: m  except Exception: pass] *)
Definition try_pass (m : M unit) : M unit :=
  fun st => match m st with
            | (inl _, st') => (inr tt, st')
            | r => r
            end.

(** The environment variables read at start-up; [REALITY_PUBLIC_KEY] may
    be unset. *)
Record Env : Type := mkEnv {
  DOMAIN : string;
  SERVER_ADDRESS : string;
  SUB_PORT : string;
  REALITY_PUBLIC_KEY : option string
}.

(** What [jsonify(body), status] sends. *)
Record response : Type := mkResponse {
  status : nat;
  body : json
}.

(* ================================================================== *)
(** * The helpers of [app.py] *)
(* ================================================================== *)

(** One line of [.user_uuids] read into [result]: a line without a colon
    is skipped, a repeated name overwrites. *)
Definition parse_uuid_line (result : dict string) (line : string) : dict string :=
  match Py.split_once ":"%char line with
  | Some (name, uid) => dict_set result (Py.strip name) (Py.strip uid)
  | None => result
  end.

Definition read_uuids (st : fs) : dict string :=
  match uuids_file st with
  | Some text => fold_left parse_uuid_line (Py.splitlines (Py.strip text)) []
  | None => []
  end.

Definition uuids_text (uuids : dict string) : string :=
  match uuids with
  | [] => ""
  | _ => Py.join Py.nl (map (fun p => fst p ++ ":" ++ snd p) uuids) ++ Py.nl
  end.

Definition write_uuids (uuids : dict string) (st : fs) : fs :=
  set_uuids_file (Some (uuids_text uuids)) st.

Definition read_disabled (st : fs) : Py.pyset :=
  match disabled_file st with
  | Some text => Py.set_of_list (Py.splitlines (Py.strip text))
  | None => []
  end.

Definition disabled_text (disabled : Py.pyset) : string :=
  match disabled with
  | [] => ""
  | _ => Py.join Py.nl (Py.sorted disabled) ++ Py.nl
  end.

Definition write_disabled (disabled : Py.pyset) (st : fs) : fs :=
  set_disabled_file (Some (disabled_text disabled)) st.

Definition json_loads (t : json_text) : res json :=
  match t with
  | Doc j => inr j
  | Garbage => inl JSONDecodeError
  end.

Definition read_config (st : fs) : res json :=
  match config_file st with
  | Some t => json_loads t
  | None => inl FileNotFoundError
  end.

Definition write_config (cfg : json) (st : fs) : fs :=
  set_config_file (Some (Doc cfg)) st.

Definition read_totals (st : fs) : json :=
  match totals_file st with
  | Some (Doc j) => j
  | _ => JDict []
  end.

Definition write_totals (totals : json) (st : fs) : fs :=
  set_totals_file (Some (Doc totals)) st.

(** The loop of [find_subscription_token] over [SUB_DIR.iterdir()]. *)
Fixpoint scan_subscriptions (user_uuid : string) (entries : list dir_entry)
  : option string :=
  match entries with
  | [] => None
  | File name decoded :: rest =>
      if negb (Py.startswith name ".") then
        match decoded with
        | Some content =>
            if Py.contains user_uuid content then Some name
            else scan_subscriptions user_uuid rest
        | None => scan_subscriptions user_uuid rest
        end
      else scan_subscriptions user_uuid rest
  | Directory _ :: rest => scan_subscriptions user_uuid rest
  end.

Definition find_subscription_token (username : string) (st : fs) : option string :=
  match dict_get (read_uuids st) username with
  | None => None
  | Some user_uuid =>
      if user_uuid =? "" then None
      else scan_subscriptions user_uuid (sub_dir st)
  end.

(** The URL both [get_subscription_url] and [create_user] build. *)
Definition subscription_url (E : Env) (token : string) : string :=
  if DOMAIN E =? ""
  then "http://" ++ SERVER_ADDRESS E ++ ":" ++ SUB_PORT E ++ "/sub/" ++ token
  else "https://" ++ DOMAIN E ++ ":" ++ SUB_PORT E ++ "/sub/" ++ token.

Definition get_subscription_url (E : Env) (username : string) (st : fs)
  : option string :=
  match find_subscription_token username st with
  | Some token => if token =? "" then None else Some (subscription_url E token)
  | None => None
  end.

(** [rs[key][0] if rs.get(key) else ""] *)
Definition first_or_empty (rs : json) (key : string) : res json :=
  v <-? PyVal.get rs key JNull ;;
  if PyVal.truthy v
  then x <-? PyVal.getitem rs key ;; PyVal.item0 x
  else inr (JStr "").

(** [load_reality_params] stores the empty string under ["publicKey"]
    or leaves [REALITY] empty, so [REALITY.get("publicKey", "")] is
    empty either way. *)
Definition pbk (E : Env) : string :=
  match REALITY_PUBLIC_KEY E with
  | Some k => k
  | None => ""
  end.

Definition vless_link (E : Env) (username user_uuid : string) (sni sid : json)
  : string :=
  "vless://" ++ user_uuid ++ "@" ++ SERVER_ADDRESS E ++ ":443"
  ++ "?security=reality&encryption=none&flow=xtls-rprx-vision"
  ++ "&pbk=" ++ pbk E ++ "&fp=chrome&sni=" ++ PyVal.format sni
  ++ "&sid=" ++ PyVal.format sid ++ "&type=tcp"
  ++ "#" ++ username.

(** The loop of [build_vless_link] over the inbounds. *)
Fixpoint vless_of_inbounds (E : Env) (username user_uuid : string)
  (inbounds : list json) : res (option string) :=
  match inbounds with
  | [] => inr None
  | inbound :: rest =>
      ss <-? PyVal.get inbound "streamSettings" (JDict []) ;;
      rs <-? PyVal.get ss "realitySettings" JNull ;;
      if PyVal.truthy rs then
        sni <-? first_or_empty rs "serverNames" ;;
        sid <-? first_or_empty rs "shortIds" ;;
        inr (Some (vless_link E username user_uuid sni sid))
      else vless_of_inbounds E username user_uuid rest
  end.

Definition build_vless_link (E : Env) (username user_uuid : string)
  : M (option string) :=
  cfg <- (fun st => (read_config st, st)) ;;
  lift (inbounds <-? PyVal.get cfg "inbounds" (JList []) ;;
        items <-? PyVal.iter inbounds ;;
        vless_of_inbounds E username user_uuid items).

(** [sub_path.write_text(...)]: an existing file is overwritten where it
    is, a new one is listed last. *)
Definition write_sub (token content : string) (entries : list dir_entry)
  : list dir_entry :=
  if existsb (fun e => entry_name e =? token) entries
  then map (fun e => if entry_name e =? token
                     then File token (Some content) else e) entries
  else (entries ++ [File token (Some content)])%list.

(** [token_hex] is the value [secrets.token_hex(16)] returns. *)
Definition create_subscription_file (E : Env) (username user_uuid : string)
  (token_hex : string) : M (option string) :=
  vless <- build_vless_link E username user_uuid ;;
  match vless with
  | None => ret None
  | Some link =>
      if link =? "" then ret None
      else modify (fun st => set_sub_dir (write_sub token_hex link (sub_dir st)) st) ;;;
           ret (Some token_hex)
  end.

Definition client_record (name uid : string) : json :=
  JDict [("id", JStr uid); ("flow", JStr "xtls-rprx-vision");
         ("email", JStr name); ("level", JInt 0)].

Definition active_uuids (uuids : dict string) (disabled : Py.pyset)
  : dict string :=
  filter (fun p => negb (Py.set_mem (fst p) disabled)) uuids.

Definition is_vless (v : json) : bool :=
  match v with
  | JStr s => s =? "vless"
  | _ => false
  end.

(** The loop of [rebuild_xray_config]: the first inbound whose protocol
    is ["vless"] gets the clients, and the loop stops there. *)
Fixpoint set_clients (clients : json) (inbounds : list json) : res (list json) :=
  match inbounds with
  | [] => inr []
  | inbound :: rest =>
      proto <-? PyVal.get inbound "protocol" JNull ;;
      if is_vless proto then
        settings <-? PyVal.getitem inbound "settings" ;;
        settings' <-? PyVal.setitem settings "clients" clients ;;
        inbound' <-? PyVal.setitem inbound "settings" settings' ;;
        inr (inbound' :: rest)
      else
        rest' <-? set_clients clients rest ;;
        inr (inbound :: rest')
  end.

(** The configuration after the loop: the inbounds are changed in place,
    so only a list stored under ["inbounds"] shows the change. *)
Definition with_clients (clients : json) (cfg : json) : res json :=
  match cfg with
  | JDict kv =>
      match dict_get kv "inbounds" with
      | None => inr cfg
      | Some (JList l) =>
          l' <-? set_clients clients l ;;
          inr (JDict (dict_set kv "inbounds" (JList l')))
      | Some other =>
          items <-? PyVal.iter other ;;
          _ <-? set_clients clients items ;;
          inr cfg
      end
  | _ => inl AttributeError
  end.

Definition rebuild_xray_config (uuids : dict string) (disabled : Py.pyset)
  : M unit :=
  cfg <- (fun st => (read_config st, st)) ;;
  let clients :=
    JList (map (fun p => client_record (fst p) (snd p))
               (active_uuids uuids disabled)) in
  cfg' <- lift (with_clients clients cfg) ;;
  modify (write_config cfg').

Definition restart_xray : M unit :=
  modify (fun st => set_xray_restarts (S (xray_restarts st)) st).

(* ================================================================== *)
(** * The endpoints *)
(* ================================================================== *)

Definition error_response (code : nat) (msg : string) : response :=
  mkResponse code (JDict [("error", JStr msg)]).

Definition message_response (msg : string) : response :=
  mkResponse 200 (JDict [("message", JStr msg)]).

(** [status] as [list_users] computes it. *)
Definition user_status (disabled : Py.pyset) (name : string) : string :=
  if Py.set_mem name disabled then "disabled" else "active".

(** The [username] and [status] fields of the users [list_users]
    returns. *)
Definition list_users (st : fs) : list (string * string) :=
  let disabled := read_disabled st in
  map (fun p => (fst p, user_status disabled (fst p))) (read_uuids st).

(** [v.strip()] *)
Definition py_strip (v : json) : res string :=
  match v with
  | JStr s => inr (Py.strip s)
  | _ => inl AttributeError
  end.

(** [POST /api/users].  [request_json] is [request.get_json(silent=True)],
    [user_uuid] the value of [str(uuid.uuid4())] and [token_hex] that of
    [secrets.token_hex(16)]. *)
Definition create_user (E : Env) (request_json : option json)
  (user_uuid token_hex : string) : M response :=
  let data := match request_json with
              | Some j => if PyVal.truthy j then j else JDict []
              | None => JDict []
              end in
  raw <- lift (PyVal.get data "username" (JStr "")) ;;
  username <- lift (py_strip raw) ;;
  if username =? "" then
    ret (error_response 400 "Username is required")
  else if (32 <? String.length username)%nat then
    ret (error_response 400 "Username too long (max 32 chars)")
  else if negb (Py.isalnum (Py.remove_char "-" (Py.remove_char "_" username))) then
    ret (error_response 400 "Username must be alphanumeric (with _ or -)")
  else
    uuids <- gets read_uuids ;;
    if dict_mem username uuids then
      ret (error_response 409 ("User '" ++ username ++ "' already exists"))
    else
      let uuids := dict_set uuids username user_uuid in
      modify (write_uuids uuids) ;;;
      token <- create_subscription_file E username user_uuid token_hex ;;
      disabled <- gets read_disabled ;;
      rebuild_xray_config uuids disabled ;;;
      restart_xray ;;;
      let sub_url := match token with
                     | Some t => if t =? "" then JNull
                                 else JStr (subscription_url E t)
                     | None => JNull
                     end in
      ret (mkResponse 201
             (JDict [("username", JStr username); ("uuid", JStr user_uuid);
                     ("subscription_url", sub_url); ("status", JStr "active")])).

(** [sub_path.unlink()] *)
Definition unlink (token : string) (entries : list dir_entry) : list dir_entry :=
  filter (fun e => negb (entry_name e =? token)) entries.

(** [entry.get("users", {}).pop(name, None)], which changes [entry] in
    place when it has a ["users"] dict. *)
Definition pop_user (name : string) (entry : json) : res json :=
  match entry with
  | JDict kv =>
      match dict_get kv "users" with
      | None => inr entry
      | Some users =>
          users' <-? PyVal.pop users name ;;
          inr (JDict (dict_set kv "users" users'))
      end
  | _ => inl AttributeError
  end.

(** The history after the loop over its entries. *)
Definition pop_user_everywhere (name : string) (history : json) : res json :=
  match history with
  | JList l => l' <-? map_res (pop_user name) l ;; inr (JList l')
  | other =>
      items <-? PyVal.iter other ;;
      _ <-? map_res (pop_user name) items ;;
      inr other
  end.

(** [DELETE /api/users/<name>] *)
Definition delete_user (name : string) : M response :=
  uuids <- gets read_uuids ;;
  if negb (dict_mem name uuids) then
    ret (error_response 404 ("User '" ++ name ++ "' not found"))
  else
    token <- gets (find_subscription_token name) ;;
    match token with
    | Some t => if t =? "" then ret tt
                else modify (fun st => set_sub_dir (unlink t (sub_dir st)) st)
    | None => ret tt
    end ;;;
    let uuids := dict_del uuids name in
    modify (write_uuids uuids) ;;;
    disabled <- gets read_disabled ;;
    let disabled := Py.set_discard name disabled in
    modify (write_disabled disabled) ;;;
    totals <- gets read_totals ;;
    totals <- lift (PyVal.pop totals name) ;;
    modify (write_totals totals) ;;;
    stats_text <- gets stats_file ;;
    match stats_text with
    | Some text =>
        try_pass (stats <- lift (json_loads text) ;;
                  stats <- lift (pop_user name stats) ;;
                  modify (set_stats_file (Some (Doc stats))))
    | None => ret tt
    end ;;;
    history_text <- gets history_file ;;
    match history_text with
    | Some text =>
        try_pass (history <- lift (json_loads text) ;;
                  history <- lift (pop_user_everywhere name history) ;;
                  modify (set_history_file (Some (Doc history))))
    | None => ret tt
    end ;;;
    rebuild_xray_config uuids disabled ;;;
    restart_xray ;;;
    ret (message_response ("User '" ++ name ++ "' deleted")).

(** [POST /api/users/<name>/disable] *)
Definition disable_user (name : string) : M response :=
  uuids <- gets read_uuids ;;
  if negb (dict_mem name uuids) then
    ret (error_response 404 ("User '" ++ name ++ "' not found"))
  else
    disabled <- gets read_disabled ;;
    if Py.set_mem name disabled then
      ret (message_response ("User '" ++ name ++ "' is already disabled"))
    else
      let disabled := Py.set_add name disabled in
      modify (write_disabled disabled) ;;;
      rebuild_xray_config uuids disabled ;;;
      restart_xray ;;;
      ret (message_response ("User '" ++ name ++ "' disabled")).

(** [POST /api/users/<name>/enable] *)
Definition enable_user (name : string) : M response :=
  uuids <- gets read_uuids ;;
  if negb (dict_mem name uuids) then
    ret (error_response 404 ("User '" ++ name ++ "' not found"))
  else
    disabled <- gets read_disabled ;;
    if negb (Py.set_mem name disabled) then
      ret (message_response ("User '" ++ name ++ "' is already enabled"))
    else
      let disabled := Py.set_discard name disabled in
      modify (write_disabled disabled) ;;;
      rebuild_xray_config uuids disabled ;;;
      restart_xray ;;;
      ret (message_response ("User '" ++ name ++ "' enabled")).

Definition zero_traffic : json :=
  JDict [("up", JInt 0); ("dn", JInt 0); ("last_seen", JStr "")].

(** [POST /api/users/<name>/reset] *)
Definition reset_traffic (name : string) : M response :=
  uuids <- gets read_uuids ;;
  if negb (dict_mem name uuids) then
    ret (error_response 404 ("User '" ++ name ++ "' not found"))
  else
    totals <- gets read_totals ;;
    totals <- lift (PyVal.setitem totals name zero_traffic) ;;
    modify (write_totals totals) ;;;
    ret (message_response ("Traffic reset for '" ++ name ++ "'")).

(** The state-changing requests, with the random values the handler
    draws. *)
Inductive request : Type :=
| Create (request_json : option json) (user_uuid token_hex : string)
| Delete (name : string)
| Disable (name : string)
| Enable (name : string)
| Reset (name : string).

Definition handle (E : Env) (r : request) : M response :=
  match r with
  | Create j user_uuid token_hex => create_user E j user_uuid token_hex
  | Delete name => delete_user name
  | Disable name => disable_user name
  | Enable name => enable_user name
  | Reset name => reset_traffic name
  end.

(* ================================================================== *)
(** * The notions the specification speaks of *)
(* ================================================================== *)

(** ** Usernames *)

Definition allowed_char (c : ascii) : bool :=
  Py.isalnum_char c || (c =? "_")%char || (c =? "-")%char.

(** A name of 1 to 32 characters, all of them alphanumeric, [_] or [-]. *)
Definition wellformed_username (u : string) : bool :=
  negb (u =? "") && (String.length u <=? 32)%nat && Py.all_chars allowed_char u.

(** The names [create_user] lets through: well-formed and with one
    alphanumeric character at least. *)
Definition accepted_username (u : string) : bool :=
  wellformed_username u && Py.any_char Py.isalnum_char u.

(** The request body [{"username": raw}]. *)
Definition username_body (raw : string) : option json :=
  Some (JDict [("username", JStr raw)]).

(** The shape of the text [str(uuid.uuid4())] returns: hexadecimal
    digits and hyphens. *)
Definition uuid_char (c : ascii) : bool :=
  Py.between 48 57 c || Py.between 97 102 c || (c =? "-")%char.

Definition uuid_like (u : string) : bool :=
  negb (u =? "") && Py.all_chars uuid_char u.

(** ** The store *)

(** The Disabled Set lies within the usernames of the Credential Table. *)
Definition disabled_subset (st : fs) : bool :=
  forallb (fun n => dict_mem n (read_uuids st)) (read_disabled st).

(** The store as the endpoints keep it: no empty username in the
    Credential Table, and the Disabled Set within the table. *)
Definition store_inv (st : fs) : bool :=
  negb (dict_mem "" (read_uuids st)) && disabled_subset st.

(** The files before the first request. *)
Definition empty_store (cfg : option json_text) : fs :=
  mkFs None None cfg [] None None None 0.

(** ** The downstream configuration *)

(** The inbound [rebuild_xray_config] writes to: the first one whose
    protocol is ["vless"]. *)
Fixpoint vless_inbound (inbounds : list json) : option (list (string * json)) :=
  match inbounds with
  | [] => None
  | JDict kv :: rest =>
      match dict_get kv "protocol" with
      | Some proto => if is_vless proto then Some kv else vless_inbound rest
      | None => vless_inbound rest
      end
  | _ :: rest => vless_inbound rest
  end.

Definition config_inbounds (st : fs) : option (list json) :=
  match config_file st with
  | Some (Doc (JDict kv)) =>
      match dict_get kv "inbounds" with
      | Some (JList l) => Some l
      | _ => None
      end
  | _ => None
  end.

Definition has_vless_inbound (st : fs) : bool :=
  match config_inbounds st with
  | Some l => match vless_inbound l with Some _ => true | None => false end
  | None => false
  end.

(** The active-client list of the downstream configuration. *)
Definition active_clients (st : fs) : option json :=
  match config_inbounds st with
  | Some l =>
      match vless_inbound l with
      | Some kv =>
          match dict_get kv "settings" with
          | Some (JDict s) => dict_get s "clients"
          | _ => None
          end
      | None => None
      end
  | None => None
  end.

(** One client record per user of the Credential Table that is not in
    the Disabled Set. *)
Definition expected_clients (st : fs) : json :=
  JList (map (fun p => client_record (fst p) (snd p))
             (active_uuids (read_uuids st) (read_disabled st))).

(** The identifiers the active-client list holds. *)
Definition client_ids (clients : option json) : list json :=
  match clients with
  | Some (JList l) =>
      flat_map (fun c => match c with
                         | JDict kv => match dict_get kv "id" with
                                       | Some i => [i]
                                       | None => []
                                       end
                         | _ => []
                         end) l
  | _ => []
  end.

(** A configuration no handler trips over: an object whose inbounds are
    objects, with object stream and reality settings whose server names
    and short ids are lists, and object settings on the vless ones. *)
Definition field_ok (kv : list (string * json)) (k : string)
  (p : json -> bool) : bool :=
  match dict_get kv k with
  | Some v => p v
  | None => true
  end.

Definition is_list (v : json) : bool :=
  match v with JList _ => true | _ => false end.

Definition is_dict (v : json) : bool :=
  match v with JDict _ => true | _ => false end.

Definition reality_wf (rs : json) : bool :=
  match rs with
  | JDict r => field_ok r "serverNames" is_list && field_ok r "shortIds" is_list
  | _ => negb (PyVal.truthy rs)
  end.

Definition stream_wf (ss : json) : bool :=
  match ss with
  | JDict s => field_ok s "realitySettings" reality_wf
  | _ => false
  end.

Definition inbound_wf (inbound : json) : bool :=
  match inbound with
  | JDict kv =>
      field_ok kv "streamSettings" stream_wf
      && match dict_get kv "protocol" with
         | Some proto =>
             if is_vless proto
             then match dict_get kv "settings" with
                  | Some (JDict _) => true
                  | _ => false
                  end
             else true
         | None => true
         end
  | _ => false
  end.

Definition config_wf (st : fs) : bool :=
  match config_file st with
  | Some (Doc (JDict kv)) =>
      field_ok kv "inbounds"
        (fun v => match v with
                  | JList l => forallb inbound_wf l
                  | _ => false
                  end)
  | _ => false
  end.

(** No inbound carries reality settings. *)
Definition no_reality (inbound : json) : bool :=
  match inbound with
  | JDict kv =>
      field_ok kv "streamSettings"
        (fun ss => match ss with
                   | JDict s => field_ok s "realitySettings"
                                  (fun rs => negb (PyVal.truthy rs))
                   | _ => false
                   end)
  | _ => false
  end.

Definition config_without_reality (st : fs) : bool :=
  match config_file st with
  | Some (Doc (JDict kv)) =>
      field_ok kv "inbounds"
        (fun v => match v with
                  | JList l => forallb no_reality l
                  | _ => false
                  end)
  | _ => false
  end.

(** ** The monitoring ledgers *)

(** The Traffic Ledger is a mapping, or cannot be read. *)
Definition totals_ok (st : fs) : bool :=
  match totals_file st with
  | Some (Doc j) => is_dict j
  | _ => true
  end.

(** The record of [name] in the Traffic Ledger. *)
Definition traffic_record (st : fs) (name : string) : option json :=
  match read_totals st with
  | JDict kv => dict_get kv name
  | _ => None
  end.

(** [name] has a record under ["users"] of [entry]. *)
Definition has_user (name : string) (entry : json) : bool :=
  match entry with
  | JDict kv => match dict_get kv "users" with
                | Some (JDict users) => dict_mem name users
                | _ => false
                end
  | _ => false
  end.

Definition in_stats (st : fs) (name : string) : bool :=
  match stats_file st with
  | Some (Doc j) => has_user name j
  | _ => false
  end.

Definition in_history (st : fs) (name : string) : bool :=
  match history_file st with
  | Some (Doc (JList l)) => existsb (has_user name) l
  | _ => false
  end.

(** Every history entry is an object whose ["users"], when present, is
    an object. *)
Definition entry_ok (entry : json) : bool :=
  match entry with
  | JDict kv => field_ok kv "users" is_dict
  | _ => false
  end.

Definition history_ok (st : fs) : bool :=
  match history_file st with
  | Some (Doc (JList l)) => forallb entry_ok l
  | _ => true
  end.

(** ** Requests *)

(** The username a [Create] request asks for, once stripped. *)
Definition requested_username (request_json : option json) : option string :=
  match request_json with
  | Some (JDict kv) =>
      match dict_get kv "username" with
      | Some (JStr raw) => Some (Py.strip raw)
      | _ => None
      end
  | _ => None
  end.

(** The request gets past the checks of its handler and reaches the
    configuration rebuild. *)
Definition triggers_rebuild (r : request) (st : fs) : bool :=
  match r with
  | Create j _ _ =>
      match requested_username j with
      | Some u => accepted_username u && negb (dict_mem u (read_uuids st))
      | None => false
      end
  | Delete n => dict_mem n (read_uuids st)
  | Disable n =>
      dict_mem n (read_uuids st) && negb (Py.set_mem n (read_disabled st))
  | Enable n =>
      dict_mem n (read_uuids st) && Py.set_mem n (read_disabled st)
  | Reset _ => false
  end.

(** The identifier drawn for a [Create] has the shape of a UUID. *)
Definition well_drawn (r : request) : bool :=
  match r with
  | Create _ user_uuid _ => uuid_like user_uuid
  | _ => true
  end.

Definition is_response (code : nat) (r : res response) : bool :=
  match r with
  | inr resp => (status resp =? code)%nat
  | inl _ => false
  end.

(* ================================================================== *)
(** * Notions used in the proofs *)
(* ================================================================== *)

(** ** Texts *)

Definition no_space_head (s : string) : bool :=
  match s with
  | EmptyString => true
  | String c _ => negb (Py.isspace c)
  end.

(** A string is trimmed when stripping leaves it as it is. *)
Definition trimmed (s : string) : Prop := Py.lstrip s = s /\ Py.rstrip s = s.

Definition no_break (s : string) : bool :=
  Py.all_chars (fun c => negb (Py.is_linebreak c)) s.

Definition no_colon (s : string) : bool :=
  Py.all_chars (fun c => negb (c =? ":")%char) s.

(** The last element, if any, is not the empty string. *)
Fixpoint ends_nonempty (l : list string) : bool :=
  match l with
  | [] => true
  | [x] => negb (x =? "")
  | _ :: r => ends_nonempty r
  end.

(** Dropping the empty strings at the front and at the back of a list. *)
Fixpoint ltrim_lines (l : list string) : list string :=
  match l with
  | [] => []
  | x :: r => if x =? "" then ltrim_lines r else l
  end.

Fixpoint rtrim_lines (l : list string) : list string :=
  match l with
  | [] => []
  | x :: r => match rtrim_lines r with
              | [] => if x =? "" then [] else [x]
              | r' => x :: r'
              end
  end.

(** A name or identifier as [read_uuids] yields it: stripped and on one
    line. *)
Definition clean (s : string) : Prop := trimmed s /\ no_break s = true.

Definition clean_entry (p : string * string) : Prop :=
  clean (fst p) /\ no_colon (fst p) = true /\ clean (snd p).

Definition clean_dict (d : dict string) : Prop :=
  NoDup (dict_keys d) /\ Forall clean_entry d.

Definition uuid_line (p : string * string) : string := fst p ++ ":" ++ snd p.

(** ** Steps of the handlers *)

(** The link [build_vless_link] returns, as a function of the files. *)
Definition vless_of_config (E : Env) (username user_uuid : string) (st : fs)
  : res (option string) :=
  cfg <-? read_config st ;;
  inbounds <-? PyVal.get cfg "inbounds" (JList []) ;;
  items <-? PyVal.iter inbounds ;;
  vless_of_inbounds E username user_uuid items.

Definition clients_of (uuids : dict string) (disabled : Py.pyset) : json :=
  JList (map (fun p => client_record (fst p) (snd p))
             (active_uuids uuids disabled)).

Definition restarted (st : fs) : fs :=
  set_xray_restarts (S (xray_restarts st)) st.

(** The body of the 201 response. *)
Definition created_response (E : Env) (username user_uuid : string)
  (token : option string) : response :=
  mkResponse 201
    (JDict [("username", JStr username); ("uuid", JStr user_uuid);
            ("subscription_url",
             match token with
             | Some t => if t =? "" then JNull else JStr (subscription_url E t)
             | None => JNull
             end);
            ("status", JStr "active")]).

Definition not_found (name : string) : response :=
  error_response 404 ("User '" ++ name ++ "' not found").

Definition conflict (username : string) : response :=
  error_response 409 ("User '" ++ username ++ "' already exists").

(** The files after the steps of [delete_user] that cannot fail: the
    subscription file is removed, and the user is dropped from
    [stats.json] and [history.json] when these can be read. *)
Definition without_subscription (name : string) (st : fs) : fs :=
  match find_subscription_token name st with
  | Some t => if t =? "" then st else set_sub_dir (unlink t (sub_dir st)) st
  | None => st
  end.

Definition without_stats (name : string) (st : fs) : fs :=
  match stats_file st with
  | Some text =>
      match (stats <-? json_loads text ;; pop_user name stats) with
      | inr stats => set_stats_file (Some (Doc stats)) st
      | inl _ => st
      end
  | None => st
  end.

Definition without_history (name : string) (st : fs) : fs :=
  match history_file st with
  | Some text =>
      match (history <-? json_loads text ;; pop_user_everywhere name history) with
      | inr history => set_history_file (Some (Doc history)) st
      | inl _ => st
      end
  | None => st
  end.

(** The files once [delete_user] has rewritten the two tables. *)
Definition tables_deleted (name : string) (st : fs) : fs :=
  let st2 := write_uuids (dict_del (read_uuids st) name)
               (without_subscription name st) in
  write_disabled (Py.set_discard name (read_disabled st)) st2.

(** The clients of an inbound. *)
Definition inbound_clients (o : option (list (string * json))) : option json :=
  match o with
  | Some kv =>
      match dict_get kv "settings" with
      | Some (JDict s) => dict_get s "clients"
      | _ => None
      end
  | None => None
  end.

(** The texts of [.user_uuids] and [.disabled_users] with the mutation
    of a request applied. *)
Definition tables_after (r : request) (st : fs) : option string * option string :=
  match r with
  | Create j user_uuid _ =>
      match requested_username j with
      | Some u => (Some (uuids_text (dict_set (read_uuids st) u user_uuid)),
                   disabled_file st)
      | None => (uuids_file st, disabled_file st)
      end
  | Delete n =>
      (Some (uuids_text (dict_del (read_uuids st) n)),
       Some (disabled_text (Py.set_discard n (read_disabled st))))
  | Disable n =>
      (uuids_file st, Some (disabled_text (Py.set_add n (read_disabled st))))
  | Enable n =>
      (uuids_file st, Some (disabled_text (Py.set_discard n (read_disabled st))))
  | Reset _ => (uuids_file st, disabled_file st)
  end.

(** The configuration file is missing or is not JSON. *)
Definition config_unreadable (st : fs) : bool :=
  match config_file st with
  | Some (Doc _) => false
  | _ => true
  end.

(** The files at the point where [delete_user] rebuilds the
    configuration. *)
Definition before_rebuild (n : string) (totals : json) (st : fs) : fs :=
  without_history n (without_stats n (write_totals totals (tables_deleted n st))).

(** The Credential Table and the Disabled Set a request holds in memory
    when it rebuilds the configuration. *)
Definition uuids_after (r : request) (st : fs) : dict string :=
  match r with
  | Create j user_uuid _ =>
      match requested_username j with
      | Some u => dict_set (read_uuids st) u user_uuid
      | None => read_uuids st
      end
  | Delete n => dict_del (read_uuids st) n
  | _ => read_uuids st
  end.

Definition disabled_after (r : request) (st : fs) : Py.pyset :=
  match r with
  | Delete n => Py.set_discard n (read_disabled st)
  | Disable n => Py.set_add n (read_disabled st)
  | Enable n => Py.set_discard n (read_disabled st)
  | _ => read_disabled st
  end.

(** The steps of a request up to the rebuild of the configuration: the
    response the request is about to send, or the exception raised so
    far, and the files at that point. *)
Definition prepared (E : Env) (r : request) (st : fs) : res response * fs :=
  match r with
  | Create j user_uuid token_hex =>
      match requested_username j with
      | Some u =>
          let (token, s) :=
            create_subscription_file E u user_uuid token_hex
              (write_uuids (uuids_after r st) st) in
          (t <-? token ;; inr (created_response E u user_uuid t), s)
      | None => (inl AttributeError, st)
      end
  | Delete n =>
      match PyVal.pop (read_totals st) n with
      | inl e => (inl e, tables_deleted n st)
      | inr totals =>
          (inr (message_response ("User '" ++ n ++ "' deleted")),
           before_rebuild n totals st)
      end
  | Disable n =>
      (inr (message_response ("User '" ++ n ++ "' disabled")),
       write_disabled (disabled_after r st) st)
  | Enable n =>
      (inr (message_response ("User '" ++ n ++ "' enabled")),
       write_disabled (disabled_after r st) st)
  | Reset n => (inl AttributeError, st)
  end.

(** The [subscription_url] field of a response. *)
Definition subscription_url_of (resp : response) : option json :=
  match body resp with
  | JDict kv => dict_get kv "subscription_url"
  | _ => None
  end.

(** No other user of the Credential Table has the identifier [uid]. *)
Definition unique_identifier (st : fs) (name uid : string) : bool :=
  forallb (fun p => (fst p =? name) || negb (snd p =? uid)) (read_uuids st).

(* ================================================================== *)
(** * A sample deployment *)
(* ================================================================== *)

Definition demo_env : Env := mkEnv "" "203.0.113.7" "8443" (Some "PUBKEY").

Definition demo_inbound : json :=
  JDict [("protocol", JStr "vless");
         ("settings", JDict [("clients", JList []); ("decryption", JStr "none")]);
         ("streamSettings",
          JDict [("realitySettings",
                  JDict [("serverNames", JList [JStr "example.com"]);
                         ("shortIds", JList [JStr "ab12"])])])].

Definition demo_config : json :=
  JDict [("log", JDict []); ("inbounds", JList [demo_inbound])].

Definition alice_uuid : string := "11111111-1111-4111-8111-111111111111".
Definition bob_uuid : string := "22222222-2222-4222-8222-222222222222".

(** The files before the first request, with a working configuration. *)
Definition demo_fresh : fs := empty_store (Some (Doc demo_config)).

(** The store once alice was created, with a traffic record of hers and
    of bob's in the ledger and in the history. *)
Definition demo_alice : fs :=
  let st := snd (create_user demo_env (username_body "alice") alice_uuid
                   "0123456789abcdef0123456789abcdef" demo_fresh) in
  let users := JDict [("alice", JDict [("up", JInt 500); ("dn", JInt 300);
                                       ("last_seen", JStr "2024-05-01")]);
                      ("bob", JDict [("up", JInt 7); ("dn", JInt 9);
                                     ("last_seen", JStr "")])] in
  set_history_file (Some (Doc (JList [JDict [("users", users)]])))
    (set_stats_file (Some (Doc (JDict [("users", users)])))
       (set_totals_file (Some (Doc users)) st)).

(** The same store with alice disabled. *)
Definition demo_disabled : fs := snd (disable_user "alice" demo_alice).

(** A configuration with an empty list of inbounds, one with a vless
    inbound that has no reality settings, and one that is not JSON. *)
Definition demo_no_inbound : fs :=
  empty_store (Some (Doc (JDict [("inbounds", JList [])]))).

Definition demo_no_reality : fs :=
  empty_store
    (Some (Doc (JDict [("inbounds",
                        JList [JDict [("protocol", JStr "vless");
                                      ("settings", JDict [("clients", JList [])])]])]))).

Definition demo_corrupt : fs := empty_store (Some Garbage).


(* ================================================================== *)
(** * The rest of [app.py] *)
(* ================================================================== *)

(** The loop of [load_reality_params]: the dict stored in [REALITY] for
    the first inbound with reality settings. *)
Fixpoint reality_of_inbounds (inbounds : list json)
  : res (option (list (string * json))) :=
  match inbounds with
  | [] => inr None
  | inbound :: rest =>
      ss <-? PyVal.get inbound "streamSettings" (JDict []) ;;
      rs <-? PyVal.get ss "realitySettings" JNull ;;
      if PyVal.truthy rs then
        dest <-? PyVal.get rs "dest" (JStr "") ;;
        names <-? PyVal.get rs "serverNames" (JList []) ;;
        sids <-? PyVal.get rs "shortIds" (JList []) ;;
        inr (Some [("dest", dest); ("serverNames", names);
                   ("publicKey", JStr ""); ("shortIds", sids)])
      else reality_of_inbounds rest
  end.

(** [REALITY] after [load_reality_params()], which starts from the empty
    dict and swallows every exception. *)
Definition load_reality_params (st : fs) : list (string * json) :=
  match (cfg <-? read_config st ;;
         inbounds <-? PyVal.get cfg "inbounds" (JList []) ;;
         items <-? PyVal.iter inbounds ;;
         reality_of_inbounds items) with
  | inr (Some reality) => reality
  | _ => []
  end.

(** [os.environ.get("REALITY_PUBLIC_KEY", REALITY.get("publicKey", ""))] *)
Definition public_key (E : Env) (reality : list (string * json)) : json :=
  match REALITY_PUBLIC_KEY E with
  | Some k => JStr k
  | None => match dict_get reality "publicKey" with
            | Some v => v
            | None => JStr ""
            end
  end.

(** The decorator [require_api_key] around a handler [f]; [header] is
    the [X-API-Key] header of the request, if it has one. *)
Definition require_api_key (API_KEY : string) (header : option string)
  (f : M response) : M response :=
  let key := match header with Some k => k | None => "" end in
  if (API_KEY =? "") || negb (key =? API_KEY)
  then ret (error_response 401 "Unauthorized")
  else f.

(** A state-changing route: the handler behind the decorator. *)
Definition route (E : Env) (API_KEY : string) (header : option string)
  (r : request) : M response :=
  require_api_key API_KEY header (handle E r).

(** [stats] as [list_users] reads it: the ["users"] of [stats.json], the
    empty dict when the file is missing or reading it raises. *)
Definition read_stats_users (st : fs) : json :=
  match stats_file st with
  | Some text =>
      match (stats <-? json_loads text ;; PyVal.get stats "users" (JDict [])) with
      | inr users => users
      | inl _ => JDict []
      end
  | None => JDict []
  end.

(** One turn of the loop of [list_users]. *)
Definition user_entry (E : Env) (st : fs) (disabled : Py.pyset)
  (totals stats : json) (name : string) : res json :=
  let status := user_status disabled name in
  let sub_url := match get_subscription_url E name st with
                 | Some url => JStr url
                 | None => JNull
                 end in
  user_totals <-? PyVal.get totals name (JDict []) ;;
  user_stats <-? PyVal.get stats name (JDict []) ;;
  up <-? PyVal.get user_totals "up" (JInt 0) ;;
  dn <-? PyVal.get user_totals "dn" (JInt 0) ;;
  ips_now <-? PyVal.get user_stats "ips_now" (JInt 0) ;;
  ips_max <-? PyVal.get user_stats "ips_max_24h" (JInt 0) ;;
  inr (JDict [("username", JStr name); ("status", JStr status);
              ("subscription_url", sub_url);
              ("traffic", JDict [("uplink", up); ("downlink", dn)]);
              ("ips_now", ips_now); ("ips_max_24h", ips_max)]).

(** [GET /api/users] in full; it changes no file. *)
Definition list_users_endpoint (E : Env) (st : fs) : res response :=
  let uuids := read_uuids st in
  let disabled := read_disabled st in
  let totals := read_totals st in
  let stats := read_stats_users st in
  users <-? map_res (user_entry E st disabled totals stats) (dict_keys uuids) ;;
  inr (mkResponse 200 (JDict [("users", JList users)])).

(** ** Notions for the further properties *)

Definition ascending (a b : string) : Prop := (a <=? b)%string = true.

(** A field of a JSON object. *)
Definition field (k : string) (v : json) : option json :=
  match v with
  | JDict kv => dict_get kv k
  | _ => None
  end.

(** The entries of the body of a [list_users_endpoint] response. *)
Definition listed (resp : response) : list json :=
  match field "users" (body resp) with
  | Some (JList users) => users
  | _ => []
  end.

(** A ledger whose records are objects. *)
Definition records_ok (ledger : json) : bool :=
  match ledger with
  | JDict kv => forallb (fun p => is_dict (snd p)) kv
  | _ => false
  end.

(** No descriptor of the directory embeds the identifier. *)
Definition unreferenced (uid : string) (st : fs) : bool :=
  match scan_subscriptions uid (sub_dir st) with
  | Some _ => false
  | None => true
  end.

(** The request body makes [create_user] raise: it is a non-empty value
    other than an object, or an object whose ["username"] is not a
    string. *)
Definition body_raises (request_json : option json) : bool :=
  match request_json with
  | Some (JDict kv) =>
      match dict_get kv "username" with
      | Some (JStr _) => false
      | Some _ => true
      | None => false
      end
  | Some v => PyVal.truthy v
  | None => false
  end.

Definition returned {A : Type} (r : res A) : bool :=
  match r with
  | inr _ => true
  | inl _ => false
  end.

(** The files of [demo_disabled] after a rebuild for alice enabled. *)
Definition demo_rebuilt : fs :=
  snd (rebuild_xray_config [("alice", alice_uuid)] [] demo_disabled).

(** The records of the users are the same in [st'] as in [st]: the
    Credential Table, the subscription directory, the Traffic Ledger,
    the statistics and the history. *)
Definition same_records (st st' : fs) : Prop :=
  uuids_file st' = uuids_file st /\ sub_dir st' = sub_dir st
  /\ totals_file st' = totals_file st /\ stats_file st' = stats_file st
  /\ history_file st' = history_file st.

(** The file is missing or is not JSON. *)
Definition unreadable (t : option json_text) : Prop :=
  t = None \/ t = Some Garbage.

(** The f-string of [build_vless_link] with [REALITY] as the dict
    [load_reality_params] left at startup. *)
Definition vless_link_with (E : Env) (reality : list (string * json))
  (username user_uuid : string) (sni sid : json) : string :=
  "vless://" ++ user_uuid ++ "@" ++ SERVER_ADDRESS E ++ ":443"
  ++ "?security=reality&encryption=none&flow=xtls-rprx-vision"
  ++ "&pbk=" ++ PyVal.format (public_key E reality)
  ++ "&fp=chrome&sni=" ++ PyVal.format sni
  ++ "&sid=" ++ PyVal.format sid ++ "&type=tcp"
  ++ "#" ++ username.

(** The entry is a file [find_subscription_token] stops at for [uid]:
    not hidden, decodable, and with [uid] in its content. *)
Definition embeds (uid : string) (e : dir_entry) : bool :=
  match e with
  | File n (Some content) => negb (Py.startswith n ".") && Py.contains uid content
  | _ => false
  end.

(** Every entry that embeds [uid] has the name [token]. *)
Definition only_descriptor (uid token : string) (entries : list dir_entry) : bool :=
  forallb (fun e => negb (embeds uid e) || (entry_name e =? token)) entries.

(** No entry of the name [t] embeds [uid]. *)
Definition not_embedded (uid t : string) (entries : list dir_entry) : bool :=
  forallb (fun e => negb (entry_name e =? t) || negb (embeds uid e)) entries.

(** The store of [demo_alice] with a history whose second entry has a
    list under ["users"]. *)
Definition demo_bad_history : fs :=
  set_history_file
    (Some (Doc (JList [JDict [("users", JDict [("alice", JDict [("up", JInt 500)]);
                                               ("bob", JDict [("up", JInt 7)])])];
                       JDict [("users", JList [JStr "alice"])];
                       JDict [("t", JInt 0)]])))
    demo_alice.

(* ================================================================== *)
(** * Proofs *)
(* ================================================================== *)

(** * Facts on characters and strings *)

Section Strings.

Import Py.

Ltac each_char c :=
  destruct c as [[] [] [] [] [] [] [] []]; vm_compute;
  try reflexivity; try discriminate; auto.

Lemma linebreak_isspace c : is_linebreak c = true -> isspace c = true.
Proof. each_char c. Qed.

Lemma allowed_not_space c : allowed_char c = true -> isspace c = false.
Proof. each_char c. Qed.

Lemma allowed_not_colon c : allowed_char c = true -> (c =? ":")%char = false.
Proof. each_char c. Qed.

Lemma uuid_char_not_space c : uuid_char c = true -> isspace c = false.
Proof. each_char c. Qed.

Lemma all_chars_impl (p q : ascii -> bool) s :
  (forall c, p c = true -> q c = true) ->
  all_chars p s = true -> all_chars q s = true.
Proof.
  intros Hpq. induction s as [|c r IH]; simpl; auto.
  intros H. apply andb_true_iff in H as [Hc Hr].
  rewrite (Hpq _ Hc), (IH Hr). reflexivity.
Qed.

Lemma all_chars_app p a b :
  all_chars p (a ++ b) = all_chars p a && all_chars p b.
Proof.
  induction a as [|c r IH]; simpl; auto. rewrite IH, andb_assoc. reflexivity.
Qed.

Lemma append_nil_r s : s ++ "" = s.
Proof. induction s; simpl; congruence. Qed.

Lemma append_assoc a b c : (a ++ b) ++ c = a ++ b ++ c.
Proof. induction a; simpl; congruence. Qed.

(** ** [strip] *)


Lemma lstrip_head s : no_space_head (lstrip s) = true.
Proof.
  induction s as [|c r IH]; simpl; auto.
  destruct (isspace c) eqn:Hc; auto. simpl. rewrite Hc. reflexivity.
Qed.

Lemma lstrip_fix s : no_space_head s = true -> lstrip s = s.
Proof.
  destruct s as [|c r]; simpl; auto.
  destruct (isspace c); simpl; congruence.
Qed.

Lemma rstrip_idem s : rstrip (rstrip s) = rstrip s.
Proof.
  induction s as [|c r IH]; simpl; auto.
  destruct (rstrip r) as [|d r'] eqn:Hr.
  - destruct (isspace c) eqn:Hc; simpl; auto. rewrite Hc. reflexivity.
  - simpl in *. rewrite IH. reflexivity.
Qed.

Lemma rstrip_head s : no_space_head s = true -> no_space_head (rstrip s) = true.
Proof.
  destruct s as [|c r]; simpl; auto.
  intros Hc. destruct (rstrip r); simpl; auto.
  destruct (isspace c) eqn:Hs; simpl in *; auto. rewrite Hs. reflexivity.
Qed.


Lemma strip_trimmed s : trimmed (strip s).
Proof.
  unfold strip. split.
  - apply lstrip_fix, rstrip_head, lstrip_head.
  - apply rstrip_idem.
Qed.

Lemma trimmed_strip s : trimmed s -> strip s = s.
Proof. intros [Hl Hr]. unfold strip. rewrite Hl. exact Hr. Qed.

Lemma all_chars_lstrip p s : all_chars p s = true -> all_chars p (lstrip s) = true.
Proof.
  induction s as [|c r IH]; simpl; auto.
  intros H. destruct (isspace c); auto.
  apply andb_true_iff in H as [_ Hr]. auto.
Qed.

Lemma all_chars_rstrip p s : all_chars p s = true -> all_chars p (rstrip s) = true.
Proof.
  induction s as [|c r IH]; simpl; auto.
  intros H. apply andb_true_iff in H as [Hc Hr]. specialize (IH Hr).
  destruct (rstrip r) as [|d r'].
  - destruct (isspace c); simpl; auto. rewrite Hc. reflexivity.
  - simpl. rewrite Hc. exact IH.
Qed.

Lemma all_chars_strip p s : all_chars p s = true -> all_chars p (strip s) = true.
Proof. intros H. apply all_chars_rstrip, all_chars_lstrip, H. Qed.

Lemma rstrip_all_space s : all_chars isspace s = true -> rstrip s = "".
Proof.
  induction s as [|c r IH]; simpl; auto.
  intros H. apply andb_true_iff in H as [Hc Hr].
  rewrite (IH Hr), Hc. reflexivity.
Qed.

Lemma rstrip_app a b :
  rstrip (a ++ b) = match rstrip b with
                    | EmptyString => rstrip a
                    | b' => a ++ b'
                    end.
Proof.
  induction a as [|c r IH]; simpl.
  - destruct (rstrip b); reflexivity.
  - rewrite IH. destruct (rstrip b) as [|d b'] eqn:Hb; auto.
    destruct r; simpl; reflexivity.
Qed.

Lemma lstrip_app a b :
  a <> "" -> no_space_head a = true -> lstrip (a ++ b) = a ++ b.
Proof.
  destruct a as [|c r]; [congruence|]. simpl. intros _ Hc.
  destruct (isspace c); simpl in *; congruence.
Qed.

Lemma lstrip_space_app a b :
  all_chars isspace a = true -> lstrip (a ++ b) = lstrip b.
Proof.
  induction a as [|c r IH]; simpl; auto.
  intros H. apply andb_true_iff in H as [Hc Hr]. rewrite Hc. auto.
Qed.

Lemma trimmed_no_space s :
  all_chars (fun c => negb (isspace c)) s = true -> trimmed s.
Proof.
  intros H. split.
  - destruct s as [|c r]; simpl in *; auto.
    apply andb_true_iff in H as [Hc _]. destruct (isspace c); simpl in *; congruence.
  - induction s as [|c r IH]; simpl in *; auto.
    apply andb_true_iff in H as [Hc Hr]. rewrite (IH Hr).
    destruct r; auto. destruct (isspace c); simpl in *; congruence.
Qed.

(** Stripping a trimmed, non-empty text out of its surrounding
    whitespace. *)
Lemma strip_surrounded ws1 s ws2 :
  all_chars isspace ws1 = true -> all_chars isspace ws2 = true ->
  trimmed s -> strip (ws1 ++ s ++ ws2) = s.
Proof.
  intros H1 H2 [Hl Hr]. unfold strip.
  rewrite lstrip_space_app by assumption.
  destruct s as [|c r].
  - simpl. rewrite <- (rstrip_all_space _ H2). 
    assert (Hx: lstrip ws2 = "").
    { clear -H2. induction ws2 as [|c r IH]; simpl in *; auto.
      apply andb_true_iff in H2 as [Hc Hr]. rewrite Hc. auto. }
    rewrite Hx. simpl. symmetry. apply rstrip_all_space, H2.
  - assert (Hc : no_space_head (String c r) = true).
    { rewrite <- Hl. apply lstrip_head. }
    rewrite lstrip_app by (congruence || assumption).
    rewrite rstrip_app, (rstrip_all_space _ H2). exact Hr.
Qed.

End Strings.

Section Lines.

Import Py.

(** ** [splitlines] and [join] *)

Lemma splitlines_no_break s : Forall (fun l => no_break l = true) (splitlines s).
Proof.
  induction s as [|c r IH]; simpl; [constructor|].
  destruct (is_linebreak c) eqn:Hc.
  - destruct (is_code 13 c && starts_with_lf r); auto.
  - destruct (splitlines r) as [|l ls].
    + repeat constructor. unfold no_break. simpl. rewrite Hc. reflexivity.
    + inversion IH; subst. constructor; auto.
      unfold no_break in *. simpl. rewrite Hc. simpl. assumption.
Qed.

Lemma splitlines_cons c r :
  splitlines (String c r) =
    if is_linebreak c then
      if is_code 13 c && starts_with_lf r then splitlines r
      else EmptyString :: splitlines r
    else match splitlines r with
         | [] => [String c EmptyString]
         | l :: ls => String c l :: ls
         end.
Proof. reflexivity. Qed.

Lemma splitlines_line a s :
  no_break a = true -> splitlines (a ++ nl ++ s) = a :: splitlines s.
Proof.
  induction a as [|c r IH]; intros Ha.
  - reflexivity.
  - unfold no_break in Ha. simpl in Ha. apply andb_true_iff in Ha as [Hc Hr].
    change (String c r ++ nl ++ s) with (String c (r ++ nl ++ s)).
    apply negb_true_iff in Hc.
    rewrite splitlines_cons, Hc, (IH Hr). reflexivity.
Qed.

Lemma splitlines_one a :
  no_break a = true -> a <> "" -> splitlines a = [a].
Proof.
  induction a as [|c r IH]; intros Ha Hne; [congruence|].
  unfold no_break in Ha. simpl in Ha. apply andb_true_iff in Ha as [Hc Hr].
  apply negb_true_iff in Hc. rewrite splitlines_cons, Hc.
  destruct r as [|d r']; [reflexivity|].
  rewrite (IH Hr) by congruence. reflexivity.
Qed.

Lemma join_cons2 sep x y r :
  join sep (x :: y :: r) = x ++ sep ++ join sep (y :: r).
Proof. reflexivity. Qed.

Lemma splitlines_join l :
  Forall (fun x => no_break x = true) l -> ends_nonempty l = true ->
  splitlines (join nl l) = l.
Proof.
  induction l as [|x r IH]; intros Hnb He; [reflexivity|].
  inversion Hnb as [|? ? Hx Hr]; subst.
  destruct r as [|y r'].
  - simpl in *. apply splitlines_one; auto.
    apply negb_true_iff in He. apply String.eqb_neq in He. exact He.
  - rewrite join_cons2, splitlines_line by assumption.
    rewrite IH; auto.
Qed.

Lemma rtrim_ends l : ends_nonempty (rtrim_lines l) = true.
Proof.
  induction l as [|x r IH]; simpl; auto.
  destruct (rtrim_lines r) as [|y r'] eqn:Hr.
  - destruct (x =? "") eqn:Hx; simpl; auto. rewrite Hx. reflexivity.
  - simpl in *. exact IH.
Qed.

Lemma join_nonempty l :
  l <> [] -> ends_nonempty l = true -> join nl l <> "".
Proof.
  destruct l as [|x [|y r]]; simpl; try congruence.
  - intros _ H. apply negb_true_iff in H. apply String.eqb_neq in H. exact H.
  - intros _ _. destruct x; simpl; discriminate.
Qed.

Lemma In_ltrim x l : In x (ltrim_lines l) -> In x l.
Proof.
  induction l as [|y r IH]; simpl; auto.
  destruct (y =? ""); simpl; auto.
Qed.

Lemma In_rtrim x l : In x (rtrim_lines l) -> In x l.
Proof.
  induction l as [|y r IH]; simpl; auto.
  destruct (rtrim_lines r) as [|z r'].
  - destruct (y =? ""); simpl; tauto.
  - simpl in *. tauto.
Qed.

Lemma ltrim_nonempty l :
  Forall (fun x => x <> "") l -> ltrim_lines l = l.
Proof.
  destruct 1 as [|x r Hx Hr]; simpl; auto.
  apply String.eqb_neq in Hx. rewrite Hx. reflexivity.
Qed.

Lemma rtrim_nonempty l :
  Forall (fun x => x <> "") l -> rtrim_lines l = l.
Proof.
  induction 1 as [|x r Hx Hr IH]; simpl; auto.
  rewrite IH. apply String.eqb_neq in Hx. rewrite Hx.
  destruct r; reflexivity.
Qed.

Lemma rstrip_nl : rstrip nl = "".
Proof. reflexivity. Qed.

Lemma rstrip_join l :
  Forall (fun x => rstrip x = x) l ->
  rstrip (join nl l) = join nl (rtrim_lines l).
Proof.
  induction l as [|x r IH]; intros H; [reflexivity|].
  inversion H as [|? ? Hx Hr]; subst. specialize (IH Hr).
  destruct r as [|y r'].
  - simpl. rewrite Hx. destruct (x =? "") eqn:E; auto.
    apply String.eqb_eq in E. subst. reflexivity.
  - rewrite join_cons2, rstrip_app, rstrip_app, IH, rstrip_nl, Hx.
    change (rtrim_lines (x :: y :: r'))
      with (match rtrim_lines (y :: r') with
            | [] => if x =? "" then [] else [x]
            | r0 => x :: r0
            end).
    pose proof (rtrim_ends (y :: r')) as He.
    destruct (rtrim_lines (y :: r')) as [|z zs] eqn:Hz.
    + simpl. destruct (x =? "") eqn:E; auto.
      apply String.eqb_eq in E. subst. reflexivity.
    + assert (Hne : join nl (z :: zs) <> "") by (apply join_nonempty; congruence).
      destruct (join nl (z :: zs)) as [|c s] eqn:Hj; [congruence|].
      rewrite join_cons2, Hj. reflexivity.
Qed.

Lemma lstrip_join l :
  Forall (fun x => lstrip x = x) l ->
  lstrip (join nl l ++ nl) =
    match ltrim_lines l with
    | [] => ""
    | m => join nl m ++ nl
    end.
Proof.
  induction l as [|x r IH]; intros H; [reflexivity|].
  inversion H as [|? ? Hx Hr]; subst. specialize (IH Hr).
  simpl ltrim_lines. destruct (x =? "") eqn:E.
  - apply String.eqb_eq in E. subst. rewrite <- IH.
    destruct r as [|y r']; reflexivity.
  - apply String.eqb_neq in E.
    assert (Hh : no_space_head x = true) by (rewrite <- Hx; apply lstrip_head).
    destruct r as [|y r'].
    + simpl. apply lstrip_app; auto.
    + rewrite join_cons2, append_assoc. apply lstrip_app; auto.
Qed.

Lemma ltrim_head l :
  match ltrim_lines l with
  | [] => True
  | x :: _ => x <> ""
  end.
Proof.
  induction l as [|x r IH]; simpl; auto.
  destruct (x =? "") eqn:E; auto. apply String.eqb_neq in E. exact E.
Qed.

(** The lines read back from a text written as [join] of [l] and a final
    line feed are [l] without its empty front and back entries. *)
Lemma splitlines_strip_join l :
  Forall (fun x => trimmed x /\ no_break x = true) l ->
  splitlines (strip (join nl l ++ nl)) = rtrim_lines (ltrim_lines l).
Proof.
  intros H. unfold strip. rewrite lstrip_join.
  2:{ eapply Forall_impl; [|exact H]. intros x [[Hl _] _]. exact Hl. }
  assert (Hm : Forall (fun x => trimmed x /\ no_break x = true) (ltrim_lines l)).
  { apply Forall_forall. intros x Hx. apply In_ltrim in Hx.
    rewrite Forall_forall in H. auto. }
  destruct (ltrim_lines l) as [|x r] eqn:Hlt; [reflexivity|].
  rewrite rstrip_app, rstrip_nl, rstrip_join.
  2:{ eapply Forall_impl; [|exact Hm]. intros y [[_ Hr] _]. exact Hr. }
  apply splitlines_join.
  - apply Forall_forall. intros y Hy. apply In_rtrim in Hy.
    rewrite Forall_forall in Hm. apply Hm. exact Hy.
  - apply rtrim_ends.
Qed.

(** ** [split_once] *)

Lemma split_once_app sep a b :
  all_chars (fun c => negb (c =? sep)%char) a = true ->
  split_once sep (a ++ String sep b) = Some (a, b).
Proof.
  induction a as [|c r IH]; simpl; intros H.
  - rewrite Ascii.eqb_refl. reflexivity.
  - apply andb_true_iff in H as [Hc Hr]. apply negb_true_iff in Hc.
    rewrite Hc, (IH Hr). reflexivity.
Qed.

Lemma split_once_spec sep s a b :
  split_once sep s = Some (a, b) ->
  s = a ++ String sep b /\ all_chars (fun c => negb (c =? sep)%char) a = true.
Proof.
  revert a. induction s as [|c r IH]; simpl; intros a H; [discriminate|].
  destruct (c =? sep)%char eqn:Hc.
  - inversion H; subst. apply Ascii.eqb_eq in Hc. subst. split; reflexivity.
  - destruct (split_once sep r) as [[a' b']|]; [|discriminate].
    inversion H; subst. destruct (IH a' eq_refl) as [-> Ha].
    split; [reflexivity|]. simpl. rewrite Hc, Ha. reflexivity.
Qed.

End Lines.

(** * Dictionaries and sets *)

Section DictFacts.
  Local Open Scope list_scope.
Context {V : Type}.
Implicit Types (d : dict V) (k : string) (v : V).

Lemma dict_mem_In k d : dict_mem k d = true <-> In k (dict_keys d).
Proof.
  unfold dict_mem. induction d as [|[k' v'] r IH]; simpl.
  - split; [discriminate|tauto].
  - destruct (String.eqb_spec k' k) as [->|Hne].
    + split; auto.
    + rewrite IH. split; [auto|]. intros [H|H]; [congruence|exact H].
Qed.

Lemma dict_mem_false k d : dict_mem k d = false <-> ~ In k (dict_keys d).
Proof.
  rewrite <- dict_mem_In. destruct (dict_mem k d); split; congruence.
Qed.

Lemma dict_get_In k v d : dict_get d k = Some v -> In (k, v) d.
Proof.
  induction d as [|[k' v'] r IH]; simpl; [discriminate|].
  destruct (String.eqb_spec k' k) as [->|Hne].
  - intros H. inversion H. auto.
  - auto.
Qed.

Lemma In_dict_get k v d :
  NoDup (dict_keys d) -> In (k, v) d -> dict_get d k = Some v.
Proof.
  induction d as [|[k' v'] r IH]; simpl; [tauto|].
  intros Hnd [H|H].
  - inversion H; subst. rewrite String.eqb_refl. reflexivity.
  - inversion Hnd as [|? ? Hk Hr]; subst.
    destruct (String.eqb_spec k' k) as [->|Hne].
    + exfalso. apply Hk. change k with (fst (k, v)). apply in_map, H.
    + auto.
Qed.

Lemma dict_set_fresh k v d :
  dict_mem k d = false -> dict_set d k v = d ++ [(k, v)].
Proof.
  unfold dict_mem. induction d as [|[k' v'] r IH]; simpl; auto.
  destruct (k' =? k); [discriminate|]. intros H. rewrite IH; auto.
Qed.

Lemma dict_keys_set k v d :
  dict_keys (dict_set d k v) =
    if dict_mem k d then dict_keys d else dict_keys d ++ [k].
Proof.
  unfold dict_mem. induction d as [|[k' v'] r IH]; simpl; auto.
  destruct (k' =? k) eqn:E; simpl; auto.
  rewrite IH. destruct (dict_get r k); reflexivity.
Qed.

Lemma dict_get_set k k' v d :
  dict_get (dict_set d k v) k' = if k =? k' then Some v else dict_get d k'.
Proof.
  induction d as [|[k0 v0] r IH]; simpl.
  - reflexivity.
  - destruct (String.eqb_spec k0 k) as [->|Hne]; simpl.
    + destruct (k =? k'); reflexivity.
    + rewrite IH. destruct (String.eqb_spec k0 k') as [->|Hne'].
      * apply String.eqb_neq in Hne. rewrite String.eqb_sym, Hne. reflexivity.
      * reflexivity.
Qed.

Lemma In_dict_set p k v d :
  In p (dict_set d k v) -> p = (k, v) \/ In p d.
Proof.
  induction d as [|[k0 v0] r IH]; simpl.
  - intros [H|[]]; auto.
  - destruct (String.eqb_spec k0 k) as [->|Hne]; simpl.
    + intros [H|H]; auto.
    + intros [H|H]; auto. destruct (IH H); auto.
Qed.

Lemma In_dict_del p k d : In p (dict_del d k) -> In p d.
Proof. unfold dict_del. rewrite filter_In. tauto. Qed.

Lemma In_keys_del k k' d : In k' (dict_keys (dict_del d k)) -> In k' (dict_keys d).
Proof.
  unfold dict_keys. rewrite !in_map_iff. intros [p [Hp Hin]].
  exists p. split; auto. eapply In_dict_del; eauto.
Qed.

Lemma NoDup_keys_set k v d :
  NoDup (dict_keys d) -> NoDup (dict_keys (dict_set d k v)).
Proof.
  intros H. rewrite dict_keys_set. destruct (dict_mem k d) eqn:E; auto.
  apply dict_mem_false in E. apply NoDup_app; auto.
  - repeat constructor. simpl. tauto.
  - intros x Hx [<-|[]]. auto.
Qed.

Lemma NoDup_keys_del k d :
  NoDup (dict_keys d) -> NoDup (dict_keys (dict_del d k)).
Proof.
  induction d as [|[k0 v0] r IH]; simpl; auto.
  intros H. inversion H as [|? ? Hk Hr]; subst.
  destruct (k0 =? k); simpl; auto.
  constructor; auto. intros Hin. apply Hk. eapply In_keys_del; eauto.
Qed.

Lemma dict_get_del k k' d :
  dict_get (dict_del d k) k' = if k =? k' then None else dict_get d k'.
Proof.
  induction d as [|[k0 v0] r IH]; simpl.
  - destruct (k =? k'); reflexivity.
  - destruct (String.eqb_spec k0 k) as [->|H0]; simpl.
    + rewrite IH. destruct (k =? k'); reflexivity.
    + rewrite IH. destruct (String.eqb_spec k0 k') as [->|H1]; auto.
      apply String.eqb_neq in H0. rewrite String.eqb_sym, H0. reflexivity.
Qed.

Lemma dict_mem_del k d : dict_mem k (dict_del d k) = false.
Proof. unfold dict_mem. rewrite dict_get_del, String.eqb_refl. reflexivity. Qed.

Lemma dict_mem_del_other k k' d :
  k <> k' -> dict_mem k' (dict_del d k) = dict_mem k' d.
Proof.
  intros H. unfold dict_mem. rewrite dict_get_del.
  apply String.eqb_neq in H. rewrite H. reflexivity.
Qed.

Lemma Forall_dict_set (P : string * V -> Prop) k v d :
  P (k, v) -> Forall P d -> Forall P (dict_set d k v).
Proof.
  intros Hp H. apply Forall_forall. intros p Hin.
  destruct (In_dict_set _ _ _ _ Hin) as [->|Hd]; auto.
  rewrite Forall_forall in H. auto.
Qed.

Lemma Forall_dict_del (P : string * V -> Prop) k d :
  Forall P d -> Forall P (dict_del d k).
Proof.
  intros H. apply Forall_forall. intros p Hin.
  rewrite Forall_forall in H. eapply H, In_dict_del, Hin.
Qed.

(** Filling an empty dict with the items of a dict gives it back. *)
Lemma fold_dict_set d acc :
  NoDup (dict_keys (acc ++ d)) ->
  fold_left (fun a (p : string * V) => dict_set a (fst p) (snd p)) d acc = acc ++ d.
Proof.
  revert acc. induction d as [|[k v] r IH]; intros acc H; simpl.
  - rewrite app_nil_r. reflexivity.
  - assert (Hk : dict_mem k acc = false).
    { apply dict_mem_false. unfold dict_keys in *. rewrite map_app in H.
      simpl in H. apply NoDup_remove_2 in H. intros Hin. apply H.
      apply in_or_app. auto. }
    rewrite (dict_set_fresh _ _ _ Hk), IH; rewrite <- app_assoc; auto.
Qed.
End DictFacts.

Section SetFacts.
  Local Open Scope list_scope.
Import Py.

Lemma set_mem_In x s : set_mem x s = true <-> In x s.
Proof.
  unfold set_mem. rewrite existsb_exists. split.
  - intros [y [Hy E]]. apply String.eqb_eq in E. subst. exact Hy.
  - intros H. exists x. split; auto. apply String.eqb_refl.
Qed.

Lemma set_mem_false x s : set_mem x s = false <-> ~ In x s.
Proof. rewrite <- set_mem_In. destruct (set_mem x s); split; congruence. Qed.

Lemma In_set_of_list l : forall x, In x (set_of_list l) <-> In x l.
Proof.
  induction l as [|y r IH]; intros x; simpl; [tauto|].
  destruct (set_mem y (set_of_list r)) eqn:E; simpl.
  - apply set_mem_In, IH in E. rewrite IH. split; auto.
    intros [<-|H]; auto.
  - rewrite IH. tauto.
Qed.

Lemma NoDup_set_of_list l : NoDup (set_of_list l).
Proof.
  induction l as [|y r IH]; simpl; [constructor|].
  destruct (set_mem y (set_of_list r)) eqn:E; auto.
  constructor; auto. apply set_mem_false, E.
Qed.

Lemma In_set_add x y s : In x (set_add y s) <-> x = y \/ In x s.
Proof.
  unfold set_add. destruct (set_mem y s) eqn:E.
  - apply set_mem_In in E. split; auto. intros [->|H]; auto.
  - rewrite in_app_iff. simpl. intuition.
Qed.

Lemma In_set_discard x y s : In x (set_discard y s) <-> x <> y /\ In x s.
Proof.
  unfold set_discard. rewrite filter_In, negb_true_iff, String.eqb_neq. tauto.
Qed.

Lemma In_insert_sorted x y l : In x (insert_sorted y l) <-> x = y \/ In x l.
Proof.
  induction l as [|z r IH]; simpl; [intuition|].
  destruct (y <=? z)%string; simpl; rewrite ?IH; intuition.
Qed.

Lemma In_sorted x l : In x (sorted l) <-> In x l.
Proof.
  induction l as [|z r IH]; simpl; [tauto|].
  rewrite In_insert_sorted, IH. intuition.
Qed.

(** [sorted] sorts: its result is a permutation of the list in
    ascending order. *)
Lemma insert_sorted_perm x l : Permutation (x :: l) (insert_sorted x l).
Proof.
  induction l as [|y r IH]; simpl; [reflexivity|].
  destruct (x <=? y)%string; [reflexivity|].
  rewrite perm_swap. constructor. exact IH.
Qed.

Lemma sorted_perm l : Permutation l (sorted l).
Proof.
  induction l as [|x r IH]; simpl; [constructor|].
  rewrite <- insert_sorted_perm. constructor. exact IH.
Qed.

Lemma insert_sorted_ascending x l :
  Sorted (fun a b => (a <=? b)%string = true) l ->
  Sorted (fun a b => (a <=? b)%string = true) (insert_sorted x l).
Proof.
  induction l as [|y r IH]; intros H; simpl.
  - repeat constructor.
  - destruct (x <=? y)%string eqn:E.
    + constructor; [exact H|]. constructor. exact E.
    + inversion H as [|? ? Hr Hy]; subst. constructor; [apply IH, Hr|].
      assert (Hyx : (y <=? x)%string = true).
      { destruct (String.leb_total x y) as [H1|H1]; congruence. }
      destruct r as [|z r']; simpl.
      * constructor. exact Hyx.
      * destruct (x <=? z)%string; constructor; auto.
        inversion Hy; assumption.
Qed.

Lemma sorted_ascending l :
  Sorted (fun a b => (a <=? b)%string = true) (sorted l).
Proof.
  induction l as [|x r IH]; simpl; [constructor|].
  apply insert_sorted_ascending, IH.
Qed.

Lemma sorted_nil l : sorted l = [] -> l = [].
Proof.
  destruct l as [|z r]; auto. simpl. intros H.
  assert (Hin : In z (insert_sorted z (sorted r))) by (apply In_insert_sorted; auto).
  rewrite H in Hin. destruct Hin.
Qed.
End SetFacts.

(** * The two text files *)

Section TextFiles.

Import Py.

Lemma clean_strip s : no_break s = true -> clean (strip s).
Proof.
  intros H. split; [apply strip_trimmed|]. apply all_chars_strip, H.
Qed.

Lemma parse_uuid_line_clean acc line :
  clean_dict acc -> no_break line = true -> clean_dict (parse_uuid_line acc line).
Proof.
  intros [Hnd Hall] Hline. unfold parse_uuid_line.
  destruct (split_once ":" line) as [[name uid]|] eqn:Hs; [|split; assumption].
  apply split_once_spec in Hs as [-> Hcolon].
  unfold no_break in Hline. rewrite all_chars_app in Hline.
  apply andb_true_iff in Hline as [Hn Hu]. simpl in Hu.
  split.
  - apply NoDup_keys_set, Hnd.
  - apply Forall_dict_set; [|assumption].
    repeat split; simpl; try apply strip_trimmed;
      try (apply all_chars_strip; assumption).
Qed.

Lemma clean_dict_nil : clean_dict [].
Proof. split; constructor. Qed.

Lemma read_uuids_clean st : clean_dict (read_uuids st).
Proof.
  unfold read_uuids. destruct (uuids_file st) as [text|]; [|apply clean_dict_nil].
  pose proof (splitlines_no_break (strip text)) as H.
  revert H. generalize (splitlines (strip text)). intros lines.
  generalize clean_dict_nil. generalize (@nil (string * string)).
  induction lines as [|l r IH]; intros acc Hacc H; simpl; auto.
  inversion H; subst. apply IH; auto. apply parse_uuid_line_clean; auto.
Qed.

Lemma uuid_line_clean p :
  clean_entry p -> clean (uuid_line p) /\ uuid_line p <> "".
Proof.
  destruct p as [name uid]. intros [[[Hnl Hnr] Hnb] [Hc [[Hul Hur] Hub]]].
  simpl in *. unfold uuid_line. simpl fst. simpl snd. repeat split.
  - destruct name as [|c r].
    + reflexivity.
    + apply lstrip_app; [congruence|]. rewrite <- Hnl. apply lstrip_head.
  - rewrite rstrip_app. change (":" ++ uid) with (String ":" uid).
    assert (H : rstrip (String ":" uid) = String ":" uid).
    { simpl. rewrite Hur. destruct uid; reflexivity. }
    rewrite H. reflexivity.
  - unfold no_break in *. rewrite all_chars_app, Hnb. simpl. exact Hub.
  - destruct name; discriminate.
Qed.

Lemma parse_uuid_line_entry acc p :
  clean_entry p -> parse_uuid_line acc (uuid_line p) = dict_set acc (fst p) (snd p).
Proof.
  destruct p as [name uid]. intros [Hn [Hc Hu]]. simpl in *.
  unfold parse_uuid_line, uuid_line. simpl fst. simpl snd.
  change (name ++ ":" ++ uid) with (name ++ String ":" uid).
  rewrite split_once_app by exact Hc.
  rewrite !trimmed_strip; [reflexivity|apply Hu|apply Hn].
Qed.

Lemma fold_parse_lines d acc :
  Forall clean_entry d ->
  fold_left parse_uuid_line (map uuid_line d) acc
  = fold_left (fun a (p : string * string) => dict_set a (fst p) (snd p)) d acc.
Proof.
  revert acc. induction d as [|p r IH]; intros acc H; simpl; auto.
  inversion H; subst. rewrite parse_uuid_line_entry by assumption. auto.
Qed.

(** Reading back what [write_uuids] wrote. *)
Lemma read_write_uuids d st :
  clean_dict d -> read_uuids (write_uuids d st) = d.
Proof.
  intros [Hnd Hall]. unfold read_uuids, write_uuids. simpl.
  destruct d as [|p r]; [reflexivity|].
  unfold uuids_text.
  change (map (fun p0 : string * string => fst p0 ++ ":" ++ snd p0) (p :: r))
    with (map uuid_line (p :: r)).
  assert (Hl : Forall (fun x => clean x /\ x <> "") (map uuid_line (p :: r))).
  { apply Forall_forall. intros x Hx. apply in_map_iff in Hx as [q [<- Hq]].
    rewrite Forall_forall in Hall. apply uuid_line_clean, Hall, Hq. }
  rewrite splitlines_strip_join.
  2:{ eapply Forall_impl; [|exact Hl]. intros x [Hx _]. exact Hx. }
  rewrite ltrim_nonempty, rtrim_nonempty;
    try (eapply Forall_impl; [|exact Hl]; intros x [_ Hx]; exact Hx).
  rewrite fold_parse_lines by assumption.
  apply (fold_dict_set (p :: r) []). exact Hnd.
Qed.

Lemma clean_dict_set d k v :
  clean_dict d -> clean k -> no_colon k = true -> clean v ->
  clean_dict (dict_set d k v).
Proof.
  intros [Hnd Hall] Hk Hc Hv. split.
  - apply NoDup_keys_set, Hnd.
  - apply Forall_dict_set; auto. repeat split; simpl; auto; apply Hk || apply Hv.
Qed.

Lemma clean_dict_del d k : clean_dict d -> clean_dict (dict_del d k).
Proof.
  intros [Hnd Hall]. split.
  - apply NoDup_keys_del, Hnd.
  - apply Forall_dict_del, Hall.
Qed.

Lemma clean_key d k :
  clean_dict d -> dict_mem k d = true -> clean k.
Proof.
  intros [_ Hall] H. apply dict_mem_In in H.
  unfold dict_keys in H. apply in_map_iff in H as [p [<- Hp]].
  rewrite Forall_forall in Hall. apply Hall, Hp.
Qed.

(** The lines read back from what [write_disabled] wrote. *)
Lemma read_write_disabled d st x :
  Forall clean d ->
  In x (read_disabled (write_disabled d st)) <->
  In x (rtrim_lines (ltrim_lines (sorted d))).
Proof.
  intros Hd. unfold read_disabled, write_disabled. simpl.
  rewrite In_set_of_list. unfold disabled_text.
  destruct d as [|y r]; [simpl; tauto|].
  rewrite splitlines_strip_join; [tauto|].
  apply Forall_forall. intros z Hz. apply (proj1 (In_sorted _ _)) in Hz.
  rewrite Forall_forall in Hd. apply Hd, Hz.
Qed.

Lemma read_write_disabled_sub d st x :
  Forall clean d ->
  In x (read_disabled (write_disabled d st)) -> In x d.
Proof.
  intros Hd H. apply (read_write_disabled d st x Hd) in H.
  apply (proj1 (In_sorted _ _)), In_ltrim, In_rtrim, H.
Qed.

Lemma read_write_disabled_In d st x :
  Forall clean d -> Forall (fun y => y <> "") d ->
  In x (read_disabled (write_disabled d st)) <-> In x d.
Proof.
  intros Hd Hne. rewrite (read_write_disabled d st x Hd).
  assert (Hs : Forall (fun y => y <> "") (sorted d)).
  { apply Forall_forall. intros z Hz. apply (proj1 (In_sorted _ _)) in Hz.
    rewrite Forall_forall in Hne. auto. }
  rewrite ltrim_nonempty, rtrim_nonempty by assumption.
  apply In_sorted.
Qed.

Lemma read_disabled_NoDup st : NoDup (read_disabled st).
Proof.
  unfold read_disabled. destruct (disabled_file st); [|constructor].
  apply NoDup_set_of_list.
Qed.

End TextFiles.

(** * The handlers, step by step *)

Section Runs.

Variable E : Env.

Lemma build_vless_link_run n u st :
  build_vless_link E n u st = (vless_of_config E n u st, st).
Proof.
  unfold build_vless_link, vless_of_config, bind, lift.
  destruct (read_config st); reflexivity.
Qed.

Lemma create_subscription_file_run n u t st :
  create_subscription_file E n u t st =
    match vless_of_config E n u st with
    | inl e => (inl e, st)
    | inr None => (inr None, st)
    | inr (Some link) =>
        if link =? "" then (inr None, st)
        else (inr (Some t), set_sub_dir (write_sub t link (sub_dir st)) st)
    end.
Proof.
  unfold create_subscription_file, bind. rewrite build_vless_link_run.
  destruct (vless_of_config E n u st) as [e|[link|]]; try reflexivity.
  destruct (link =? ""); reflexivity.
Qed.

Lemma rebuild_xray_config_run uuids disabled st :
  rebuild_xray_config uuids disabled st =
    match read_config st with
    | inl e => (inl e, st)
    | inr cfg =>
        match with_clients (clients_of uuids disabled) cfg with
        | inl e => (inl e, st)
        | inr cfg' => (inr tt, write_config cfg' st)
        end
    end.
Proof.
  unfold rebuild_xray_config, bind, lift, modify, clients_of.
  destruct (read_config st); [reflexivity|].
  destruct (with_clients _ _); reflexivity.
Qed.

(** ** [create_user] *)

Lemma isalnum_chars_removed s :
  Py.all_chars Py.isalnum_char (Py.remove_char "-" (Py.remove_char "_" s))
  = Py.all_chars allowed_char s.
Proof.
  induction s as [|c r IH]; [reflexivity|].
  simpl. destruct (c =? "_")%char eqn:E1.
  - apply Ascii.eqb_eq in E1. subst. rewrite IH. reflexivity.
  - simpl. destruct (c =? "-")%char eqn:E2.
    + apply Ascii.eqb_eq in E2. subst. rewrite IH. reflexivity.
    + simpl. rewrite IH. unfold allowed_char. rewrite E1, E2, !orb_false_r.
      reflexivity.
Qed.

Lemma isalnum_removed s :
  Py.isalnum (Py.remove_char "-" (Py.remove_char "_" s))
  = Py.all_chars allowed_char s && Py.any_char Py.isalnum_char s.
Proof.
  induction s as [|c r IH]; [reflexivity|].
  simpl. destruct (c =? "_")%char eqn:E1.
  - apply Ascii.eqb_eq in E1. subst. rewrite IH. reflexivity.
  - simpl. destruct (c =? "-")%char eqn:E2.
    + apply Ascii.eqb_eq in E2. subst. rewrite IH. reflexivity.
    + simpl. rewrite isalnum_chars_removed. unfold allowed_char.
      rewrite E1, E2, !orb_false_r.
      destruct (Py.isalnum_char c); simpl; [rewrite andb_true_r|]; reflexivity.
Qed.

Lemma requested_username_get j u :
  requested_username j = Some u ->
  exists raw,
    u = Py.strip raw /\
    PyVal.get (match j with
               | Some j0 => if PyVal.truthy j0 then j0 else JDict []
               | None => JDict []
               end) "username" (JStr "") = inr (JStr raw).
Proof.
  unfold requested_username. destruct j as [[| | | | | |kv]|]; try discriminate.
  destruct (dict_get kv "username") as [[| | | |raw| |]|] eqn:Hg; try discriminate.
  intros H. inversion H; subst. exists raw. split; [reflexivity|].
  destruct kv as [|p kv']; [discriminate|]. simpl PyVal.truthy. cbv iota.
  unfold PyVal.get. rewrite Hg. reflexivity.
Qed.

Lemma accepted_checks u :
  accepted_username u =
    negb (u =? "") && negb (32 <? String.length u)%nat
    && Py.isalnum (Py.remove_char "-" (Py.remove_char "_" u)).
Proof.
  unfold accepted_username, wellformed_username.
  rewrite isalnum_removed, Nat.ltb_antisym, negb_involutive, !andb_assoc.
  reflexivity.
Qed.

Lemma create_user_400 j u uu t st :
  requested_username j = Some u -> accepted_username u = false ->
  exists msg, create_user E j uu t st = (inr (error_response 400 msg), st).
Proof.
  intros Hj Ha. destruct (requested_username_get _ _ Hj) as [raw [-> Hg]].
  rewrite accepted_checks in Ha.
  unfold create_user, bind, lift. rewrite Hg. simpl py_strip. cbv iota.
  destruct (Py.strip raw =? ""); [eexists; reflexivity|].
  destruct (32 <? String.length (Py.strip raw))%nat; [eexists; reflexivity|].
  simpl in Ha. rewrite Ha. cbv beta iota delta [negb]. eexists; reflexivity.
Qed.

Lemma create_user_409 j u uu t st :
  requested_username j = Some u -> accepted_username u = true ->
  dict_mem u (read_uuids st) = true ->
  create_user E j uu t st = (inr (conflict u), st).
Proof.
  intros Hj Ha Hm. destruct (requested_username_get _ _ Hj) as [raw [-> Hg]].
  rewrite accepted_checks in Ha.
  apply andb_true_iff in Ha as [Ha H3]. apply andb_true_iff in Ha as [H1 H2].
  apply negb_true_iff in H1, H2.
  unfold create_user, bind, lift, gets. rewrite Hg. simpl py_strip. cbv iota.
  rewrite H1, H2, H3. cbv beta iota delta [negb]. rewrite Hm. reflexivity.
Qed.

Lemma create_user_run j u uu t st :
  requested_username j = Some u -> accepted_username u = true ->
  dict_mem u (read_uuids st) = false ->
  create_user E j uu t st =
    let uuids := dict_set (read_uuids st) u uu in
    match create_subscription_file E u uu t (write_uuids uuids st) with
    | (inl e, st2) => (inl e, st2)
    | (inr token, st2) =>
        match rebuild_xray_config uuids (read_disabled st2) st2 with
        | (inl e, st3) => (inl e, st3)
        | (inr _, st3) => (inr (created_response E u uu token), restarted st3)
        end
    end.
Proof.
  intros Hj Ha Hm. destruct (requested_username_get _ _ Hj) as [raw [-> Hg]].
  rewrite accepted_checks in Ha.
  apply andb_true_iff in Ha as [Ha H3]. apply andb_true_iff in Ha as [H1 H2].
  apply negb_true_iff in H1, H2.
  unfold create_user, bind, lift, gets, modify. rewrite Hg. simpl py_strip. cbv iota.
  rewrite H1, H2, H3. cbv beta iota delta [negb]. rewrite Hm. cbv beta iota zeta.
  destruct (create_subscription_file _ _ _ _ _) as [[e|token] st2]; [reflexivity|].
  destruct (rebuild_xray_config _ _ _) as [[e|[]] st3]; reflexivity.
Qed.

End Runs.

Section MoreRuns.

(** ** The handlers on a name *)

Lemma handler_404 name st :
  dict_mem name (read_uuids st) = false ->
  delete_user name st = (inr (not_found name), st)
  /\ disable_user name st = (inr (not_found name), st)
  /\ enable_user name st = (inr (not_found name), st)
  /\ reset_traffic name st = (inr (not_found name), st).
Proof.
  intros H.
  unfold delete_user, disable_user, enable_user, reset_traffic, bind, gets.
  rewrite H. repeat split; reflexivity.
Qed.

Lemma disable_user_noop name st :
  dict_mem name (read_uuids st) = true ->
  Py.set_mem name (read_disabled st) = true ->
  disable_user name st
  = (inr (message_response ("User '" ++ name ++ "' is already disabled")), st).
Proof.
  intros H1 H2. unfold disable_user, bind, gets. rewrite H1.
  cbv beta iota delta [negb]. rewrite H2. reflexivity.
Qed.

Lemma enable_user_noop name st :
  dict_mem name (read_uuids st) = true ->
  Py.set_mem name (read_disabled st) = false ->
  enable_user name st
  = (inr (message_response ("User '" ++ name ++ "' is already enabled")), st).
Proof.
  intros H1 H2. unfold enable_user, bind, gets. rewrite H1.
  cbv beta iota delta [negb]. rewrite H2. reflexivity.
Qed.

Lemma disable_user_run name st :
  dict_mem name (read_uuids st) = true ->
  Py.set_mem name (read_disabled st) = false ->
  disable_user name st =
    let disabled := Py.set_add name (read_disabled st) in
    match rebuild_xray_config (read_uuids st) disabled (write_disabled disabled st) with
    | (inl e, st') => (inl e, st')
    | (inr _, st') =>
        (inr (message_response ("User '" ++ name ++ "' disabled")), restarted st')
    end.
Proof.
  intros H1 H2. unfold disable_user, bind, gets, modify. rewrite H1.
  cbv beta iota delta [negb]. rewrite H2. cbv beta iota zeta.
  destruct (rebuild_xray_config _ _ _) as [[e|[]] st3]; reflexivity.
Qed.

Lemma enable_user_run name st :
  dict_mem name (read_uuids st) = true ->
  Py.set_mem name (read_disabled st) = true ->
  enable_user name st =
    let disabled := Py.set_discard name (read_disabled st) in
    match rebuild_xray_config (read_uuids st) disabled (write_disabled disabled st) with
    | (inl e, st') => (inl e, st')
    | (inr _, st') =>
        (inr (message_response ("User '" ++ name ++ "' enabled")), restarted st')
    end.
Proof.
  intros H1 H2. unfold enable_user, bind, gets, modify. rewrite H1.
  cbv beta iota delta [negb]. rewrite H2. cbv beta iota zeta.
  destruct (rebuild_xray_config _ _ _) as [[e|[]] st3]; reflexivity.
Qed.

Lemma reset_traffic_run name st :
  dict_mem name (read_uuids st) = true ->
  reset_traffic name st =
    match PyVal.setitem (read_totals st) name zero_traffic with
    | inl e => (inl e, st)
    | inr totals =>
        (inr (message_response ("Traffic reset for '" ++ name ++ "'")),
         write_totals totals st)
    end.
Proof.
  intros H1. unfold reset_traffic, bind, gets, modify, lift. rewrite H1.
  cbv beta iota delta [negb].
  destruct (PyVal.setitem _ _ _); reflexivity.
Qed.

(** ** Steps of the monad *)

Lemma bind_gets {A B : Type} (f : fs -> A) (k : A -> M B) st :
  bind (gets f) k st = k (f st) st.
Proof. reflexivity. Qed.

Lemma bind_modify {B : Type} (f : fs -> fs) (k : unit -> M B) st :
  bind (modify f) k st = k tt (f st).
Proof. reflexivity. Qed.

Lemma bind_lift {A B : Type} (r : res A) (k : A -> M B) st :
  bind (lift r) k st = match r with
                       | inl e => (inl e, st)
                       | inr a => k a st
                       end.
Proof. destruct r; reflexivity. Qed.

(** ** Reading depends on one file *)

Lemma read_uuids_ext st st' :
  uuids_file st = uuids_file st' -> read_uuids st = read_uuids st'.
Proof. unfold read_uuids. intros ->. reflexivity. Qed.

Lemma read_disabled_ext st st' :
  disabled_file st = disabled_file st' -> read_disabled st = read_disabled st'.
Proof. unfold read_disabled. intros ->. reflexivity. Qed.

Lemma read_config_ext st st' :
  config_file st = config_file st' -> read_config st = read_config st'.
Proof. unfold read_config. intros ->. reflexivity. Qed.

Lemma read_totals_ext st st' :
  totals_file st = totals_file st' -> read_totals st = read_totals st'.
Proof. unfold read_totals. intros ->. reflexivity. Qed.

(** ** [delete_user] *)

Lemma without_subscription_frame name st :
  let st' := without_subscription name st in
  uuids_file st' = uuids_file st /\ disabled_file st' = disabled_file st
  /\ config_file st' = config_file st /\ totals_file st' = totals_file st
  /\ stats_file st' = stats_file st /\ history_file st' = history_file st
  /\ xray_restarts st' = xray_restarts st.
Proof.
  unfold without_subscription.
  destruct (find_subscription_token name st) as [t|];
    [destruct (t =? "")|]; repeat split; reflexivity.
Qed.

Lemma without_stats_frame name st :
  let st' := without_stats name st in
  uuids_file st' = uuids_file st /\ disabled_file st' = disabled_file st
  /\ config_file st' = config_file st /\ totals_file st' = totals_file st
  /\ sub_dir st' = sub_dir st /\ history_file st' = history_file st
  /\ xray_restarts st' = xray_restarts st.
Proof.
  unfold without_stats.
  destruct (stats_file st) as [text|]; [|repeat split; reflexivity].
  destruct (rbind _ _); repeat split; reflexivity.
Qed.

Lemma without_history_frame name st :
  let st' := without_history name st in
  uuids_file st' = uuids_file st /\ disabled_file st' = disabled_file st
  /\ config_file st' = config_file st /\ totals_file st' = totals_file st
  /\ sub_dir st' = sub_dir st /\ stats_file st' = stats_file st
  /\ xray_restarts st' = xray_restarts st.
Proof.
  unfold without_history.
  destruct (history_file st) as [text|]; [|repeat split; reflexivity].
  destruct (rbind _ _); repeat split; reflexivity.
Qed.

Lemma unlink_step {B : Type} name (k : unit -> M B) st :
  bind (match find_subscription_token name st with
        | Some t => if t =? "" then ret tt
                    else modify (fun s => set_sub_dir (unlink t (sub_dir s)) s)
        | None => ret tt
        end) k st
  = k tt (without_subscription name st).
Proof.
  unfold without_subscription.
  destruct (find_subscription_token name st) as [t|];
    [destruct (t =? "")|]; reflexivity.
Qed.

Lemma stats_step {B : Type} name (k : unit -> M B) st :
  bind (match stats_file st with
        | Some text =>
            try_pass (stats <- lift (json_loads text) ;;
                      stats <- lift (pop_user name stats) ;;
                      modify (set_stats_file (Some (Doc stats))))
        | None => ret tt
        end) k st
  = k tt (without_stats name st).
Proof.
  unfold without_stats.
  destruct (stats_file st) as [text|]; [|reflexivity].
  unfold bind, try_pass, lift, modify, rbind.
  destruct (json_loads text) as [e|j]; [reflexivity|].
  destruct (pop_user name j); reflexivity.
Qed.

Lemma history_step {B : Type} name (k : unit -> M B) st :
  bind (match history_file st with
        | Some text =>
            try_pass (history <- lift (json_loads text) ;;
                      history <- lift (pop_user_everywhere name history) ;;
                      modify (set_history_file (Some (Doc history))))
        | None => ret tt
        end) k st
  = k tt (without_history name st).
Proof.
  unfold without_history.
  destruct (history_file st) as [text|]; [|reflexivity].
  unfold bind, try_pass, lift, modify, rbind.
  destruct (json_loads text) as [e|j]; [reflexivity|].
  destruct (pop_user_everywhere name j); reflexivity.
Qed.

Lemma delete_user_run name st :
  dict_mem name (read_uuids st) = true ->
  delete_user name st =
    let uuids := dict_del (read_uuids st) name in
    let disabled := Py.set_discard name (read_disabled st) in
    let st3 := tables_deleted name st in
    match PyVal.pop (read_totals st) name with
    | inl e => (inl e, st3)
    | inr totals =>
        let st6 := without_history name
                     (without_stats name (write_totals totals st3)) in
        match rebuild_xray_config uuids disabled st6 with
        | (inl e, st') => (inl e, st')
        | (inr _, st') =>
            (inr (message_response ("User '" ++ name ++ "' deleted")),
             restarted st')
        end
    end.
Proof.
  intros H1. unfold delete_user. rewrite bind_gets. cbv beta.
  rewrite H1. cbv beta iota delta [negb].
  rewrite bind_gets. cbv beta. rewrite unlink_step. cbv beta zeta.
  rewrite bind_modify, bind_gets. cbv beta.
  rewrite bind_modify, bind_gets. cbv beta.
  destruct (without_subscription_frame name st) as (Fu & Fd & Fc & Ft & Fs & Fh & Fr).
  cbv zeta in Fu, Fd, Fc, Ft, Fs, Fh, Fr.
  assert (Hd : read_disabled
                 (write_uuids (dict_del (read_uuids st) name)
                    (without_subscription name st)) = read_disabled st).
  { apply read_disabled_ext. exact Fd. }
  rewrite Hd.
  assert (Ht : read_totals
                 (write_disabled (Py.set_discard name (read_disabled st))
                    (write_uuids (dict_del (read_uuids st) name)
                       (without_subscription name st))) = read_totals st).
  { apply read_totals_ext. exact Ft. }
  rewrite Ht. unfold tables_deleted. cbv zeta.
  rewrite bind_lift.
  destruct (PyVal.pop (read_totals st) name) as [e|totals]; [reflexivity|].
  rewrite bind_modify, bind_gets. cbv beta.
  rewrite stats_step, bind_gets. cbv beta. rewrite history_step.
  reflexivity.
Qed.

End MoreRuns.

(** * The configuration *)

Section Config.

Lemma dict_set_same {V : Type} (d : dict V) k v :
  dict_get d k = Some v -> dict_set d k v = d.
Proof.
  induction d as [|[k0 v0] r IH]; simpl; [discriminate|].
  destruct (k0 =? k) eqn:E.
  - intros H. inversion H. reflexivity.
  - intros H. rewrite IH; auto.
Qed.

Lemma set_clients_vless clients l l' :
  set_clients clients l = inr l' ->
  vless_inbound l <> None ->
  inbound_clients (vless_inbound l') = Some clients.
Proof.
  revert l'. induction l as [|inbound rest IH]; intros l' Hs Hv.
  - simpl in Hv. congruence.
  - simpl in Hs. destruct inbound as [| | | | | |kv]; try discriminate Hs.
    simpl in Hs, Hv.
    destruct (dict_get kv "protocol") as [proto|] eqn:Hp.
    + destruct (is_vless proto) eqn:Hvl.
      * unfold PyVal.getitem in Hs.
        destruct (dict_get kv "settings") as [settings|] eqn:Hset;
          [|discriminate Hs].
        simpl in Hs. destruct settings as [| | | | | |s]; try discriminate Hs.
        simpl in Hs. inversion Hs; subst. simpl.
        rewrite dict_get_set. simpl. rewrite Hp, Hvl. simpl.
        rewrite dict_get_set. simpl. rewrite dict_get_set. reflexivity.
      * simpl in Hs. destruct (set_clients clients rest) as [e|rest'] eqn:Hr;
          [discriminate Hs|].
        simpl in Hs. inversion Hs; subst. simpl. rewrite Hp, Hvl.
        apply IH; auto.
    + simpl in Hs. destruct (set_clients clients rest) as [e|rest'] eqn:Hr;
        [discriminate Hs|].
      simpl in Hs. inversion Hs; subst. simpl. rewrite Hp.
      apply IH; auto.
Qed.

Lemma active_clients_inbounds st :
  active_clients st =
    match config_inbounds st with
    | Some l => inbound_clients (vless_inbound l)
    | None => None
    end.
Proof.
  unfold active_clients, inbound_clients.
  destruct (config_inbounds st); reflexivity.
Qed.

(** A rebuild that returns leaves the clients in the vless inbound. *)
Lemma rebuild_active_clients uuids disabled st st' :
  has_vless_inbound st = true ->
  rebuild_xray_config uuids disabled st = (inr tt, st') ->
  st' = write_config
          match read_config st' with inr c => c | inl _ => JNull end st
  /\ active_clients st' = Some (clients_of uuids disabled).
Proof.
  intros Hv Hr. rewrite rebuild_xray_config_run in Hr.
  unfold has_vless_inbound, config_inbounds in Hv.
  unfold read_config in Hr.
  destruct (config_file st) as [[|cfg]|] eqn:Hc; try discriminate Hv.
  simpl in Hr. destruct cfg as [| | | | | |kv]; try discriminate Hv.
  destruct (dict_get kv "inbounds") as [[| | | | |l|]|] eqn:Hi; try discriminate Hv.
  unfold with_clients in Hr. rewrite Hi in Hr.
  destruct (set_clients (clients_of uuids disabled) l) as [e|l'] eqn:Hs;
    [discriminate Hr|].
  simpl in Hr. inversion Hr; subst. split; [reflexivity|].
  rewrite active_clients_inbounds. unfold config_inbounds. simpl.
  rewrite dict_get_set. simpl.
  apply (set_clients_vless _ _ _ Hs).
  destruct (vless_inbound l); [discriminate|discriminate Hv].
Qed.

(** ** Configurations no handler trips over *)

Lemma set_clients_wf clients l :
  forallb inbound_wf l = true -> exists l', set_clients clients l = inr l'.
Proof.
  induction l as [|inbound rest IH]; intros H; [eexists; reflexivity|].
  simpl in H. apply andb_true_iff in H as [Hi Hr].
  destruct (IH Hr) as [rest' Hrest].
  destruct inbound as [| | | | | |kv]; try discriminate Hi.
  simpl in Hi. apply andb_true_iff in Hi as [_ Hp].
  simpl. destruct (dict_get kv "protocol") as [proto|] eqn:Hproto.
  - destruct (is_vless proto) eqn:Hvl.
    + unfold PyVal.getitem.
      destruct (dict_get kv "settings") as [[| | | | | |s]|]; try discriminate Hp.
      simpl. eexists; reflexivity.
    + rewrite Hrest. simpl. eexists; reflexivity.
  - simpl. rewrite Hrest. simpl. eexists; reflexivity.
Qed.

Lemma set_clients_none clients l :
  forallb inbound_wf l = true -> vless_inbound l = None ->
  set_clients clients l = inr l.
Proof.
  induction l as [|inbound rest IH]; intros H Hv; [reflexivity|].
  simpl in H. apply andb_true_iff in H as [Hi Hr].
  destruct inbound as [| | | | | |kv]; try discriminate Hi.
  simpl in Hv |- *. destruct (dict_get kv "protocol") as [proto|] eqn:Hproto.
  - destruct (is_vless proto) eqn:Hvl; [discriminate Hv|].
    rewrite (IH Hr Hv). reflexivity.
  - simpl. rewrite (IH Hr Hv). reflexivity.
Qed.

Lemma rebuild_wf uuids disabled st :
  config_wf st = true ->
  exists cfg', rebuild_xray_config uuids disabled st = (inr tt, write_config cfg' st).
Proof.
  intros H. rewrite rebuild_xray_config_run. unfold config_wf in H.
  unfold read_config.
  destruct (config_file st) as [[|cfg]|]; try discriminate H.
  destruct cfg as [| | | | | |kv]; try discriminate H.
  simpl. unfold field_ok in H.
  destruct (dict_get kv "inbounds") as [[| | | | |l|]|]; try discriminate H.
  - destruct (set_clients_wf (clients_of uuids disabled) l H) as [l' Hl].
    rewrite Hl. simpl. eexists; reflexivity.
  - eexists; reflexivity.
Qed.

(** Without a vless inbound the rebuild writes the configuration back
    as it read it. *)
Lemma rebuild_no_vless uuids disabled st cfg :
  config_wf st = true -> has_vless_inbound st = false ->
  config_file st = Some (Doc cfg) ->
  rebuild_xray_config uuids disabled st = (inr tt, write_config cfg st).
Proof.
  intros H Hv Hc. rewrite rebuild_xray_config_run.
  unfold config_wf in H. unfold has_vless_inbound, config_inbounds in Hv.
  unfold read_config. rewrite Hc in *.
  destruct cfg as [| | | | | |kv]; try discriminate H.
  simpl. unfold field_ok in H.
  destruct (dict_get kv "inbounds") as [[| | | | |l|]|] eqn:Hi; try discriminate H.
  - destruct (vless_inbound l) eqn:Hvl; [discriminate Hv|].
    rewrite (set_clients_none _ _ H Hvl). simpl.
    rewrite (dict_set_same _ _ _ Hi). reflexivity.
  - reflexivity.
Qed.

Lemma first_or_empty_wf r key :
  field_ok r key is_list = true -> exists x, first_or_empty (JDict r) key = inr x.
Proof.
  unfold field_ok, first_or_empty. simpl.
  destruct (dict_get r key) as [[| | | | |l|]|] eqn:Hg; try discriminate.
  - intros _. destruct l as [|x l']; simpl; [eexists; reflexivity|].
    eexists; reflexivity.
  - intros _. simpl. eexists; reflexivity.
Qed.

Lemma vless_of_inbounds_wf E n u l :
  forallb inbound_wf l = true ->
  exists r, vless_of_inbounds E n u l = inr r.
Proof.
  induction l as [|inbound rest IH]; intros H; [eexists; reflexivity|].
  simpl in H. apply andb_true_iff in H as [Hi Hr].
  destruct (IH Hr) as [r Hrest].
  destruct inbound as [| | | | | |kv]; try discriminate Hi.
  simpl in Hi. apply andb_true_iff in Hi as [Hs _].
  simpl. unfold field_ok in Hs.
  destruct (dict_get kv "streamSettings") as [ss|].
  - destruct ss as [| | | | | |s]; try discriminate Hs.
    simpl in Hs |- *. unfold field_ok in Hs.
    destruct (dict_get s "realitySettings") as [rs|].
    + simpl. destruct (PyVal.truthy rs) eqn:Ht;
        [|rewrite Hrest; eexists; reflexivity].
      destruct rs as [|b|z|nz t|str|lst|rkv]; simpl in Hs, Ht;
        try (rewrite Ht in Hs; discriminate Hs); try discriminate Ht.
      apply andb_true_iff in Hs as [H1 H2].
      destruct (first_or_empty_wf _ _ H1) as [x1 Hx1].
      destruct (first_or_empty_wf _ _ H2) as [x2 Hx2].
      rewrite Hx1, Hx2. simpl. eexists; reflexivity.
    + simpl. rewrite Hrest. eexists; reflexivity.
  - simpl. rewrite Hrest. eexists; reflexivity.
Qed.

Lemma vless_of_config_wf E n u st :
  config_wf st = true -> exists r, vless_of_config E n u st = inr r.
Proof.
  intros H. unfold config_wf in H. unfold vless_of_config, read_config.
  destruct (config_file st) as [[|cfg]|]; try discriminate H.
  destruct cfg as [| | | | | |kv]; try discriminate H.
  simpl. unfold field_ok in H.
  destruct (dict_get kv "inbounds") as [[| | | | |l|]|]; try discriminate H.
  - simpl. apply vless_of_inbounds_wf, H.
  - simpl. eexists; reflexivity.
Qed.

Lemma vless_of_inbounds_no_reality E n u l :
  forallb no_reality l = true -> vless_of_inbounds E n u l = inr None.
Proof.
  induction l as [|inbound rest IH]; intros H; [reflexivity|].
  simpl in H. apply andb_true_iff in H as [Hi Hr].
  destruct inbound as [| | | | | |kv]; try discriminate Hi.
  simpl in Hi |- *. unfold field_ok in Hi.
  destruct (dict_get kv "streamSettings") as [ss|].
  - destruct ss as [| | | | | |s]; try discriminate Hi.
    simpl. unfold field_ok in Hi.
    destruct (dict_get s "realitySettings") as [rs|].
    + apply negb_true_iff in Hi. simpl. rewrite Hi. auto.
    + simpl. auto.
  - simpl. auto.
Qed.

Lemma vless_of_config_no_reality E n u st :
  config_without_reality st = true -> vless_of_config E n u st = inr None.
Proof.
  intros H. unfold config_without_reality in H.
  unfold vless_of_config, read_config.
  destruct (config_file st) as [[|cfg]|]; try discriminate H.
  destruct cfg as [| | | | | |kv]; try discriminate H.
  simpl. unfold field_ok in H.
  destruct (dict_get kv "inbounds") as [[| | | | |l|]|]; try discriminate H.
  - simpl. apply vless_of_inbounds_no_reality, H.
  - reflexivity.
Qed.

End Config.

(** * What a request leaves in the files *)

Section Frames.

Variable E : Env.

Lemma create_subscription_file_frame n u t st :
  let st' := snd (create_subscription_file E n u t st) in
  uuids_file st' = uuids_file st /\ disabled_file st' = disabled_file st
  /\ config_file st' = config_file st /\ totals_file st' = totals_file st
  /\ stats_file st' = stats_file st /\ history_file st' = history_file st
  /\ xray_restarts st' = xray_restarts st.
Proof.
  rewrite create_subscription_file_run.
  destruct (vless_of_config E n u st) as [e|[link|]];
    [|destruct (link =? "")|]; repeat split; reflexivity.
Qed.

Lemma rebuild_frame uuids disabled st :
  let st' := snd (rebuild_xray_config uuids disabled st) in
  uuids_file st' = uuids_file st /\ disabled_file st' = disabled_file st
  /\ sub_dir st' = sub_dir st /\ totals_file st' = totals_file st
  /\ stats_file st' = stats_file st /\ history_file st' = history_file st
  /\ xray_restarts st' = xray_restarts st
  /\ (forall e, fst (rebuild_xray_config uuids disabled st) = inl e -> st' = st).
Proof.
  rewrite rebuild_xray_config_run.
  destruct (read_config st) as [e|cfg]; [repeat split; reflexivity|].
  destruct (with_clients _ cfg) as [e|cfg']; repeat split; try reflexivity.
  simpl. discriminate.
Qed.

Lemma create_user_unrequested j uu t st :
  requested_username j = None -> snd (create_user E j uu t st) = st.
Proof.
  unfold requested_username, create_user, bind, lift.
  destruct j as [[|b|z|nz x|s|l|kv]|]; try reflexivity.
  - destruct b; reflexivity.
  - simpl. destruct (z =? 0)%Z; reflexivity.
  - destruct nz; reflexivity.
  - simpl. destruct (s =? ""); reflexivity.
  - destruct l; reflexivity.
  - destruct kv as [|p kv']; [reflexivity|]. simpl PyVal.truthy. cbv iota.
    unfold PyVal.get.
    destruct (dict_get (p :: kv') "username") as [[| | | |raw| |]|];
      try discriminate; reflexivity.
Qed.

(** A request that does not reach the rebuild leaves the two tables and
    the configuration as they are. *)
Lemma handle_untriggered r st :
  triggers_rebuild r st = false ->
  let st' := snd (handle E r st) in
  uuids_file st' = uuids_file st /\ disabled_file st' = disabled_file st
  /\ config_file st' = config_file st.
Proof.
  destruct r as [j uu t|n|n|n|n]; simpl.
  - destruct (requested_username j) as [u|] eqn:Hj.
    + intros H. destruct (accepted_username u) eqn:Ha.
      * simpl in H. apply negb_false_iff in H.
        rewrite (create_user_409 E j u uu t st Hj Ha H). repeat split; reflexivity.
      * destruct (create_user_400 E j u uu t st Hj Ha) as [msg ->].
        repeat split; reflexivity.
    + intros _. rewrite create_user_unrequested by assumption.
      repeat split; reflexivity.
  - intros H. destruct (handler_404 n st H) as (-> & _). repeat split; reflexivity.
  - intros H. destruct (dict_mem n (read_uuids st)) eqn:Hm.
    + simpl in H. apply negb_false_iff in H.
      rewrite disable_user_noop by assumption. repeat split; reflexivity.
    + destruct (handler_404 n st Hm) as (_ & -> & _). repeat split; reflexivity.
  - intros H. destruct (dict_mem n (read_uuids st)) eqn:Hm.
    + simpl in H. rewrite enable_user_noop by assumption. repeat split; reflexivity.
    + destruct (handler_404 n st Hm) as (_ & _ & -> & _). repeat split; reflexivity.
  - intros _. destruct (dict_mem n (read_uuids st)) eqn:Hm.
    + rewrite reset_traffic_run by assumption.
      destruct (PyVal.setitem _ _ _); repeat split; reflexivity.
    + destruct (handler_404 n st Hm) as (_ & _ & _ & ->). repeat split; reflexivity.
Qed.

Lemma tables_deleted_files n st :
  uuids_file (tables_deleted n st) = Some (uuids_text (dict_del (read_uuids st) n))
  /\ disabled_file (tables_deleted n st)
     = Some (disabled_text (Py.set_discard n (read_disabled st)))
  /\ config_file (tables_deleted n st) = config_file st
  /\ totals_file (tables_deleted n st) = totals_file st
  /\ stats_file (tables_deleted n st) = stats_file st
  /\ history_file (tables_deleted n st) = history_file st.
Proof.
  destruct (without_subscription_frame n st) as (Fu & Fd & Fc & Ft & Fs & Fh & Fr).
  unfold tables_deleted. simpl. auto 10.
Qed.

Lemma before_rebuild_files n totals st :
  let st6 := before_rebuild n totals st in
  uuids_file st6 = Some (uuids_text (dict_del (read_uuids st) n))
  /\ disabled_file st6 = Some (disabled_text (Py.set_discard n (read_disabled st)))
  /\ config_file st6 = config_file st
  /\ totals_file st6 = Some (Doc totals).
Proof.
  unfold before_rebuild.
  destruct (tables_deleted_files n st) as (Tu & Td & Tc & _).
  set (s4 := write_totals totals (tables_deleted n st)).
  destruct (without_stats_frame n s4) as (Su & Sd & Sc & St & _).
  destruct (without_history_frame n (without_stats n s4)) as (Hu & Hd & Hc & Ht & _).
  cbv zeta in *. rewrite Hu, Hd, Hc, Ht, Su, Sd, Sc, St. subst s4. simpl. auto.
Qed.

(** The two tables after a rebuild and a restart are those before. *)
Ltac tables_by Fr :=
  cbv zeta in Fr; cbn [fst snd] in Fr;
  let Ru := fresh "Ru" in
  let Rd := fresh "Rd" in
  destruct Fr as (Ru & Rd & _);
  unfold restarted, set_xray_restarts;
  cbn [fst snd uuids_file disabled_file];
  rewrite Ru, Rd.

(** Whatever the outcome, a request that reaches the rebuild has written
    its mutation to the two tables. *)
Lemma handle_tables r st :
  triggers_rebuild r st = true ->
  let st' := snd (handle E r st) in
  (uuids_file st', disabled_file st') = tables_after r st.
Proof.
  destruct r as [j uu t|n|n|n|n]; simpl; try discriminate.
  - destruct (requested_username j) as [u|] eqn:Hj; [|discriminate].
    intros H. apply andb_true_iff in H as [Ha Hm]. apply negb_true_iff in Hm.
    rewrite (create_user_run E j u uu t st Hj Ha Hm). cbv zeta.
    set (st1 := write_uuids (dict_set (read_uuids st) u uu) st).
    pose proof (create_subscription_file_frame u uu t st1) as Fc.
    destruct (create_subscription_file E u uu t st1) as [[e|token] st2];
      cbv zeta in Fc; cbn [fst snd] in Fc; destruct Fc as (Fu & Fd & _).
    + cbn [fst snd]. rewrite Fu, Fd. reflexivity.
    + pose proof (rebuild_frame (dict_set (read_uuids st) u uu)
                    (read_disabled st2) st2) as Fr.
      destruct (rebuild_xray_config _ _ st2) as [[e|[]] st3];
        tables_by Fr; rewrite Fu, Fd; reflexivity.
  - intros Hm. rewrite delete_user_run by assumption. cbv zeta.
    destruct (tables_deleted_files n st) as (Tu & Td & _).
    destruct (PyVal.pop (read_totals st) n) as [e|totals].
    + cbn [fst snd]. rewrite Tu, Td. reflexivity.
    + fold (before_rebuild n totals st).
      destruct (before_rebuild_files n totals st) as (Bu & Bd & _).
      pose proof (rebuild_frame (dict_del (read_uuids st) n)
                    (Py.set_discard n (read_disabled st))
                    (before_rebuild n totals st)) as Fr.
      destruct (rebuild_xray_config _ _ _) as [[e|[]] st3];
        tables_by Fr; rewrite Bu, Bd; reflexivity.
  - intros H. apply andb_true_iff in H as [Hm Hd]. apply negb_true_iff in Hd.
    rewrite disable_user_run by assumption. cbv zeta.
    pose proof (rebuild_frame (read_uuids st) (Py.set_add n (read_disabled st))
                  (write_disabled (Py.set_add n (read_disabled st)) st)) as Fr.
    destruct (rebuild_xray_config _ _ _) as [[e|[]] st3];
      tables_by Fr; reflexivity.
  - intros H. apply andb_true_iff in H as [Hm Hd].
    rewrite enable_user_run by assumption. cbv zeta.
    pose proof (rebuild_frame (read_uuids st) (Py.set_discard n (read_disabled st))
                  (write_disabled (Py.set_discard n (read_disabled st)) st)) as Fr.
    destruct (rebuild_xray_config _ _ _) as [[e|[]] st3];
      tables_by Fr; reflexivity.
Qed.

End Frames.

(** * The tables after a request *)

Section Tables.

Variable E : Env.

Lemma no_space_clean s :
  Py.all_chars (fun c => negb (Py.isspace c)) s = true -> clean s.
Proof.
  intros H. split; [apply trimmed_no_space, H|].
  unfold no_break. eapply all_chars_impl; [|exact H].
  intros c Hc. apply negb_true_iff in Hc. apply negb_true_iff.
  destruct (Py.is_linebreak c) eqn:Hl; auto.
  apply linebreak_isspace in Hl. congruence.
Qed.

Lemma accepted_allowed u :
  accepted_username u = true -> Py.all_chars allowed_char u = true.
Proof.
  unfold accepted_username, wellformed_username. intros H.
  apply andb_true_iff in H as [H _]. apply andb_true_iff in H as [_ H]. exact H.
Qed.

Lemma accepted_clean u : accepted_username u = true -> clean u.
Proof.
  intros H. apply no_space_clean.
  eapply all_chars_impl; [|apply accepted_allowed, H].
  intros c Hc. rewrite (allowed_not_space _ Hc). reflexivity.
Qed.

Lemma accepted_no_colon u : accepted_username u = true -> no_colon u = true.
Proof.
  intros H. unfold no_colon.
  eapply all_chars_impl; [|apply accepted_allowed, H].
  intros c Hc. rewrite (allowed_not_colon _ Hc). reflexivity.
Qed.

Lemma accepted_nonempty u : accepted_username u = true -> u <> "".
Proof.
  unfold accepted_username, wellformed_username. intros H.
  apply andb_true_iff in H as [H _]. apply andb_true_iff in H as [H _].
  apply andb_true_iff in H as [H _]. apply negb_true_iff in H.
  apply String.eqb_neq, H.
Qed.

Lemma uuid_like_clean u : uuid_like u = true -> clean u.
Proof.
  unfold uuid_like. intros H. apply andb_true_iff in H as [_ H].
  apply no_space_clean. eapply all_chars_impl; [|exact H].
  intros c Hc. rewrite (uuid_char_not_space _ Hc). reflexivity.
Qed.

Lemma uuids_after_clean r st :
  triggers_rebuild r st = true -> well_drawn r = true ->
  clean_dict (uuids_after r st).
Proof.
  destruct r as [j uu t|n|n|n|n]; simpl; intros H Hw;
    try apply read_uuids_clean.
  - destruct (requested_username j) as [u|]; [|discriminate].
    apply andb_true_iff in H as [Ha _].
    apply clean_dict_set.
    + apply read_uuids_clean.
    + apply accepted_clean, Ha.
    + apply accepted_no_colon, Ha.
    + apply uuid_like_clean, Hw.
  - apply clean_dict_del, read_uuids_clean.
Qed.

Lemma uuids_file_after r st :
  triggers_rebuild r st = true ->
  read_uuids (set_uuids_file (fst (tables_after r st)) st)
  = read_uuids (write_uuids (uuids_after r st) st).
Proof.
  destruct r as [j uu t|n|n|n|n]; simpl; try discriminate; intros H.
  - destruct (requested_username j); [reflexivity|discriminate].
  - reflexivity.
  - unfold read_uuids. simpl.
    change (match uuids_file st with
            | Some text => fold_left parse_uuid_line (Py.splitlines (Py.strip text)) []
            | None => []
            end) with (read_uuids st).
    symmetry. apply (read_write_uuids (read_uuids st) st), read_uuids_clean.
  - unfold read_uuids. simpl.
    change (match uuids_file st with
            | Some text => fold_left parse_uuid_line (Py.splitlines (Py.strip text)) []
            | None => []
            end) with (read_uuids st).
    symmetry. apply (read_write_uuids (read_uuids st) st), read_uuids_clean.
Qed.

(** The Credential Table read after the request is the table the
    request held in memory. *)
Lemma read_uuids_after r st :
  triggers_rebuild r st = true -> well_drawn r = true ->
  read_uuids (snd (handle E r st)) = uuids_after r st.
Proof.
  intros H Hw. pose proof (handle_tables E r st H) as Ht. cbv zeta in Ht.
  rewrite (read_uuids_ext _ (set_uuids_file (fst (tables_after r st)) st)).
  2:{ rewrite <- Ht. reflexivity. }
  rewrite uuids_file_after by assumption.
  apply read_write_uuids, uuids_after_clean; assumption.
Qed.

Lemma disabled_subset_spec st :
  disabled_subset st = true <->
  (forall x, In x (read_disabled st) -> dict_mem x (read_uuids st) = true).
Proof. unfold disabled_subset. apply forallb_forall. Qed.

Lemma disabled_clean st :
  disabled_subset st = true -> Forall clean (read_disabled st).
Proof.
  intros H. apply Forall_forall. intros x Hx.
  apply (clean_key (read_uuids st)); [apply read_uuids_clean|].
  exact (proj1 (disabled_subset_spec st) H x Hx).
Qed.

Lemma disabled_after_clean r st :
  triggers_rebuild r st = true -> disabled_subset st = true ->
  Forall clean (disabled_after r st).
Proof.
  intros H Hs. pose proof (disabled_clean st Hs) as Hc.
  rewrite Forall_forall in Hc. apply Forall_forall. intros x.
  destruct r as [j uu t|n|n|n|n]; simpl in *; try discriminate; auto.
  - rewrite In_set_discard. intros [_ Hx]. auto.
  - rewrite In_set_add. intros [->|Hx]; auto.
    apply andb_true_iff in H as [Hm _].
    apply (clean_key (read_uuids st)); [apply read_uuids_clean|exact Hm].
  - rewrite In_set_discard. intros [_ Hx]. auto.
Qed.

Lemma disabled_file_after r st :
  triggers_rebuild r st = true ->
  (exists j uu t, r = Create j uu t /\ snd (tables_after r st) = disabled_file st)
  \/ snd (tables_after r st) = Some (disabled_text (disabled_after r st)).
Proof.
  destruct r as [j uu t|n|n|n|n]; simpl; try discriminate; auto.
  intros H. left. exists j, uu, t. split; auto.
  destruct (requested_username j); reflexivity.
Qed.

(** Every name read from the Disabled Set after the request was in the
    set the request held in memory. *)
Lemma read_disabled_after_sub r st x :
  triggers_rebuild r st = true -> disabled_subset st = true ->
  In x (read_disabled (snd (handle E r st))) -> In x (disabled_after r st).
Proof.
  intros H Hs. pose proof (handle_tables E r st H) as Ht. cbv zeta in Ht.
  assert (Hd : disabled_file (snd (handle E r st)) = snd (tables_after r st))
    by (rewrite <- Ht; reflexivity).
  destruct (disabled_file_after r st H) as [(j & uu & t & -> & Hc)|Hc].
  - rewrite Hc in Hd. rewrite (read_disabled_ext _ st Hd). auto.
  - rewrite Hc in Hd.
    rewrite (read_disabled_ext _ (write_disabled (disabled_after r st) st))
      by (rewrite Hd; reflexivity).
    apply read_write_disabled_sub, disabled_after_clean; assumption.
Qed.

Lemma store_inv_spec st :
  store_inv st = true <->
  dict_mem "" (read_uuids st) = false /\ disabled_subset st = true.
Proof.
  unfold store_inv. rewrite andb_true_iff, negb_true_iff. tauto.
Qed.

Lemma disabled_after_nonempty r st :
  triggers_rebuild r st = true -> store_inv st = true ->
  Forall (fun y => y <> "") (disabled_after r st).
Proof.
  intros H Hi. apply store_inv_spec in Hi as [He Hs].
  assert (Hk : forall x, dict_mem x (read_uuids st) = true -> x <> "").
  { intros x Hx ->. congruence. }
  rewrite disabled_subset_spec in Hs.
  apply Forall_forall. intros x.
  destruct r as [j uu t|n|n|n|n]; simpl in *; try discriminate; auto.
  - rewrite In_set_discard. intros [_ Hx]. auto.
  - rewrite In_set_add. intros [->|Hx]; auto.
    apply andb_true_iff in H as [Hm _]. auto.
  - rewrite In_set_discard. intros [_ Hx]. auto.
Qed.

(** In a store that keeps its invariant the Disabled Set read after the
    request is the set the request held in memory. *)
Lemma read_disabled_after r st x :
  triggers_rebuild r st = true -> store_inv st = true ->
  In x (read_disabled (snd (handle E r st))) <-> In x (disabled_after r st).
Proof.
  intros H Hi. pose proof (handle_tables E r st H) as Ht. cbv zeta in Ht.
  assert (Hs : disabled_subset st = true) by (apply store_inv_spec in Hi; tauto).
  assert (Hd : disabled_file (snd (handle E r st)) = snd (tables_after r st))
    by (rewrite <- Ht; reflexivity).
  destruct (disabled_file_after r st H) as [(j & uu & t & -> & Hc)|Hc].
  - rewrite Hc in Hd. rewrite (read_disabled_ext _ st Hd). simpl. tauto.
  - rewrite Hc in Hd.
    rewrite (read_disabled_ext _ (write_disabled (disabled_after r st) st))
      by (rewrite Hd; reflexivity).
    apply read_write_disabled_In.
    + apply disabled_after_clean; assumption.
    + apply disabled_after_nonempty; assumption.
Qed.

End Tables.

(** * The Disabled Set stays within the Credential Table *)

Lemma disabled_subset_ext st st' :
  uuids_file st' = uuids_file st -> disabled_file st' = disabled_file st ->
  disabled_subset st' = disabled_subset st.
Proof.
  intros Hu Hd. unfold disabled_subset.
  rewrite (read_uuids_ext _ _ Hu), (read_disabled_ext _ _ Hd). reflexivity.
Qed.

Lemma store_inv_ext st st' :
  uuids_file st' = uuids_file st -> disabled_file st' = disabled_file st ->
  store_inv st' = store_inv st.
Proof.
  intros Hu Hd. unfold store_inv.
  rewrite (disabled_subset_ext _ _ Hu Hd), (read_uuids_ext _ _ Hu). reflexivity.
Qed.

Lemma disabled_after_in_table r st x :
  triggers_rebuild r st = true -> disabled_subset st = true ->
  In x (disabled_after r st) -> dict_mem x (uuids_after r st) = true.
Proof.
  intros H Hs. pose proof (proj1 (disabled_subset_spec st) Hs) as Hsub.
  destruct r as [j uu t|n|n|n|n]; simpl in *; try discriminate.
  - destruct (requested_username j) as [u|]; [|discriminate].
    intros Hx. unfold dict_mem. rewrite dict_get_set.
    destruct (u =? x); [reflexivity|]. apply (Hsub x Hx).
  - rewrite In_set_discard. intros [Hne Hx].
    rewrite dict_mem_del_other by congruence. auto.
  - rewrite In_set_add. intros [->|Hx]; auto.
    apply andb_true_iff in H as [Hm _]. exact Hm.
  - rewrite In_set_discard. intros [_ Hx]. auto.
Qed.

Lemma handle_keeps_subset E r st :
  disabled_subset st = true -> well_drawn r = true ->
  disabled_subset (snd (handle E r st)) = true.
Proof.
  intros Hs Hw. destruct (triggers_rebuild r st) eqn:Ht.
  - apply disabled_subset_spec. intros x Hx.
    rewrite read_uuids_after by assumption.
    apply disabled_after_in_table; auto.
    eapply read_disabled_after_sub; eauto.
  - destruct (handle_untriggered E r st Ht) as (Hu & Hd & _).
    rewrite (disabled_subset_ext _ _ Hu Hd). exact Hs.
Qed.

Lemma uuids_after_nonempty r st :
  triggers_rebuild r st = true ->
  dict_mem "" (read_uuids st) = false ->
  dict_mem "" (uuids_after r st) = false.
Proof.
  intros H He. destruct r as [j uu t|n|n|n|n]; simpl in *; try discriminate; auto.
  - destruct (requested_username j) as [u|]; [|discriminate].
    apply andb_true_iff in H as [Ha _]. apply accepted_nonempty in Ha.
    unfold dict_mem in *. rewrite dict_get_set.
    apply String.eqb_neq in Ha. rewrite Ha. exact He.
  - destruct (String.eqb_spec n "") as [->|Hne].
    + apply dict_mem_del.
    + rewrite dict_mem_del_other by assumption. exact He.
Qed.

Lemma handle_keeps_inv E r st :
  store_inv st = true -> well_drawn r = true ->
  store_inv (snd (handle E r st)) = true.
Proof.
  intros Hi Hw. destruct (triggers_rebuild r st) eqn:Ht.
  - pose proof (proj1 (store_inv_spec st) Hi) as [He Hs].
    apply store_inv_spec. split.
    + rewrite read_uuids_after by assumption.
      apply uuids_after_nonempty; assumption.
    + apply handle_keeps_subset; assumption.
  - destruct (handle_untriggered E r st Ht) as (Hu & Hd & _).
    rewrite (store_inv_ext _ _ Hu Hd). exact Hi.
Qed.

Lemma empty_store_inv cfg : store_inv (empty_store cfg) = true.
Proof. reflexivity. Qed.

(** C8. The Disabled Set is a subset of the usernames of the Credential
    Table after every request, completed or not, provided it was one
    before: [disable_user] adds no name but the one it is given, which
    the table holds, and [delete_user] leaves the name it is given out
    of the Disabled Set. *)
Theorem disabled_set_within_credentials E r st :
  disabled_subset st = true -> well_drawn r = true ->
  disabled_subset (snd (handle E r st)) = true
  /\ (forall n x, r = Disable n ->
        In x (read_disabled (snd (handle E r st))) ->
        In x (read_disabled st) \/ (x = n /\ dict_mem n (read_uuids st) = true))
  /\ (forall n, r = Delete n ->
        Py.set_mem n (read_disabled (snd (handle E r st))) = false).
Proof.
  intros Hs Hw. split; [apply handle_keeps_subset; assumption|]. split.
  - intros n x -> Hx. destruct (triggers_rebuild (Disable n) st) eqn:Ht.
    + apply read_disabled_after_sub in Hx; try assumption.
      simpl in Hx, Ht. apply In_set_add in Hx.
      apply andb_true_iff in Ht as [Hm _]. destruct Hx as [->|Hx]; auto.
    + destruct (handle_untriggered E (Disable n) st Ht) as (_ & Hd & _).
      rewrite (read_disabled_ext _ _ Hd) in Hx. auto.
  - intros n ->. apply set_mem_false. intros Hx.
    destruct (triggers_rebuild (Delete n) st) eqn:Ht.
    + apply read_disabled_after_sub in Hx; try assumption.
      simpl in Hx. apply In_set_discard in Hx. tauto.
    + destruct (handle_untriggered E (Delete n) st Ht) as (_ & Hd & _).
      rewrite (read_disabled_ext _ _ Hd) in Hx.
      apply (proj1 (disabled_subset_spec st) Hs) in Hx.
      simpl in Ht. congruence.
Qed.

Lemma disabled_set_within_credentials_witness :
  disabled_subset demo_alice = true
  /\ disabled_subset (snd (handle demo_env (Disable "alice") demo_alice)) = true
  /\ Py.set_mem "alice"
       (read_disabled (snd (handle demo_env (Delete "alice") demo_disabled))) = false.
Proof.
  split; [reflexivity|]. split.
  - apply (disabled_set_within_credentials demo_env (Disable "alice") demo_alice);
      reflexivity.
  - apply (disabled_set_within_credentials demo_env (Delete "alice") demo_disabled);
      reflexivity.
Defined.

(** * Validation of the username *)

(** C3 (as the code has it). [create_user] answers 400 exactly when the
    stripped username is not accepted: it is empty, longer than 32
    characters, has a character that is neither alphanumeric nor [_] nor
    [-], or has no alphanumeric character at all. *)
Theorem create_user_400_iff E raw uu t st :
  is_response 400 (fst (create_user E (username_body raw) uu t st))
  = negb (accepted_username (Py.strip raw)).
Proof.
  assert (Hj : requested_username (username_body raw) = Some (Py.strip raw))
    by reflexivity.
  destruct (accepted_username (Py.strip raw)) eqn:Ha.
  - destruct (dict_mem (Py.strip raw) (read_uuids st)) eqn:Hm.
    + rewrite (create_user_409 E _ _ uu t st Hj Ha Hm). reflexivity.
    + rewrite (create_user_run E _ _ uu t st Hj Ha Hm). cbv zeta.
      destruct (create_subscription_file _ _ _ _ _) as [[e|token] st2];
        [reflexivity|].
      destruct (rebuild_xray_config _ _ _) as [[e|[]] st3]; reflexivity.
  - destruct (create_user_400 E _ _ uu t st Hj Ha) as [msg ->]. reflexivity.
Qed.

(** C3, counterexample: the name [_] is made of allowed characters and
    has length 1, and is answered 400. *)
Lemma underscore_rejected :
  wellformed_username "_" = true
  /\ is_response 400
       (fst (create_user demo_env (username_body "_") alice_uuid "t" demo_fresh))
     = true.
Proof. split; reflexivity. Qed.

(** * Creating twice *)

Lemma created_in_table E raw uu t st :
  accepted_username (Py.strip raw) = true ->
  dict_mem (Py.strip raw) (read_uuids st) = false ->
  uuid_like uu = true ->
  read_uuids (snd (create_user E (username_body raw) uu t st))
  = dict_set (read_uuids st) (Py.strip raw) uu.
Proof.
  intros Ha Hm Hu.
  apply (read_uuids_after E (Create (username_body raw) uu t) st).
  - simpl. rewrite Ha, Hm. reflexivity.
  - exact Hu.
Qed.

Lemma dict_mem_set {V : Type} (d : dict V) k v : dict_mem k (dict_set d k v) = true.
Proof. unfold dict_mem. rewrite dict_get_set, String.eqb_refl. reflexivity. Qed.

(** C5. Once [create_user] has answered 201 for a username, a second
    request for it is answered 409 and changes no file, so the
    Credential Table keeps its size and its mapping. *)
Theorem create_user_twice_conflict E raw uu1 t1 uu2 t2 st resp1 st1 :
  uuid_like uu1 = true ->
  create_user E (username_body raw) uu1 t1 st = (inr resp1, st1) ->
  status resp1 = 201 ->
  create_user E (username_body raw) uu2 t2 st1
    = (inr (conflict (Py.strip raw)), st1)
  /\ status (conflict (Py.strip raw)) = 409
  /\ read_uuids (snd (create_user E (username_body raw) uu2 t2 st1))
     = read_uuids st1
  /\ List.length (read_uuids (snd (create_user E (username_body raw) uu2 t2 st1)))
     = List.length (read_uuids st1).
Proof.
  intros Hu H1 H201.
  assert (Hj : requested_username (username_body raw) = Some (Py.strip raw))
    by reflexivity.
  destruct (accepted_username (Py.strip raw)) eqn:Ha.
  2:{ destruct (create_user_400 E _ _ uu1 t1 st Hj Ha) as [msg Hmsg].
      rewrite Hmsg in H1. inversion H1; subst. discriminate H201. }
  destruct (dict_mem (Py.strip raw) (read_uuids st)) eqn:Hm.
  1:{ rewrite (create_user_409 E _ _ uu1 t1 st Hj Ha Hm) in H1.
      inversion H1; subst. discriminate H201. }
  assert (Hin : dict_mem (Py.strip raw) (read_uuids st1) = true).
  { replace st1 with (snd (create_user E (username_body raw) uu1 t1 st))
      by (rewrite H1; reflexivity).
    rewrite created_in_table by assumption. apply dict_mem_set. }
  rewrite (create_user_409 E _ _ uu2 t2 st1 Hj Ha Hin).
  repeat split; reflexivity.
Qed.

Lemma create_user_twice_conflict_witness :
  create_user demo_env (username_body "alice") bob_uuid "t2"
    (snd (create_user demo_env (username_body "alice") alice_uuid "t1" demo_fresh))
  = (inr (conflict "alice"),
     snd (create_user demo_env (username_body "alice") alice_uuid "t1" demo_fresh)).
Proof.
  apply (create_user_twice_conflict demo_env "alice" alice_uuid "t1" bob_uuid "t2"
           demo_fresh (created_response demo_env "alice" alice_uuid (Some "t1"))).
  - reflexivity.
  - reflexivity.
  - reflexivity.
Defined.

(** * Surrounding whitespace *)

Lemma accepted_trimmed u : accepted_username u = true -> trimmed u.
Proof. intros H. apply accepted_clean, H. Qed.

(** C10. [create_user] strips the username before it validates and
    stores it: a request whose username is an accepted name within
    whitespace stores the user under the name alone, any 201 it sends
    carries that name, and a later request for the name within other
    whitespace is answered 409. *)
Theorem create_user_strips_whitespace E ws1 ws2 ws3 ws4 name uu t uu' t' st :
  Py.all_chars Py.isspace ws1 = true -> Py.all_chars Py.isspace ws2 = true ->
  Py.all_chars Py.isspace ws3 = true -> Py.all_chars Py.isspace ws4 = true ->
  accepted_username name = true ->
  dict_mem name (read_uuids st) = false ->
  uuid_like uu = true ->
  let first := create_user E (username_body (ws1 ++ name ++ ws2)) uu t st in
  dict_get (read_uuids (snd first)) name = Some uu
  /\ (forall resp, fst first = inr resp ->
        exists token, resp = created_response E name uu token)
  /\ create_user E (username_body (ws3 ++ name ++ ws4)) uu' t' (snd first)
     = (inr (conflict name), snd first).
Proof.
  intros H1 H2 H3 H4 Ha Hm Hu first.
  pose proof (strip_surrounded ws1 name ws2 H1 H2 (accepted_trimmed _ Ha)) as S12.
  pose proof (strip_surrounded ws3 name ws4 H3 H4 (accepted_trimmed _ Ha)) as S34.
  assert (Hj : forall raw, requested_username (username_body raw) = Some (Py.strip raw))
    by reflexivity.
  assert (Hread : read_uuids (snd first) = dict_set (read_uuids st) name uu).
  { subst first. rewrite <- S12 at 2. apply created_in_table; rewrite ?S12; assumption. }
  split; [|split].
  - rewrite Hread, dict_get_set, String.eqb_refl. reflexivity.
  - subst first. intros resp.
    pose proof (Hj (ws1 ++ name ++ ws2)) as Hj1. rewrite S12 in Hj1.
    rewrite (create_user_run E _ _ uu t st Hj1 Ha Hm). cbv zeta.
    destruct (create_subscription_file _ _ _ _ _) as [[e|token] st2];
      [discriminate|].
    destruct (rebuild_xray_config _ _ _) as [[e|[]] st3]; [discriminate|].
    cbn [fst]. intros H. inversion H. exists token. reflexivity.
  - pose proof (Hj (ws3 ++ name ++ ws4)) as Hj3. rewrite S34 in Hj3.
    apply (create_user_409 E _ _ uu' t' (snd first) Hj3 Ha).
    rewrite Hread. apply dict_mem_set.
Qed.

Lemma create_user_strips_whitespace_witness :
  dict_get
    (read_uuids
       (snd (create_user demo_env (username_body ("  " ++ "alice" ++ " "))
               alice_uuid "t1" demo_fresh)))
    "alice" = Some alice_uuid
  /\ create_user demo_env (username_body (Py.nl ++ "alice" ++ "")) bob_uuid "t2"
       (snd (create_user demo_env (username_body ("  " ++ "alice" ++ " "))
               alice_uuid "t1" demo_fresh))
     = (inr (conflict "alice"),
        snd (create_user demo_env (username_body ("  " ++ "alice" ++ " "))
               alice_uuid "t1" demo_fresh)).
Proof.
  destruct (create_user_strips_whitespace demo_env "  " " " Py.nl "" "alice"
              alice_uuid "t1" bob_uuid "t2" demo_fresh
              eq_refl eq_refl eq_refl eq_refl eq_refl eq_refl eq_refl)
    as (H1 & _ & H3).
  split; [exact H1|exact H3].
Defined.

(** * Disabling and enabling *)

Lemma set_mem_status disabled name :
  Py.set_mem name disabled = false -> user_status disabled name = "active".
Proof. unfold user_status. intros ->. reflexivity. Qed.

Lemma disable_user_disables name st :
  dict_mem name (read_uuids st) = true -> store_inv st = true ->
  Py.set_mem name (read_disabled (snd (disable_user name st))) = true.
Proof.
  intros Hm Hi. destruct (Py.set_mem name (read_disabled st)) eqn:Hd.
  - rewrite disable_user_noop by assumption. exact Hd.
  - apply set_mem_In.
    apply (read_disabled_after demo_env (Disable name) st name).
    + simpl. rewrite Hm, Hd. reflexivity.
    + exact Hi.
    + simpl. apply In_set_add. auto.
Qed.

Lemma enable_user_enables name st :
  dict_mem name (read_uuids st) = true -> disabled_subset st = true ->
  Py.set_mem name (read_disabled (snd (enable_user name st))) = false.
Proof.
  intros Hm Hs. destruct (Py.set_mem name (read_disabled st)) eqn:Hd.
  - apply set_mem_false. intros Hin.
    apply (read_disabled_after_sub demo_env (Enable name) st name) in Hin.
    + simpl in Hin. apply In_set_discard in Hin. tauto.
    + simpl. rewrite Hm, Hd. reflexivity.
    + exact Hs.
  - rewrite enable_user_noop by assumption. exact Hd.
Qed.

Lemma disable_user_keeps_table name st :
  read_uuids (snd (disable_user name st)) = read_uuids st.
Proof.
  apply read_uuids_ext.
  destruct (triggers_rebuild (Disable name) st) eqn:Ht.
  - pose proof (handle_tables demo_env (Disable name) st Ht) as H.
    cbv zeta in H. simpl in H. inversion H. reflexivity.
  - apply (handle_untriggered demo_env (Disable name) st Ht).
Qed.

Lemma enable_user_keeps_table name st :
  read_uuids (snd (enable_user name st)) = read_uuids st.
Proof.
  apply read_uuids_ext.
  destruct (triggers_rebuild (Enable name) st) eqn:Ht.
  - pose proof (handle_tables demo_env (Enable name) st Ht) as H.
    cbv zeta in H. simpl in H. inversion H. reflexivity.
  - apply (handle_untriggered demo_env (Enable name) st Ht).
Qed.

Lemma listed_with_status name st :
  dict_mem name (read_uuids st) = true ->
  In (name, user_status (read_disabled st) name) (list_users st).
Proof.
  intros H. apply dict_mem_In in H. unfold dict_keys in H.
  apply in_map_iff in H as [p [<- Hp]]. unfold list_users.
  apply in_map_iff. exists p. split; [reflexivity|exact Hp].
Qed.

(** C7. On an existing user, [disable_user] of a disabled user and
    [enable_user] of an enabled one change nothing and answer 200 with
    the "already" message; the Disabled Set never lists a name twice;
    and in a store that keeps its invariant a second [disable_user] is
    such a no-op, and after [disable_user] then [enable_user] the user
    is listed with status "active". *)
Theorem disable_enable_idempotent name st :
  dict_mem name (read_uuids st) = true ->
  (Py.set_mem name (read_disabled st) = true ->
   disable_user name st
   = (inr (message_response ("User '" ++ name ++ "' is already disabled")), st))
  /\ (Py.set_mem name (read_disabled st) = false ->
      enable_user name st
      = (inr (message_response ("User '" ++ name ++ "' is already enabled")), st))
  /\ NoDup (read_disabled (snd (disable_user name st)))
  /\ (store_inv st = true ->
      let st1 := snd (disable_user name st) in
      disable_user name st1
      = (inr (message_response ("User '" ++ name ++ "' is already disabled")), st1)
      /\ In (name, "active") (list_users (snd (enable_user name st1)))).
Proof.
  intros Hm. split; [|split; [|split]].
  - intros Hd. apply disable_user_noop; assumption.
  - intros Hd. apply enable_user_noop; assumption.
  - apply read_disabled_NoDup.
  - intros Hi st1.
    assert (Hm1 : dict_mem name (read_uuids st1) = true).
    { subst st1. rewrite disable_user_keeps_table. exact Hm. }
    split.
    + apply disable_user_noop; [exact Hm1|].
      apply disable_user_disables; assumption.
    + assert (Hen : Py.set_mem name
                      (read_disabled (snd (enable_user name st1))) = false).
      { apply enable_user_enables; [exact Hm1|].
        apply (handle_keeps_subset demo_env (Disable name) st); [|reflexivity].
        apply store_inv_spec in Hi. tauto. }
      rewrite <- (set_mem_status _ _ Hen). apply listed_with_status.
      rewrite enable_user_keeps_table. exact Hm1.
Qed.

Lemma disable_enable_idempotent_witness :
  disable_user "alice" demo_disabled
  = (inr (message_response "User 'alice' is already disabled"), demo_disabled)
  /\ In ("alice", "active")
       (list_users (snd (enable_user "alice" (snd (disable_user "alice" demo_alice))))).
Proof.
  split.
  - apply (proj1 (disable_enable_idempotent "alice" demo_disabled eq_refl)).
    reflexivity.
  - apply (proj2 (proj2 (proj2 (disable_enable_idempotent "alice" demo_alice eq_refl)))).
    reflexivity.
Defined.

(** * Resetting the traffic record *)

Lemma totals_ok_dict st :
  totals_ok st = true -> exists kv, read_totals st = JDict kv.
Proof.
  unfold totals_ok, read_totals.
  destruct (totals_file st) as [[|j]|]; try (exists []; reflexivity).
  destruct j; try discriminate. intros _. eexists; reflexivity.
Qed.

(** C9. [reset_traffic] answers 404 for a name the Credential Table
    does not know; for a known one, the ledger being a mapping, it
    answers 200, sets the record to zero counters and an empty
    last-seen, and leaves every other record and every other file as it
    was. *)
Theorem reset_traffic_zeroes name st :
  (dict_mem name (read_uuids st) = false ->
   reset_traffic name st = (inr (not_found name), st)
   /\ status (not_found name) = 404)
  /\ (dict_mem name (read_uuids st) = true -> totals_ok st = true ->
      exists st',
        reset_traffic name st
        = (inr (message_response ("Traffic reset for '" ++ name ++ "'")), st')
        /\ traffic_record st' name = Some zero_traffic
        /\ (forall other, other <> name ->
              traffic_record st' other = traffic_record st other)
        /\ set_totals_file (totals_file st) st' = st).
Proof.
  split.
  - intros Hm. split; [|reflexivity]. apply (handler_404 name st Hm).
  - intros Hm Ht. destruct (totals_ok_dict st Ht) as [kv Hkv].
    rewrite reset_traffic_run by assumption. rewrite Hkv. simpl PyVal.setitem.
    eexists. split; [reflexivity|]. unfold traffic_record. rewrite Hkv.
    simpl. split; [|split].
    + rewrite dict_get_set, String.eqb_refl. reflexivity.
    + intros other Hne. rewrite dict_get_set.
      destruct (String.eqb_spec name other); [congruence|reflexivity].
    + destruct st; reflexivity.
Qed.

Lemma reset_traffic_zeroes_witness :
  traffic_record demo_alice "alice"
  = Some (JDict [("up", JInt 500); ("dn", JInt 300); ("last_seen", JStr "2024-05-01")])
  /\ reset_traffic "carol" demo_alice = (inr (not_found "carol"), demo_alice)
  /\ exists st',
       reset_traffic "alice" demo_alice
       = (inr (message_response "Traffic reset for 'alice'"), st')
       /\ traffic_record st' "alice"
          = Some (JDict [("up", JInt 0); ("dn", JInt 0); ("last_seen", JStr "")])
       /\ traffic_record st' "bob" = traffic_record demo_alice "bob".
Proof.
  split; [reflexivity|]. split.
  - apply (proj1 (reset_traffic_zeroes "carol" demo_alice)). reflexivity.
  - destruct (proj2 (reset_traffic_zeroes "alice" demo_alice) eq_refl eq_refl)
      as (st' & Hr & Hz & Ho & _).
    exists st'. split; [exact Hr|]. split; [exact Hz|].
    apply Ho. discriminate.
Defined.

(** * The configuration after a request *)

Section Sync.

Variable E : Env.

Lemma has_vless_ext st st' :
  config_file st' = config_file st -> has_vless_inbound st' = has_vless_inbound st.
Proof. unfold has_vless_inbound, config_inbounds. intros ->. reflexivity. Qed.

Lemma config_wf_ext st st' :
  config_file st' = config_file st -> config_wf st' = config_wf st.
Proof. unfold config_wf. intros ->. reflexivity. Qed.

Lemma active_clients_ext st st' :
  config_file st' = config_file st -> active_clients st' = active_clients st.
Proof. unfold active_clients, config_inbounds. intros ->. reflexivity. Qed.

(** A request that reaches the rebuild is its first steps, then the
    rebuild, then the restart. *)
Lemma handle_staged r st :
  triggers_rebuild r st = true ->
  handle E r st =
    match prepared E r st with
    | (inl e, s) => (inl e, s)
    | (inr resp, s) =>
        match rebuild_xray_config (uuids_after r st) (disabled_after r st) s with
        | (inl e, s') => (inl e, s')
        | (inr _, s') => (inr resp, restarted s')
        end
    end.
Proof.
  destruct r as [j uu t|n|n|n|n]; simpl; try discriminate.
  - destruct (requested_username j) as [u|] eqn:Hj; [|discriminate].
    intros H. apply andb_true_iff in H as [Ha Hm]. apply negb_true_iff in Hm.
    rewrite (create_user_run E j u uu t st Hj Ha Hm). cbv zeta.
    set (st1 := write_uuids (dict_set (read_uuids st) u uu) st).
    pose proof (create_subscription_file_frame E u uu t st1) as Fc.
    destruct (create_subscription_file E u uu t st1) as [[e|token] st2];
      [reflexivity|].
    cbv zeta in Fc. cbn [fst snd] in Fc. destruct Fc as (_ & Fd & _).
    cbn [rbind]. rewrite (read_disabled_ext st2 st) by exact Fd. reflexivity.
  - intros Hm. rewrite delete_user_run by assumption. cbv zeta.
    destruct (PyVal.pop (read_totals st) n); reflexivity.
  - intros H. apply andb_true_iff in H as [Hm Hd]. apply negb_true_iff in Hd.
    rewrite disable_user_run by assumption. reflexivity.
  - intros H. apply andb_true_iff in H as [Hm Hd].
    rewrite enable_user_run by assumption. reflexivity.
Qed.

Lemma prepared_frame r st :
  let s := snd (prepared E r st) in
  config_file s = config_file st.
Proof.
  destruct r as [j uu t|n|n|n|n]; simpl; try reflexivity.
  - destruct (requested_username j) as [u|]; [|reflexivity].
    pose proof (create_subscription_file_frame E u uu t
                  (write_uuids (dict_set (read_uuids st) u uu) st)) as Fc.
    destruct (create_subscription_file _ _ _ _ _) as [rt s].
    cbv zeta in Fc. cbn [fst snd] in *. destruct Fc as (_ & _ & Fc & _).
    rewrite Fc. reflexivity.
  - destruct (PyVal.pop (read_totals st) n) as [e|totals]; cbn [snd].
    + apply tables_deleted_files.
    + apply before_rebuild_files.
Qed.

Lemma prepared_ok r st :
  triggers_rebuild r st = true -> config_wf st = true -> totals_ok st = true ->
  exists resp, fst (prepared E r st) = inr resp
               /\ (status resp = 200 \/ status resp = 201).
Proof.
  destruct r as [j uu t|n|n|n|n]; simpl; try discriminate; intros H Hc Ht.
  - destruct (requested_username j) as [u|]; [|discriminate].
    set (st1 := write_uuids (dict_set (read_uuids st) u uu) st).
    rewrite create_subscription_file_run.
    destruct (vless_of_config_wf E u uu st1) as [rl Hrl].
    { rewrite (config_wf_ext st st1) by reflexivity. exact Hc. }
    rewrite Hrl. destruct rl as [link|]; [destruct (link =? "")|];
      eexists; (split; [reflexivity|right; reflexivity]).
  - destruct (totals_ok_dict st Ht) as [kv ->]. simpl.
    eexists. split; [reflexivity|left; reflexivity].
  - eexists. split; [reflexivity|left; reflexivity].
  - eexists. split; [reflexivity|left; reflexivity].
Qed.

(** ** The clients the rebuild writes are the expected ones *)

Lemma set_mem_ext x s1 s2 :
  (In x s1 <-> In x s2) -> Py.set_mem x s1 = Py.set_mem x s2.
Proof.
  intros H. destruct (Py.set_mem x s2) eqn:E2.
  - apply set_mem_In, H, set_mem_In, E2.
  - apply set_mem_false. intros H1. apply H in H1.
    apply set_mem_In in H1. congruence.
Qed.

Lemma clients_of_ext uuids s1 s2 :
  (forall x, In x s1 <-> In x s2) -> clients_of uuids s1 = clients_of uuids s2.
Proof.
  intros H. unfold clients_of, active_uuids. f_equal. f_equal.
  apply filter_ext. intros p. rewrite (set_mem_ext _ s1 s2 (H _)). reflexivity.
Qed.

End Sync.

Lemma expected_clients_ext st st' :
  uuids_file st' = uuids_file st -> disabled_file st' = disabled_file st ->
  expected_clients st' = expected_clients st.
Proof.
  intros Hu Hd. unfold expected_clients.
  rewrite (read_uuids_ext _ _ Hu), (read_disabled_ext _ _ Hd). reflexivity.
Qed.

(** C2 (as the code has it). On a store that keeps its invariant and
    whose configuration has a vless inbound, after every create, delete,
    enable or disable that reaches the rebuild and completes, the
    active-client list of the configuration is the list of the users of
    the Credential Table that are not in the Disabled Set, one record
    each, with the user's identifier and the username as label; a
    request that completes without reaching the rebuild leaves the list
    as meeting that description if it met it before. *)
Theorem config_in_sync_after_mutation E r st resp st' :
  store_inv st = true -> well_drawn r = true ->
  has_vless_inbound st = true ->
  triggers_rebuild r st = true \/ active_clients st = Some (expected_clients st) ->
  handle E r st = (inr resp, st') ->
  active_clients st' = Some (expected_clients st').
Proof.
  intros Hi Hw Hv Hor Hh.
  assert (Hst : snd (handle E r st) = st') by (rewrite Hh; reflexivity).
  destruct (triggers_rebuild r st) eqn:Ht.
  - clear Hor.
    assert (Hu : read_uuids st' = uuids_after r st).
    { rewrite <- Hst. apply read_uuids_after; assumption. }
    assert (Hd : forall x, In x (read_disabled st') <-> In x (disabled_after r st)).
    { intros x. rewrite <- Hst. apply read_disabled_after; assumption. }
    unfold expected_clients.
    change (JList (map (fun p => client_record (fst p) (snd p))
                     (active_uuids (read_uuids st') (read_disabled st'))))
      with (clients_of (read_uuids st') (read_disabled st')).
    rewrite Hu, (clients_of_ext _ _ _ Hd).
    rewrite handle_staged in Hh by assumption.
    pose proof (prepared_frame E r st) as Fp. cbv zeta in Fp.
    destruct (prepared E r st) as [[e|resp0] s]; [discriminate Hh|].
    cbn [snd] in Fp.
    destruct (rebuild_xray_config (uuids_after r st) (disabled_after r st) s)
      as [[e|[]] s'] eqn:Hr; [discriminate Hh|].
    inversion Hh; subst.
    apply rebuild_active_clients in Hr.
    + destruct Hr as [_ Hr].
      rewrite (active_clients_ext s' (restarted s')) by reflexivity. exact Hr.
    + rewrite (has_vless_ext st s) by exact Fp. exact Hv.
  - destruct Hor as [Hor|Hor]; [discriminate Hor|].
    destruct (handle_untriggered E r st Ht) as (Fu & Fd & Fc).
    rewrite Hst in Fu, Fd, Fc.
    rewrite (active_clients_ext st st' Fc), (expected_clients_ext st st' Fu Fd).
    exact Hor.
Qed.

Lemma config_in_sync_after_mutation_witness :
  active_clients demo_disabled = Some (expected_clients demo_disabled)
  /\ expected_clients demo_disabled = JList [].
Proof.
  split; [|reflexivity].
  apply (config_in_sync_after_mutation demo_env (Disable "alice") demo_alice
           (message_response "User 'alice' disabled"));
    try reflexivity.
  left. reflexivity.
Defined.

(** C2, counterexample: with no vless inbound in the configuration,
    creating alice completes with 201 and the configuration has no
    active-client list, although alice is an active user. *)
Lemma no_inbound_out_of_sync :
  is_response 201
    (fst (handle demo_env (Create (username_body "alice") alice_uuid "t")
            demo_no_inbound)) = true
  /\ expected_clients
       (snd (handle demo_env (Create (username_body "alice") alice_uuid "t")
               demo_no_inbound))
     = JList [client_record "alice" alice_uuid]
  /\ active_clients
       (snd (handle demo_env (Create (username_body "alice") alice_uuid "t")
               demo_no_inbound))
     <> Some (expected_clients
                (snd (handle demo_env (Create (username_body "alice") alice_uuid "t")
                        demo_no_inbound))).
Proof. repeat split; try reflexivity. discriminate. Qed.

(** * A configuration that cannot be used *)

Section Failure.

Variable E : Env.

Lemma rebuild_unreadable uuids disabled st :
  config_unreadable st = true ->
  exists e, rebuild_xray_config uuids disabled st = (inl e, st).
Proof.
  intros H. rewrite rebuild_xray_config_run. unfold config_unreadable in H.
  unfold read_config.
  destruct (config_file st) as [[|cfg]|]; try discriminate H;
    eexists; reflexivity.
Qed.

Lemma config_unreadable_ext st st' :
  config_file st' = config_file st -> config_unreadable st' = config_unreadable st.
Proof. unfold config_unreadable. intros ->. reflexivity. Qed.

Lemma handle_unreadable r st :
  triggers_rebuild r st = true -> config_unreadable st = true ->
  exists e, fst (handle E r st) = inl e
            /\ config_file (snd (handle E r st)) = config_file st.
Proof.
  intros Ht Hc. rewrite handle_staged by assumption.
  pose proof (prepared_frame E r st) as Fp. cbv zeta in Fp.
  destruct (prepared E r st) as [[e|resp] s]; cbn [snd] in Fp.
  - exists e. split; [reflexivity|exact Fp].
  - destruct (rebuild_unreadable (uuids_after r st) (disabled_after r st) s)
      as [e ->].
    { rewrite (config_unreadable_ext st s) by exact Fp. exact Hc. }
    exists e. split; [reflexivity|exact Fp].
Qed.

Lemma config_wf_doc st :
  config_wf st = true -> exists cfg, config_file st = Some (Doc cfg).
Proof.
  unfold config_wf. destruct (config_file st) as [[|cfg]|]; try discriminate.
  intros _. eexists; reflexivity.
Qed.

Lemma handle_no_vless r st :
  triggers_rebuild r st = true ->
  config_wf st = true -> has_vless_inbound st = false -> totals_ok st = true ->
  exists resp, fst (handle E r st) = inr resp
               /\ (status resp = 200 \/ status resp = 201)
               /\ config_file (snd (handle E r st)) = config_file st.
Proof.
  intros Ht Hc Hv Hto. rewrite handle_staged by assumption.
  destruct (prepared_ok E r st Ht Hc Hto) as (resp & Hp & Hs).
  pose proof (prepared_frame E r st) as Fp. cbv zeta in Fp.
  destruct (prepared E r st) as [rp s]. cbn [fst snd] in *. subst rp.
  destruct (config_wf_doc st Hc) as [cfg Hcfg].
  rewrite (rebuild_no_vless _ _ s cfg).
  - exists resp. split; [reflexivity|]. split; [exact Hs|].
    simpl. rewrite Hcfg. reflexivity.
  - rewrite (config_wf_ext st s) by exact Fp. exact Hc.
  - rewrite (has_vless_ext st s) by exact Fp. exact Hv.
  - rewrite Fp. exact Hcfg.
Qed.

End Failure.

(** C1 (as the code has it). For a create, delete, enable or disable
    that reaches the rebuild: when the configuration file is missing or
    is not JSON, the request ends in an exception and leaves the
    configuration file as it was, but the credential table and the
    disabled set are already rewritten with the mutation; when the
    configuration is usable and has no vless inbound (the ledger being a
    mapping), the request completes with its success response and leaves
    the configuration document as it was. *)
Theorem rebuild_failure_keeps_mutation E r st :
  triggers_rebuild r st = true ->
  (config_unreadable st = true ->
   exists e,
     fst (handle E r st) = inl e
     /\ config_file (snd (handle E r st)) = config_file st
     /\ (uuids_file (snd (handle E r st)), disabled_file (snd (handle E r st)))
        = tables_after r st)
  /\ (config_wf st = true -> has_vless_inbound st = false -> totals_ok st = true ->
      exists resp,
        fst (handle E r st) = inr resp
        /\ (status resp = 200 \/ status resp = 201)
        /\ config_file (snd (handle E r st)) = config_file st).
Proof.
  intros Ht. split.
  - intros Hc. destruct (handle_unreadable E r st Ht Hc) as (e & He & Hcfg).
    exists e. split; [exact He|]. split; [exact Hcfg|].
    apply (handle_tables E r st Ht).
  - apply handle_no_vless. exact Ht.
Qed.

Lemma rebuild_failure_keeps_mutation_witness :
  (exists e,
     fst (handle demo_env (Create (username_body "alice") alice_uuid "t") demo_corrupt)
     = inl e
     /\ config_file
          (snd (handle demo_env (Create (username_body "alice") alice_uuid "t")
                  demo_corrupt))
        = Some Garbage
     /\ (uuids_file
           (snd (handle demo_env (Create (username_body "alice") alice_uuid "t")
                   demo_corrupt)),
         disabled_file
           (snd (handle demo_env (Create (username_body "alice") alice_uuid "t")
                   demo_corrupt)))
        = (Some ("alice:" ++ alice_uuid ++ Py.nl), None))
  /\ (exists resp,
        fst (handle demo_env (Create (username_body "alice") alice_uuid "t")
               demo_no_inbound)
        = inr resp
        /\ (status resp = 200 \/ status resp = 201)
        /\ config_file (snd (handle demo_env
                               (Create (username_body "alice") alice_uuid "t")
                               demo_no_inbound))
           = config_file demo_no_inbound).
Proof.
  split.
  - apply (proj1 (rebuild_failure_keeps_mutation demo_env
                    (Create (username_body "alice") alice_uuid "t") demo_corrupt
                    eq_refl)).
    reflexivity.
  - apply (proj2 (rebuild_failure_keeps_mutation demo_env
                    (Create (username_body "alice") alice_uuid "t") demo_no_inbound
                    eq_refl)); reflexivity.
Defined.

(** C1, counterexample: with a configuration that is not JSON, creating
    alice raises, and the credential table holds alice all the same;
    with a configuration that has no inbound, creating alice is answered
    201. *)
Lemma corrupt_config_keeps_new_user :
  fst (handle demo_env (Create (username_body "alice") alice_uuid "t") demo_corrupt)
  = inl JSONDecodeError
  /\ uuids_file
       (snd (handle demo_env (Create (username_body "alice") alice_uuid "t")
               demo_corrupt))
     <> uuids_file demo_corrupt
  /\ read_uuids demo_corrupt = []
  /\ read_uuids
       (snd (handle demo_env (Create (username_body "alice") alice_uuid "t")
               demo_corrupt))
     = [("alice", alice_uuid)]
  /\ is_response 201
       (fst (handle demo_env (Create (username_body "alice") alice_uuid "t")
               demo_no_inbound)) = true.
Proof. repeat split; try reflexivity. discriminate. Qed.

(** * No reality settings *)

Lemma config_without_reality_ext st st' :
  config_file st' = config_file st ->
  config_without_reality st' = config_without_reality st.
Proof. unfold config_without_reality. intros ->. reflexivity. Qed.

(** C4 (as the code has it). When no inbound of the configuration has
    reality settings, [create_subscription_file] raises nothing: it
    returns [None] and writes no file, and an accepted new user is
    created with a 201 whose subscription URL is null. *)
Theorem no_reality_null_subscription E j u uu t st :
  config_without_reality st = true -> config_wf st = true ->
  requested_username j = Some u -> accepted_username u = true ->
  dict_mem u (read_uuids st) = false ->
  create_subscription_file E u uu t st = (inr None, st)
  /\ exists st',
       create_user E j uu t st = (inr (created_response E u uu None), st')
       /\ status (created_response E u uu None) = 201
       /\ subscription_url_of (created_response E u uu None) = Some JNull.
Proof.
  intros Hn Hc Hj Ha Hm. split.
  - rewrite create_subscription_file_run, vless_of_config_no_reality by assumption.
    reflexivity.
  - rewrite (create_user_run E j u uu t st Hj Ha Hm). cbv zeta.
    set (st1 := write_uuids (dict_set (read_uuids st) u uu) st).
    rewrite create_subscription_file_run, vless_of_config_no_reality
      by (rewrite (config_without_reality_ext st st1) by reflexivity; exact Hn).
    destruct (rebuild_wf (dict_set (read_uuids st) u uu) (read_disabled st1) st1)
      as [cfg' ->].
    { rewrite (config_wf_ext st st1) by reflexivity. exact Hc. }
    eexists. repeat split; reflexivity.
Qed.

Lemma no_reality_null_subscription_witness :
  create_subscription_file demo_env "alice" alice_uuid "t" demo_no_reality
  = (inr None, demo_no_reality)
  /\ exists st',
       create_user demo_env (username_body "alice") alice_uuid "t" demo_no_reality
       = (inr (created_response demo_env "alice" alice_uuid None), st')
       /\ status (created_response demo_env "alice" alice_uuid None) = 201
       /\ subscription_url_of (created_response demo_env "alice" alice_uuid None)
          = Some JNull.
Proof.
  apply (no_reality_null_subscription demo_env (username_body "alice") "alice"
           alice_uuid "t" demo_no_reality); reflexivity.
Defined.

(** C4, counterexample: the configuration has a vless inbound without
    reality settings; minting raises nothing and the user is created
    with a null subscription URL. *)
Lemma no_reality_creates_without_url :
  fst (create_subscription_file demo_env "alice" alice_uuid "t" demo_no_reality)
  = inr None
  /\ fst (create_user demo_env (username_body "alice") alice_uuid "t" demo_no_reality)
     = inr (created_response demo_env "alice" alice_uuid None)
  /\ status (created_response demo_env "alice" alice_uuid None) = 201
  /\ subscription_url_of (created_response demo_env "alice" alice_uuid None)
     = Some JNull
  /\ read_uuids
       (snd (create_user demo_env (username_body "alice") alice_uuid "t"
               demo_no_reality))
     = [("alice", alice_uuid)].
Proof. repeat split; reflexivity. Qed.

(** * Revocation *)

Section Revoke.

Lemma pop_user_forgets n j j' : pop_user n j = inr j' -> has_user n j' = false.
Proof.
  unfold pop_user, has_user. destruct j as [| | | | | |kv]; try discriminate.
  destruct (dict_get kv "users") as [users|] eqn:Hu.
  - destruct users as [| | | | | |u]; try discriminate.
    simpl. intros H. inversion H; subst.
    rewrite dict_get_set, String.eqb_refl. apply dict_mem_del.
  - intros H. inversion H; subst. rewrite Hu. reflexivity.
Qed.

Lemma pop_user_fails n j e : pop_user n j = inl e -> has_user n j = false.
Proof.
  unfold pop_user, has_user. destruct j as [| | | | | |kv]; try reflexivity.
  destruct (dict_get kv "users") as [users|]; [|reflexivity].
  destruct users; try reflexivity. discriminate.
Qed.

Lemma without_stats_forgets n st : in_stats (without_stats n st) n = false.
Proof.
  unfold without_stats, in_stats.
  destruct (stats_file st) as [[|j]|] eqn:Hs; simpl; rewrite ?Hs; try reflexivity.
  destruct (pop_user n j) as [e|j'] eqn:Hp.
  - rewrite Hs. eapply pop_user_fails; eauto.
  - simpl. eapply pop_user_forgets; eauto.
Qed.

Lemma map_pop_user_forgets n l :
  forallb entry_ok l = true ->
  exists l', map_res (pop_user n) l = inr l' /\ existsb (has_user n) l' = false.
Proof.
  induction l as [|entry r IH]; intros H; [exists []; split; reflexivity|].
  simpl in H. apply andb_true_iff in H as [He Hr].
  destruct (IH Hr) as (r' & Hr' & Hx).
  assert (Hp : exists entry', pop_user n entry = inr entry').
  { unfold entry_ok, field_ok in He. unfold pop_user.
    destruct entry as [| | | | | |kv]; try discriminate He.
    destruct (dict_get kv "users") as [[| | | | | |u]|]; try discriminate He;
      eexists; reflexivity. }
  destruct Hp as [entry' Hp]. exists (entry' :: r'). split.
  - simpl. rewrite Hp. simpl. rewrite Hr'. reflexivity.
  - simpl. rewrite (pop_user_forgets _ _ _ Hp), Hx. reflexivity.
Qed.

Lemma without_history_forgets n st :
  history_ok st = true -> in_history (without_history n st) n = false.
Proof.
  unfold without_history, in_history, history_ok.
  destruct (history_file st) as [[|j]|] eqn:Hs; simpl; rewrite ?Hs; try reflexivity.
  intros Hok.
  destruct j as [| | | | |l|kv]; simpl;
    try (rewrite Hs; reflexivity).
  - destruct (list_ascii_of_string s) as [|c cs]; simpl; [reflexivity|].
    rewrite Hs. reflexivity.
  - destruct (map_pop_user_forgets n l Hok) as (l' & -> & Hx). simpl. exact Hx.
  - destruct kv as [|p kv']; simpl; [reflexivity|]. rewrite Hs. reflexivity.
Qed.

Lemma in_stats_ext st st' :
  stats_file st' = stats_file st -> in_stats st' = in_stats st.
Proof. unfold in_stats. intros ->. reflexivity. Qed.

Lemma in_history_ext st st' :
  history_file st' = history_file st -> in_history st' = in_history st.
Proof. unfold in_history. intros ->. reflexivity. Qed.

Lemma history_ok_ext st st' :
  history_file st' = history_file st -> history_ok st' = history_ok st.
Proof. unfold history_ok. intros ->. reflexivity. Qed.

Lemma unlink_removes token entries :
  ~ In token (map entry_name (unlink token entries)).
Proof.
  unfold unlink. rewrite in_map_iff. intros [e [He Hin]].
  apply filter_In in Hin as [_ Hf]. rewrite He, String.eqb_refl in Hf.
  discriminate.
Qed.

Lemma client_ids_of uuids disabled :
  client_ids (Some (clients_of uuids disabled))
  = map (fun p => JStr (snd p)) (active_uuids uuids disabled).
Proof.
  unfold client_ids, clients_of.
  induction (active_uuids uuids disabled) as [|p r IH]; [reflexivity|].
  simpl. rewrite IH. reflexivity.
Qed.

Lemma no_vless_no_clients st :
  has_vless_inbound st = false -> active_clients st = None.
Proof.
  unfold has_vless_inbound, active_clients.
  destruct (config_inbounds st) as [l|]; [|reflexivity].
  destruct (vless_inbound l); [discriminate|reflexivity].
Qed.

Lemma revoked_identifier_gone name uid st disabled :
  unique_identifier st name uid = true ->
  ~ In (JStr uid)
      (client_ids (Some (clients_of (dict_del (read_uuids st) name) disabled))).
Proof.
  intros Hu. rewrite client_ids_of, in_map_iff. intros [[k v] [Hv Hin]].
  simpl in Hv. inversion Hv; subst.
  unfold active_uuids in Hin. apply filter_In in Hin as [Hin _].
  unfold dict_del in Hin. apply filter_In in Hin as [Hin Hk]. simpl in Hk.
  unfold unique_identifier in Hu. rewrite forallb_forall in Hu.
  specialize (Hu _ Hin). simpl in Hu.
  apply negb_true_iff in Hk. rewrite Hk, String.eqb_refl in Hu. discriminate.
Qed.

End Revoke.

(** C6 (as the code has it). On a store conforming to the data model (Disabled Set within the
    Credential Table, a configuration no handler trips over, a ledger
    that is a mapping, a history of well-formed entries) and for a user
    whose identifier no other user has, [delete_user] answers 200 and
    leaves the user out of the Credential Table, the Disabled Set, the
    Traffic Ledger, the statistics and every history entry; the
    subscription file found for the user is gone; the active-client list
    no longer holds the identifier; and a second [delete_user] is
    answered 404. *)
Theorem delete_user_cascade name uid st :
  dict_get (read_uuids st) name = Some uid ->
  disabled_subset st = true -> config_wf st = true ->
  totals_ok st = true -> history_ok st = true ->
  unique_identifier st name uid = true ->
  exists st',
    delete_user name st
    = (inr (message_response ("User '" ++ name ++ "' deleted")), st')
    /\ dict_mem name (read_uuids st') = false
    /\ Py.set_mem name (read_disabled st') = false
    /\ (forall token, find_subscription_token name st = Some token ->
          token <> "" -> ~ In token (map entry_name (sub_dir st')))
    /\ traffic_record st' name = None
    /\ in_stats st' name = false
    /\ in_history st' name = false
    /\ ~ In (JStr uid) (client_ids (active_clients st'))
    /\ delete_user name st' = (inr (not_found name), st')
    /\ status (not_found name) = 404.
Proof.
  intros Hg Hs Hc Ht Hh Hu.
  assert (Hm : dict_mem name (read_uuids st) = true)
    by (unfold dict_mem; rewrite Hg; reflexivity).
  assert (Htr : triggers_rebuild (Delete name) st = true) by exact Hm.
  destruct (totals_ok_dict st Ht) as [kv Hkv].
  pose proof (delete_user_run name st Hm) as Hrun. cbv zeta in Hrun.
  rewrite Hkv in Hrun. simpl PyVal.pop in Hrun. cbv iota in Hrun.
  fold (before_rebuild name (JDict (dict_del kv name)) st) in Hrun.
  set (s6 := before_rebuild name (JDict (dict_del kv name)) st) in *.
  destruct (before_rebuild_files name (JDict (dict_del kv name)) st)
    as (Bu & Bd & Bc & Bt).
  fold s6 in Bu, Bd, Bc, Bt.
  destruct (rebuild_wf (dict_del (read_uuids st) name)
              (Py.set_discard name (read_disabled st)) s6) as [cfg' Hr].
  { rewrite (config_wf_ext st s6) by exact Bc. exact Hc. }
  rewrite Hr in Hrun.
  set (st' := restarted (write_config cfg' s6)) in *.
  assert (Hsnd : snd (handle demo_env (Delete name) st) = st')
    by (simpl; rewrite Hrun; reflexivity).
  assert (H1 : dict_mem name (read_uuids st') = false).
  { rewrite <- Hsnd, read_uuids_after by (assumption || reflexivity).
    simpl. apply dict_mem_del. }
  assert (H2 : Py.set_mem name (read_disabled st') = false).
  { apply set_mem_false. intros Hin. rewrite <- Hsnd in Hin.
    apply read_disabled_after_sub in Hin; try assumption.
    simpl in Hin. apply In_set_discard in Hin. tauto. }
  assert (H3 : forall token, find_subscription_token name st = Some token ->
                 token <> "" -> ~ In token (map entry_name (sub_dir st'))).
  { intros token Hf Hne.
    assert (Hsub : sub_dir st' = sub_dir (without_subscription name st)).
    { subst st' s6. unfold before_rebuild.
      set (s4 := write_totals (JDict (dict_del kv name)) (tables_deleted name st)).
      destruct (without_stats_frame name s4) as (_ & _ & _ & _ & S1 & _).
      destruct (without_history_frame name (without_stats name s4))
        as (_ & _ & _ & _ & S2 & _).
      cbv zeta in S1, S2. simpl. rewrite S2, S1. reflexivity. }
    rewrite Hsub. unfold without_subscription. rewrite Hf.
    apply String.eqb_neq in Hne. rewrite Hne. simpl. apply unlink_removes. }
  assert (H4 : traffic_record st' name = None).
  { unfold traffic_record.
    rewrite (read_totals_ext st' s6) by reflexivity.
    unfold read_totals. rewrite Bt. rewrite dict_get_del, String.eqb_refl.
    reflexivity. }
  assert (H5 : in_stats st' name = false).
  { rewrite (in_stats_ext (without_stats name
               (write_totals (JDict (dict_del kv name)) (tables_deleted name st))) st').
    - apply without_stats_forgets.
    - subst st' s6. unfold before_rebuild. simpl.
      apply without_history_frame. }
  assert (H6 : in_history st' name = false).
  { rewrite (in_history_ext s6 st') by reflexivity.
    subst s6. unfold before_rebuild. apply without_history_forgets.
    rewrite (history_ok_ext st); [exact Hh|].
    destruct (without_stats_frame name
                (write_totals (JDict (dict_del kv name)) (tables_deleted name st)))
      as (_ & _ & _ & _ & _ & S1 & _).
    cbv zeta in S1. rewrite S1. simpl. apply tables_deleted_files. }
  assert (H7 : ~ In (JStr uid) (client_ids (active_clients st'))).
  { rewrite (active_clients_ext (write_config cfg' s6) st') by reflexivity.
    destruct (has_vless_inbound st) eqn:Hv.
    - apply rebuild_active_clients in Hr.
      + destruct Hr as [_ ->]. apply revoked_identifier_gone. exact Hu.
      + rewrite (has_vless_ext st s6) by exact Bc. exact Hv.
    - rewrite no_vless_no_clients; [simpl; tauto|].
      destruct (config_wf_doc st Hc) as [cfg Hcfg].
      assert (Hc6 : config_file s6 = Some (Doc cfg)) by (rewrite Bc; exact Hcfg).
      rewrite (rebuild_no_vless _ _ s6 cfg) in Hr.
      + inversion Hr as [Hw]. rewrite <- Hw.
        rewrite (has_vless_ext st); [exact Hv|]. simpl. symmetry. exact Hcfg.
      + rewrite (config_wf_ext st s6) by exact Bc. exact Hc.
      + rewrite (has_vless_ext st s6) by exact Bc. exact Hv.
      + exact Hc6. }
  pose proof (proj1 (handler_404 name st' H1)) as H8.
  exists st'. repeat (split; [assumption|]). reflexivity.
Qed.

Lemma delete_user_cascade_witness :
  exists st',
    delete_user "alice" demo_disabled
    = (inr (message_response "User 'alice' deleted"), st')
    /\ dict_mem "alice" (read_uuids st') = false
    /\ Py.set_mem "alice" (read_disabled st') = false
    /\ ~ In "0123456789abcdef0123456789abcdef" (map entry_name (sub_dir st'))
    /\ traffic_record st' "alice" = None
    /\ in_stats st' "alice" = false
    /\ in_history st' "alice" = false
    /\ ~ In (JStr alice_uuid) (client_ids (active_clients st'))
    /\ delete_user "alice" st' = (inr (not_found "alice"), st').
Proof.
  destruct (delete_user_cascade "alice" alice_uuid demo_disabled
              eq_refl eq_refl eq_refl eq_refl eq_refl eq_refl)
    as (st' & Hr & H1 & H2 & H3 & H4 & H5 & H6 & H7 & H8 & _).
  exists st'. repeat (split; [assumption|]).
  split; [apply H3; [reflexivity|discriminate]|].
  repeat (split; [assumption|]). assumption.
Defined.


(** C6, counterexample: with a history one of whose entries has a list
    under ["users"], on a store that is otherwise as the data model has
    it, [delete_user] answers 200 and [history.json] is left as it was,
    so that the user is still in a history entry. *)
Lemma malformed_history_keeps_user :
  dict_get (read_uuids demo_bad_history) "alice" = Some alice_uuid
  /\ disabled_subset demo_bad_history = true
  /\ config_wf demo_bad_history = true
  /\ totals_ok demo_bad_history = true
  /\ unique_identifier demo_bad_history "alice" alice_uuid = true
  /\ history_ok demo_bad_history = false
  /\ is_response 200 (fst (delete_user "alice" demo_bad_history)) = true
  /\ history_file (snd (delete_user "alice" demo_bad_history))
     = history_file demo_bad_history
  /\ in_history (snd (delete_user "alice" demo_bad_history)) "alice" = true.
Proof. repeat split; reflexivity. Qed.

(* ================================================================== *)
(** * Further properties of the code *)
(* ================================================================== *)

(** * The text encodings, end to end *)

Lemma accepted_uuid_entry (p : string * string) :
  accepted_username (fst p) && uuid_like (snd p) = true -> clean_entry p.
Proof.
  intros H. apply andb_true_iff in H as [Ha Hu]. split; [|split].
  - apply accepted_clean, Ha.
  - apply accepted_no_colon, Ha.
  - apply uuid_like_clean, Hu.
Qed.

(** X1. A table with one binding per name, whose names are accepted
    usernames and whose identifiers have the shape of a UUID, is read
    back from the file [write_uuids] writes exactly as it was: same
    bindings, same order. *)
Theorem uuids_roundtrip (uuids : dict string) st :
  NoDup (dict_keys uuids) ->
  forallb (fun p => accepted_username (fst p) && uuid_like (snd p)) uuids = true ->
  read_uuids (write_uuids uuids st) = uuids.
Proof.
  intros Hnd Hall. apply read_write_uuids. split; [exact Hnd|].
  apply Forall_forall. intros p Hp. apply accepted_uuid_entry.
  rewrite forallb_forall in Hall. apply Hall, Hp.
Qed.

Lemma uuids_roundtrip_witness :
  read_uuids (write_uuids [("bob", bob_uuid); ("alice", alice_uuid)] demo_fresh)
  = [("bob", bob_uuid); ("alice", alice_uuid)].
Proof.
  apply uuids_roundtrip.
  - repeat constructor; simpl; intuition discriminate.
  - reflexivity.
Defined.

(** X2. Whatever [.user_uuids] holds, [read_uuids] returns a table with
    one binding per name, in which names and identifiers are stripped
    and no name has a colon, and writing that table and reading it again
    gives the same table. *)
Theorem read_uuids_normal st :
  NoDup (dict_keys (read_uuids st))
  /\ (forall name uid, In (name, uid) (read_uuids st) ->
        Py.strip name = name /\ Py.strip uid = uid /\ no_colon name = true)
  /\ (forall st', read_uuids (write_uuids (read_uuids st) st') = read_uuids st).
Proof.
  destruct (read_uuids_clean st) as [Hnd Hall]. split; [exact Hnd|]. split.
  - intros name uid Hin. rewrite Forall_forall in Hall.
    destruct (Hall _ Hin) as [[Hn _] [Hc [Hu _]]]. simpl in *.
    repeat split; [apply trimmed_strip, Hn|apply trimmed_strip, Hu|exact Hc].
  - intros st'. apply read_write_uuids. split; assumption.
Qed.

(** X3. A set of accepted usernames is read back from the file
    [write_disabled] writes with the same members, and without
    repetition. *)
Theorem disabled_roundtrip (disabled : Py.pyset) st :
  forallb accepted_username disabled = true ->
  NoDup (read_disabled (write_disabled disabled st))
  /\ forall x, In x (read_disabled (write_disabled disabled st)) <-> In x disabled.
Proof.
  intros H. rewrite forallb_forall in H. split; [apply read_disabled_NoDup|].
  intros x. apply read_write_disabled_In; apply Forall_forall; intros y Hy.
  - apply accepted_clean, H, Hy.
  - apply accepted_nonempty, H, Hy.
Qed.

Lemma disabled_roundtrip_witness :
  NoDup (read_disabled (write_disabled ["zoe"; "alice"; "bob"] demo_fresh))
  /\ forall x,
       In x (read_disabled (write_disabled ["zoe"; "alice"; "bob"] demo_fresh))
       <-> In x ["zoe"; "alice"; "bob"].
Proof.
  apply (disabled_roundtrip ["zoe"; "alice"; "bob"] demo_fresh). reflexivity.
Defined.

(** ** The order of [sorted] *)

Lemma ascii_compare_refl c : Ascii.compare c c = Eq.
Proof. unfold Ascii.compare. apply N.compare_refl. Qed.

Lemma ascii_compare_lt_trans a b c :
  Ascii.compare a b = Lt -> Ascii.compare b c = Lt -> Ascii.compare a c = Lt.
Proof.
  unfold Ascii.compare. rewrite !N.compare_lt_iff. apply N.lt_trans.
Qed.

Lemma leb_trans a : forall b c,
  (a <=? b)%string = true -> (b <=? c)%string = true -> (a <=? c)%string = true.
Proof.
  unfold String.leb.
  induction a as [|x a' IH]; intros b c Hab Hbc.
  - destruct c; reflexivity.
  - destruct b as [|y b']; [discriminate Hab|].
    destruct c as [|z c']; [discriminate Hbc|].
    simpl in *.
    destruct (Ascii.compare x y) eqn:Exy; try discriminate Hab.
    + apply Ascii.compare_eq_iff in Exy. subst y.
      destruct (Ascii.compare x z) eqn:Exz; try discriminate Hbc; auto.
      apply (IH b' c'); assumption.
    + destruct (Ascii.compare y z) eqn:Eyz; try discriminate Hbc.
      * apply Ascii.compare_eq_iff in Eyz. subst z. rewrite Exy. reflexivity.
      * rewrite (ascii_compare_lt_trans _ _ _ Exy Eyz). reflexivity.
Qed.

Lemma sorted_strongly l : StronglySorted ascending (Py.sorted l).
Proof.
  apply Sorted_StronglySorted.
  - intros a b c. apply leb_trans.
  - apply sorted_ascending.
Qed.

Lemma strongly_sorted_unique l1 : forall l2,
  StronglySorted ascending l1 -> StronglySorted ascending l2 ->
  NoDup l1 -> NoDup l2 -> (forall x, In x l1 <-> In x l2) -> l1 = l2.
Proof.
  induction l1 as [|a r1 IH]; intros l2 S1 S2 N1 N2 Hin.
  - destruct l2 as [|b r2]; [reflexivity|].
    exfalso. apply (proj2 (Hin b)). left. reflexivity.
  - destruct l2 as [|b r2].
    + exfalso. apply (proj1 (Hin a)). left. reflexivity.
    + inversion S1 as [|? ? S1' H1]; inversion S2 as [|? ? S2' H2]; subst.
      inversion N1 as [|? ? Na N1']; inversion N2 as [|? ? Nb N2']; subst.
      rewrite Forall_forall in H1, H2.
      assert (Hab : a = b).
      { destruct (proj1 (Hin a) (or_introl eq_refl)) as [Heq|Ha]; [auto|].
        destruct (proj2 (Hin b) (or_introl eq_refl)) as [Heq|Hb]; [auto|].
        apply String.leb_antisym; [apply H1, Hb|apply H2, Ha]. }
      subst b. f_equal. apply IH; auto.
      intros x. split; intros Hx.
      * destruct (proj1 (Hin x) (or_intror Hx)) as [<-|Hx']; [contradiction|exact Hx'].
      * destruct (proj2 (Hin x) (or_intror Hx)) as [<-|Hx']; [contradiction|exact Hx'].
Qed.

Lemma splitlines_lines l :
  Forall (fun x => no_break x = true) l -> l <> [] ->
  Py.splitlines (Py.join Py.nl l ++ Py.nl) = l.
Proof.
  induction l as [|x r IH]; intros Hnb Hne; [congruence|].
  inversion Hnb as [|? ? Hx Hr]; subst. destruct r as [|y r'].
  - simpl Py.join.
    replace (x ++ Py.nl) with (x ++ Py.nl ++ "") by reflexivity.
    rewrite splitlines_line by exact Hx. reflexivity.
  - rewrite join_cons2, !append_assoc.
    rewrite splitlines_line by exact Hx.
    rewrite IH by (assumption || discriminate).
    reflexivity.
Qed.

(** X4. The text [write_disabled] writes depends on the members of the
    set alone: two sets with the same members give the same file.  When
    no member has a line break, the lines of that file, as
    [splitlines] reads them, are the members in ascending order, each
    once.  The order in which users were disabled does not show. *)
Theorem disabled_text_deterministic (d1 d2 : Py.pyset) :
  NoDup d1 -> NoDup d2 -> (forall x, In x d1 <-> In x d2) ->
  disabled_text d1 = disabled_text d2
  /\ (forallb no_break d1 = true ->
      Sorted ascending (Py.splitlines (disabled_text d1))
      /\ Permutation d1 (Py.splitlines (disabled_text d1))
      /\ NoDup (Py.splitlines (disabled_text d1))).
Proof.
  intros N1 N2 Hin. split.
  - assert (Hs : Py.sorted d1 = Py.sorted d2).
    { apply strongly_sorted_unique; try apply sorted_strongly.
      - apply (Permutation_NoDup (sorted_perm d1) N1).
      - apply (Permutation_NoDup (sorted_perm d2) N2).
      - intros x. rewrite !In_sorted. apply Hin. }
    unfold disabled_text. rewrite Hs.
    destruct d1 as [|a r1]; destruct d2 as [|b r2]; try reflexivity.
    + exfalso. apply (proj2 (Hin b)). left. reflexivity.
    + exfalso. apply (proj1 (Hin a)). left. reflexivity.
  - intros Hnb.
    assert (Hl : Py.splitlines (disabled_text d1) = Py.sorted d1).
    { unfold disabled_text. destruct d1 as [|a r1] eqn:Hd; [reflexivity|].
      apply splitlines_lines.
      - apply Forall_forall. intros x Hx. apply (proj1 (In_sorted _ _)) in Hx.
        rewrite forallb_forall in Hnb. apply Hnb, Hx.
      - intros He. apply sorted_nil in He. discriminate He. }
    rewrite Hl. split; [apply sorted_ascending|].
    split; [apply sorted_perm|].
    apply (Permutation_NoDup (sorted_perm d1) N1).
Qed.

Lemma disabled_text_deterministic_witness :
  disabled_text ["zoe"; "alice"; "bob"] = disabled_text ["bob"; "zoe"; "alice"]
  /\ Py.splitlines (disabled_text ["zoe"; "alice"; "bob"]) = ["alice"; "bob"; "zoe"]
  /\ Sorted ascending (Py.splitlines (disabled_text ["zoe"; "alice"; "bob"])).
Proof.
  destruct (disabled_text_deterministic
              ["zoe"; "alice"; "bob"] ["bob"; "zoe"; "alice"]) as [Ht Hl].
  - repeat constructor; simpl; intuition discriminate.
  - repeat constructor; simpl; intuition discriminate.
  - intros x. simpl. intuition.
  - split; [exact Ht|]. split; [reflexivity|]. apply Hl. reflexivity.
Defined.

(** * What the rebuild writes *)

Lemma set_clients_shape clients l l' :
  set_clients clients l = inr l' ->
  (vless_inbound l = None /\ l' = l)
  \/ exists pre kv s post,
       l = (pre ++ JDict kv :: post)%list
       /\ vless_inbound pre = None
       /\ vless_inbound l = Some kv
       /\ dict_get kv "settings" = Some (JDict s)
       /\ l' = (pre ++ JDict (dict_set kv "settings"
                                (JDict (dict_set s "clients" clients))) :: post)%list.
Proof.
  revert l'. induction l as [|inbound rest IH]; intros l' Hs.
  - inversion Hs. left. split; reflexivity.
  - simpl in Hs. destruct inbound as [| | | | | |kv]; try discriminate Hs.
    simpl in Hs.
    assert (Hnot : (match dict_get kv "protocol" with
                    | Some proto => is_vless proto
                    | None => false
                    end) = false ->
                   exists rest', set_clients clients rest = inr rest'
                                 /\ l' = JDict kv :: rest').
    { intros Hp. destruct (dict_get kv "protocol") as [proto|].
      - rewrite Hp in Hs. simpl in Hs.
        destruct (set_clients clients rest) as [e|rest']; [discriminate Hs|].
        inversion Hs. eexists; split; reflexivity.
      - simpl in Hs.
        destruct (set_clients clients rest) as [e|rest']; [discriminate Hs|].
        inversion Hs. eexists; split; reflexivity. }
    destruct (match dict_get kv "protocol" with
              | Some proto => is_vless proto
              | None => false
              end) eqn:Hv.
    + destruct (dict_get kv "protocol") as [proto|] eqn:Hp; [|discriminate Hv].
      rewrite Hv in Hs. unfold PyVal.getitem in Hs.
      destruct (dict_get kv "settings") as [settings|] eqn:Hset; [|discriminate Hs].
      simpl in Hs. destruct settings as [| | | | | |s]; try discriminate Hs.
      simpl in Hs. inversion Hs; subst. right.
      exists [], kv, s, rest. repeat split; try reflexivity.
      * simpl. rewrite Hp, Hv. reflexivity.
      * exact Hset.
    + destruct (Hnot eq_refl) as (rest' & Hr & ->).
      assert (Hhead : forall tl, vless_inbound (JDict kv :: tl) = vless_inbound tl).
      { intros tl. simpl. destruct (dict_get kv "protocol") as [proto|]; [|reflexivity].
        rewrite Hv. reflexivity. }
      destruct (IH rest' Hr) as [[Hn ->]|(pre & kv0 & s & post & -> & Hpre & Hk & Hset & ->)].
      * left. split; [rewrite Hhead; exact Hn|reflexivity].
      * right. exists (JDict kv :: pre), kv0, s, post.
        repeat split; try reflexivity; try assumption.
        -- rewrite Hhead. exact Hpre.
        -- rewrite Hhead. exact Hk.
Qed.

Lemma dict_keys_set_present {V : Type} (d : dict V) k v v0 :
  dict_get d k = Some v0 -> dict_keys (dict_set d k v) = dict_keys d.
Proof.
  intros H. rewrite dict_keys_set. unfold dict_mem. rewrite H. reflexivity.
Qed.

Lemma dict_get_set_other {V : Type} (d : dict V) k k' v :
  k <> k' -> dict_get (dict_set d k v) k' = dict_get d k'.
Proof.
  intros H. rewrite dict_get_set. apply String.eqb_neq in H. rewrite H. reflexivity.
Qed.

Lemma with_clients_other clients (kv : list (string * json)) other cfg' :
  (items <-? PyVal.iter other ;;
   _ <-? set_clients clients items ;;
   inr (JDict kv)) = inr cfg' ->
  cfg' = JDict kv.
Proof.
  destruct (PyVal.iter other) as [e|items]; simpl; [discriminate|].
  destruct (set_clients clients items); simpl; [discriminate|].
  intros H. inversion H. reflexivity.
Qed.

Lemma vless_inbound_protocol l kv :
  vless_inbound l = Some kv -> dict_get kv "protocol" = Some (JStr "vless").
Proof.
  induction l as [|inbound rest IH]; simpl; [discriminate|].
  destruct inbound as [| | | | | |kv0]; auto.
  destruct (dict_get kv0 "protocol") as [proto|] eqn:Hp; auto.
  destruct (is_vless proto) eqn:Hv; auto.
  intros H. inversion H; subst kv0.
  destruct proto as [| | | |p| |]; try discriminate Hv.
  simpl in Hv. apply String.eqb_eq in Hv. subst p. exact Hp.
Qed.

(** X5. A rebuild that returns changes nothing in the configuration but
    the ["clients"] of the settings of the first vless inbound: the
    top-level keys keep their order and, but for ["inbounds"], their
    values; the inbound that is changed has the protocol ["vless"] and
    no inbound before it has; the inbounds before and after it are the
    same; the inbound keeps its keys and its other values, and so do its
    settings.  All other files are left as they are.  Without a vless
    inbound the document is written back unchanged. *)
Theorem rebuild_changes_clients_only uuids disabled st st' :
  rebuild_xray_config uuids disabled st = (inr tt, st') ->
  exists kv kv',
    config_file st = Some (Doc (JDict kv))
    /\ st' = write_config (JDict kv') st
    /\ dict_keys kv' = dict_keys kv
    /\ (forall k, k <> "inbounds" -> dict_get kv' k = dict_get kv k)
    /\ (has_vless_inbound st = false -> kv' = kv)
    /\ (has_vless_inbound st = true ->
        exists pre inbound s post,
          dict_get kv "inbounds" = Some (JList (pre ++ JDict inbound :: post))
          /\ vless_inbound pre = None
          /\ dict_get inbound "protocol" = Some (JStr "vless")
          /\ vless_inbound (pre ++ JDict inbound :: post) = Some inbound
          /\ dict_get inbound "settings" = Some (JDict s)
          /\ dict_get kv' "inbounds"
             = Some (JList (pre ++ JDict (dict_set inbound "settings"
                                            (JDict (dict_set s "clients"
                                                      (clients_of uuids disabled))))
                                 :: post))
          /\ dict_keys (dict_set inbound "settings"
                          (JDict (dict_set s "clients" (clients_of uuids disabled))))
             = dict_keys inbound
          /\ (forall k, k <> "settings" ->
                dict_get (dict_set inbound "settings"
                            (JDict (dict_set s "clients" (clients_of uuids disabled)))) k
                = dict_get inbound k)
          /\ dict_keys (dict_set s "clients" (clients_of uuids disabled))
             = (if dict_mem "clients" s then dict_keys s
                else (dict_keys s ++ ["clients"])%list)
          /\ (forall k, k <> "clients" ->
                dict_get (dict_set s "clients" (clients_of uuids disabled)) k
                = dict_get s k)).
Proof.
  intros Hr. rewrite rebuild_xray_config_run in Hr. unfold read_config in Hr.
  destruct (config_file st) as [[|cfg]|] eqn:Hc; try discriminate Hr.
  simpl in Hr.
  destruct (with_clients (clients_of uuids disabled) cfg) as [e|cfg'] eqn:Hw;
    [discriminate Hr|].
  inversion Hr; subst st'. clear Hr.
  unfold with_clients in Hw. destruct cfg as [| | | | | |kv]; try discriminate Hw.
  unfold has_vless_inbound, config_inbounds. rewrite Hc.
  destruct (dict_get kv "inbounds") as [inbounds|] eqn:Hi.
  - destruct inbounds as [| | | | |l|okv].
    1-5,7: (cbv beta iota in Hw; apply with_clients_other in Hw; subst cfg';
            exists kv, kv; repeat split; auto; discriminate).
    destruct (set_clients (clients_of uuids disabled) l) as [e|l'] eqn:Hs;
      [discriminate Hw|].
    simpl in Hw. inversion Hw; subst cfg'. clear Hw.
    exists kv, (dict_set kv "inbounds" (JList l')).
    split; [reflexivity|]. split; [reflexivity|].
    split; [apply (dict_keys_set_present _ _ _ _ Hi)|].
    split; [intros k Hk; apply dict_get_set_other; congruence|].
    destruct (set_clients_shape _ _ _ Hs)
      as [[Hn ->]|(pre & inbound & s & post & -> & Hpre & Hk & Hset & ->)].
    + rewrite Hn. split; [|discriminate].
      intros _. apply (dict_set_same _ _ _ Hi).
    + rewrite Hk. split; [discriminate|]. intros _.
      exists pre, inbound, s, post. split; [exact Hi|].
      split; [exact Hpre|].
      split; [exact (vless_inbound_protocol _ _ Hk)|].
      split; [exact Hk|]. split; [exact Hset|].
      split; [rewrite dict_get_set, String.eqb_refl; reflexivity|].
      split; [apply (dict_keys_set_present _ _ _ _ Hset)|].
      split; [intros k Hne; apply dict_get_set_other; congruence|].
      split; [apply dict_keys_set|].
      intros k Hne. apply dict_get_set_other. congruence.
  - inversion Hw; subst cfg'. exists kv, kv. repeat split; auto. discriminate.
Qed.

Lemma rebuild_changes_clients_only_witness :
  exists kv kv',
    config_file demo_alice = Some (Doc (JDict kv))
    /\ dict_keys kv' = dict_keys kv
    /\ dict_get kv' "log" = dict_get kv "log"
    /\ exists pre inbound s post,
         dict_get kv "inbounds" = Some (JList (pre ++ JDict inbound :: post))
         /\ vless_inbound pre = None
         /\ dict_get inbound "protocol" = Some (JStr "vless")
         /\ dict_get kv' "inbounds"
            = Some (JList (pre ++ JDict (dict_set inbound "settings"
                                           (JDict (dict_set s "clients"
                                                     (clients_of [("alice", alice_uuid)]
                                                        ["alice"]))))
                                :: post)).
Proof.
  destruct (rebuild_changes_clients_only
              [("alice", alice_uuid)] ["alice"] demo_alice
              (snd (rebuild_xray_config [("alice", alice_uuid)] ["alice"] demo_alice))
              eq_refl)
    as (kv & kv' & Hc & _ & Hk & Ho & _ & Hv).
  destruct (Hv eq_refl)
    as (pre & inbound & s & post & Hi & Hpre & Hp & _ & _ & Hi' & _).
  exists kv, kv'. split; [exact Hc|]. split; [exact Hk|].
  split; [apply Ho; discriminate|].
  exists pre, inbound, s, post. auto.
Defined.

(** * Rebuilding twice *)

Lemma dict_set_set {V : Type} (d : dict V) k v v' :
  dict_set (dict_set d k v) k v' = dict_set d k v'.
Proof.
  induction d as [|[k0 v0] r IH]; simpl.
  - rewrite String.eqb_refl. reflexivity.
  - destruct (k0 =? k) eqn:E; simpl; rewrite E; [reflexivity|].
    rewrite IH. reflexivity.
Qed.

Lemma set_clients_idem clients l : forall l',
  set_clients clients l = inr l' -> set_clients clients l' = inr l'.
Proof.
  induction l as [|inbound rest IH]; intros l' Hs.
  - inversion Hs. reflexivity.
  - simpl in Hs. destruct inbound as [| | | | | |kv]; try discriminate Hs.
    simpl in Hs. destruct (dict_get kv "protocol") as [proto|] eqn:Hp.
    + destruct (is_vless proto) eqn:Hv.
      * unfold PyVal.getitem in Hs.
        destruct (dict_get kv "settings") as [settings|] eqn:Hset; [|discriminate Hs].
        simpl in Hs. destruct settings as [| | | | | |s]; try discriminate Hs.
        simpl in Hs. inversion Hs; subst. simpl.
        rewrite dict_get_set_other by discriminate. rewrite Hp, Hv.
        unfold PyVal.getitem. rewrite dict_get_set, String.eqb_refl. simpl.
        rewrite !dict_set_set. reflexivity.
      * simpl in Hs. destruct (set_clients clients rest) as [e|rest'] eqn:Hr;
          [discriminate Hs|].
        simpl in Hs. inversion Hs; subst. simpl. rewrite Hp, Hv.
        rewrite (IH rest' eq_refl). reflexivity.
    + simpl in Hs. destruct (set_clients clients rest) as [e|rest'] eqn:Hr;
        [discriminate Hs|].
      simpl in Hs. inversion Hs; subst. simpl. rewrite Hp. simpl.
      rewrite (IH rest' eq_refl). reflexivity.
Qed.

Lemma with_clients_idem clients cfg cfg' :
  with_clients clients cfg = inr cfg' -> with_clients clients cfg' = inr cfg'.
Proof.
  intros Hw. unfold with_clients in Hw.
  destruct cfg as [| | | | | |kv]; try discriminate Hw.
  destruct (dict_get kv "inbounds") as [inbounds|] eqn:Hi.
  - destruct inbounds as [| | | | |l|okv].
    1-5,7: (pose proof Hw as Hw'; cbv beta iota in Hw';
            apply with_clients_other in Hw'; subst cfg';
            unfold with_clients; rewrite Hi; exact Hw).
    destruct (set_clients clients l) as [e|l'] eqn:Hs; [discriminate Hw|].
    simpl in Hw. inversion Hw; subst cfg'. unfold with_clients.
    rewrite dict_get_set, String.eqb_refl.
    rewrite (set_clients_idem _ _ _ Hs). simpl. rewrite dict_set_set. reflexivity.
  - inversion Hw; subst cfg'. unfold with_clients. rewrite Hi. reflexivity.
Qed.

(** X6. A rebuild that returns is idempotent: rebuilding again from the
    same table and set gives the same files. *)
Theorem rebuild_idempotent uuids disabled st st' :
  rebuild_xray_config uuids disabled st = (inr tt, st') ->
  rebuild_xray_config uuids disabled st' = (inr tt, st').
Proof.
  intros Hr. rewrite rebuild_xray_config_run in Hr |- *.
  destruct (read_config st) as [e|cfg]; [discriminate Hr|].
  destruct (with_clients (clients_of uuids disabled) cfg) as [e|cfg'] eqn:Hw;
    [discriminate Hr|].
  inversion Hr; subst st'. unfold read_config. simpl.
  rewrite (with_clients_idem _ _ _ Hw). reflexivity.
Qed.

Lemma rebuild_idempotent_witness :
  rebuild_xray_config [("alice", alice_uuid)] [] demo_disabled
  = (inr tt, demo_rebuilt)
  /\ rebuild_xray_config [("alice", alice_uuid)] [] demo_rebuilt
     = (inr tt, demo_rebuilt).
Proof.
  split; [reflexivity|].
  apply (rebuild_idempotent [("alice", alice_uuid)] [] demo_disabled). reflexivity.
Defined.

(** * Outcomes of the requests *)

(** X7. A body that is no JSON, an empty value, or an object without
    ["username"] is answered 400 "Username is required"; a non-empty
    body that is not an object, or an object whose ["username"] is not a
    string, makes [create_user] raise [AttributeError], which is a 500
    and not a 400.  Either way no file is touched. *)
Theorem create_user_malformed_body E j uu t st :
  requested_username j = None ->
  create_user E j uu t st
  = (if body_raises j then inl AttributeError
     else inr (error_response 400 "Username is required"),
     st).
Proof.
  unfold requested_username, body_raises, create_user, bind, lift.
  destruct j as [[|b|z|nz x|s|l|kv]|]; try reflexivity.
  - destruct b; reflexivity.
  - simpl. destruct (z =? 0)%Z; reflexivity.
  - destruct nz; reflexivity.
  - simpl. destruct (s =? ""); reflexivity.
  - destruct l; reflexivity.
  - destruct kv as [|p kv']; [reflexivity|]. simpl PyVal.truthy. cbv iota.
    unfold PyVal.get.
    destruct (dict_get (p :: kv') "username") as [[| | | |raw| |]|];
      try discriminate; reflexivity.
Qed.

Lemma create_user_malformed_body_witness :
  create_user demo_env (Some (JDict [("username", JInt 5)])) alice_uuid "t" demo_fresh
  = (inl AttributeError, demo_fresh)
  /\ create_user demo_env (Some (JDict [("name", JStr "alice")])) alice_uuid "t"
       demo_fresh
     = (inr (error_response 400 "Username is required"), demo_fresh)
  /\ create_user demo_env None alice_uuid "t" demo_fresh
     = (inr (error_response 400 "Username is required"), demo_fresh).
Proof.
  split; [|split].
  - apply (create_user_malformed_body demo_env (Some (JDict [("username", JInt 5)]))).
    reflexivity.
  - apply (create_user_malformed_body demo_env (Some (JDict [("name", JStr "alice")]))).
    reflexivity.
  - apply (create_user_malformed_body demo_env None). reflexivity.
Defined.

Lemma create_user_unrequested_outcome E j uu t st :
  requested_username j = None ->
  (exists e, create_user E j uu t st = (inl e, st))
  \/ create_user E j uu t st
     = (inr (error_response 400 "Username is required"), st).
Proof.
  unfold requested_username, create_user, bind, lift.
  destruct j as [[|b|z|nz x|s|l|kv]|]; try (right; reflexivity).
  - destruct b; [left; eexists|right]; reflexivity.
  - simpl. destruct (z =? 0)%Z; [right|left; eexists]; reflexivity.
  - destruct nz; [left; eexists|right]; reflexivity.
  - simpl. destruct (s =? ""); [right|left; eexists]; reflexivity.
  - destruct l; [right|left; eexists]; reflexivity.
  - destruct kv as [|p kv']; [right; reflexivity|]. simpl PyVal.truthy. cbv iota.
    unfold PyVal.get.
    destruct (dict_get (p :: kv') "username") as [[| | | |raw| |]|];
      try discriminate; intros _;
      first [right; reflexivity | left; eexists; reflexivity].
Qed.

Section Outcomes.

Variable E : Env.

(** A request that does not reach the rebuild raises or answers with
    the files untouched, unless it is a reset that rewrites the ledger. *)
Lemma handle_untriggered_outcome r st :
  triggers_rebuild r st = false ->
  (exists e, handle E r st = (inl e, st))
  \/ (exists resp, handle E r st = (inr resp, st)
                   /\ (status resp = 200 \/ status resp = 400
                       \/ status resp = 404 \/ status resp = 409))
  \/ (exists n totals, r = Reset n
                       /\ handle E r st
                          = (inr (message_response ("Traffic reset for '" ++ n ++ "'")),
                             write_totals totals st)).
Proof.
  destruct r as [j uu t|n|n|n|n]; simpl.
  - destruct (requested_username j) as [u|] eqn:Hj.
    + intros H. right. left. destruct (accepted_username u) eqn:Ha.
      * simpl in H. apply negb_false_iff in H.
        rewrite (create_user_409 E j u uu t st Hj Ha H).
        eexists. split; [reflexivity|]. simpl. auto.
      * destruct (create_user_400 E j u uu t st Hj Ha) as [msg ->].
        eexists. split; [reflexivity|]. simpl. auto.
    + intros _.
      destruct (create_user_unrequested_outcome E j uu t st Hj) as [[e ->]| ->].
      * left. eexists; reflexivity.
      * right. left. eexists. split; [reflexivity|]. simpl. auto.
  - intros H. right. left. destruct (handler_404 n st H) as (-> & _).
    eexists. split; [reflexivity|]. simpl. auto.
  - intros H. right. left. destruct (dict_mem n (read_uuids st)) eqn:Hm.
    + simpl in H. apply negb_false_iff in H.
      rewrite disable_user_noop by assumption.
      eexists. split; [reflexivity|]. simpl. auto.
    + destruct (handler_404 n st Hm) as (_ & -> & _).
      eexists. split; [reflexivity|]. simpl. auto.
  - intros H. right. left. destruct (dict_mem n (read_uuids st)) eqn:Hm.
    + simpl in H. rewrite enable_user_noop by assumption.
      eexists. split; [reflexivity|]. simpl. auto.
    + destruct (handler_404 n st Hm) as (_ & _ & -> & _).
      eexists. split; [reflexivity|]. simpl. auto.
  - intros _. destruct (dict_mem n (read_uuids st)) eqn:Hm.
    + rewrite reset_traffic_run by assumption.
      destruct (PyVal.setitem _ _ _) as [e|totals].
      * left. eexists; reflexivity.
      * right. right. exists n, totals. split; reflexivity.
    + right. left. destruct (handler_404 n st Hm) as (_ & _ & _ & ->).
      eexists. split; [reflexivity|]. simpl. auto.
Qed.

Lemma prepared_status r st resp s :
  prepared E r st = (inr resp, s) -> status resp = 200 \/ status resp = 201.
Proof.
  destruct r as [j uu t|n|n|n|n]; simpl.
  - destruct (requested_username j) as [u|]; [|discriminate].
    destruct (create_subscription_file _ _ _ _ _) as [[e|token] s0];
      [discriminate|].
    simpl. intros H. inversion H. right. reflexivity.
  - destruct (PyVal.pop _ _); [discriminate|].
    intros H. inversion H. left. reflexivity.
  - intros H. inversion H. left. reflexivity.
  - intros H. inversion H. left. reflexivity.
  - discriminate.
Qed.

Lemma prepared_restarts r st :
  xray_restarts (snd (prepared E r st)) = xray_restarts st.
Proof.
  destruct r as [j uu t|n|n|n|n]; simpl; try reflexivity.
  - destruct (requested_username j) as [u|]; [|reflexivity].
    pose proof (create_subscription_file_frame E u uu t
                  (write_uuids (dict_set (read_uuids st) u uu) st)) as Fc.
    destruct (create_subscription_file _ _ _ _ _) as [rt s].
    cbv zeta in Fc. cbn [fst snd] in *. destruct Fc as (_ & _ & _ & _ & _ & _ & Fc).
    rewrite Fc. reflexivity.
  - destruct (PyVal.pop (read_totals st) n) as [e|totals]; cbn [snd].
    + unfold tables_deleted. simpl. apply without_subscription_frame.
    + unfold before_rebuild.
      set (s4 := write_totals totals (tables_deleted n st)).
      destruct (without_stats_frame n s4) as (_ & _ & _ & _ & _ & _ & S1).
      destruct (without_history_frame n (without_stats n s4))
        as (_ & _ & _ & _ & _ & _ & S2).
      cbv zeta in S1, S2. rewrite S2, S1. subst s4. unfold tables_deleted. simpl.
      apply without_subscription_frame.
Qed.

End Outcomes.

(** X8. Every response of a state-changing request has status 200, 201,
    400, 404 or 409, and a response with an error status leaves every
    file exactly as it was. *)
Theorem error_response_changes_nothing E r st resp st' :
  handle E r st = (inr resp, st') ->
  (status resp = 200 \/ status resp = 201 \/ status resp = 400
   \/ status resp = 404 \/ status resp = 409)
  /\ (400 <= status resp -> st' = st).
Proof.
  intros Hh. destruct (triggers_rebuild r st) eqn:Ht.
  - rewrite handle_staged in Hh by assumption.
    destruct (prepared E r st) as [[e|resp0] s] eqn:Hp; [discriminate Hh|].
    destruct (rebuild_xray_config _ _ s) as [[e|[]] s']; [discriminate Hh|].
    inversion Hh; subst.
    destruct (prepared_status E r st resp s Hp) as [H|H]; rewrite H.
    + split; [auto|]. intros Hle. inversion Hle as [|? Hle'].
      repeat (inversion Hle' as [|? Hle'']; clear Hle'; rename Hle'' into Hle').
    + split; [auto|]. intros Hle. exfalso.
      apply (Nat.lt_irrefl 201). eapply Nat.lt_le_trans; [|exact Hle].
      apply Nat.ltb_lt. reflexivity.
  - destruct (handle_untriggered_outcome E r st Ht)
      as [[e He]|[(resp0 & He & Hs)|(n & totals & -> & He)]];
      rewrite He in Hh; inversion Hh; subst.
    + split; [tauto|reflexivity].
    + split; [auto|]. simpl. intros Hle. exfalso.
      apply (Nat.lt_irrefl 200). eapply Nat.lt_le_trans; [|exact Hle].
      apply Nat.ltb_lt. reflexivity.
Qed.

Lemma error_response_changes_nothing_witness :
  (status (not_found "carol") = 200 \/ status (not_found "carol") = 201
   \/ status (not_found "carol") = 400 \/ status (not_found "carol") = 404
   \/ status (not_found "carol") = 409)
  /\ (400 <= status (not_found "carol") -> demo_alice = demo_alice).
Proof.
  apply (error_response_changes_nothing demo_env (Delete "carol") demo_alice).
  reflexivity.
Defined.

(** X9. The xray container is restarted once by a request that changes
    a table and returns its response, and not at all by any other: not
    by an error response, not by a disable or enable that changes
    nothing, not by a traffic reset, and not by a request that raises. *)
Theorem xray_restarted_once E r st :
  xray_restarts (snd (handle E r st))
  = if triggers_rebuild r st && returned (fst (handle E r st))
    then S (xray_restarts st) else xray_restarts st.
Proof.
  destruct (triggers_rebuild r st) eqn:Ht.
  - rewrite handle_staged by assumption.
    pose proof (prepared_restarts E r st) as Hp.
    destruct (prepared E r st) as [[e|resp0] s]; cbn [snd] in Hp; [exact Hp|].
    destruct (rebuild_frame (uuids_after r st) (disabled_after r st) s)
      as (_ & _ & _ & _ & _ & _ & Hr & _).
    destruct (rebuild_xray_config _ _ s) as [[e|[]] s']; cbv zeta in Hr;
      cbn [fst snd] in *.
    + rewrite Hr. exact Hp.
    + unfold restarted, set_xray_restarts. cbn [xray_restarts andb returned].
      rewrite Hr, Hp. reflexivity.
  - cbn [andb].
    destruct (handle_untriggered_outcome E r st Ht)
      as [[e He]|[(resp0 & He & _)|(n & totals & _ & He)]];
      rewrite He; reflexivity.
Qed.

(** X10. The identifier of a user never changes: whatever the request,
    a user of the Credential Table keeps the identifier it has, unless
    the request deletes that very user. *)
Theorem identifier_is_stable E r st name uid :
  well_drawn r = true ->
  dict_get (read_uuids st) name = Some uid ->
  r <> Delete name ->
  dict_get (read_uuids (snd (handle E r st))) name = Some uid.
Proof.
  intros Hw Hg Hr. destruct (triggers_rebuild r st) eqn:Ht.
  - rewrite read_uuids_after by assumption.
    destruct r as [j uu t|n|n|n|n]; simpl in *; try exact Hg.
    + destruct (requested_username j) as [u|]; [|discriminate].
      apply andb_true_iff in Ht as [_ Hm]. apply negb_true_iff in Hm.
      rewrite dict_get_set. destruct (String.eqb_spec u name) as [->|Hne];
        [|exact Hg].
      unfold dict_mem in Hm. rewrite Hg in Hm. discriminate.
    + rewrite dict_get_del. destruct (String.eqb_spec n name) as [->|Hne];
        [|exact Hg].
      exfalso. apply Hr. reflexivity.
  - destruct (handle_untriggered E r st Ht) as (Hu & _).
    cbv zeta in Hu. rewrite (read_uuids_ext _ st Hu). exact Hg.
Qed.

Lemma identifier_is_stable_witness :
  dict_get
    (read_uuids (snd (handle demo_env (Create (username_body "bob") bob_uuid "t2")
                        demo_alice)))
    "alice"
  = Some alice_uuid.
Proof.
  apply identifier_is_stable.
  - reflexivity.
  - reflexivity.
  - discriminate.
Defined.

(** X11. A Credential Table of accepted usernames with identifiers of
    the shape of a UUID stays one under every request: no handler lets
    a name with a space, a colon or a line break, or an empty name,
    into the file. *)
Theorem table_stays_accepted E r st :
  well_drawn r = true ->
  forallb (fun p => accepted_username (fst p) && uuid_like (snd p))
          (read_uuids st) = true ->
  forallb (fun p => accepted_username (fst p) && uuid_like (snd p))
          (read_uuids (snd (handle E r st))) = true.
Proof.
  intros Hw Hall. destruct (triggers_rebuild r st) eqn:Ht.
  - rewrite read_uuids_after by assumption.
    rewrite forallb_forall in Hall. apply forallb_forall. intros p Hp.
    destruct r as [j uu t|n|n|n|n]; simpl in *; auto.
    + destruct (requested_username j) as [u|]; [|discriminate].
      apply andb_true_iff in Ht as [Ha _].
      destruct (In_dict_set _ _ _ _ Hp) as [->|Hd]; [|auto].
      simpl. rewrite Ha, Hw. reflexivity.
    + apply Hall. eapply In_dict_del, Hp.
  - destruct (handle_untriggered E r st Ht) as (Hu & _).
    cbv zeta in Hu. rewrite (read_uuids_ext _ st Hu). exact Hall.
Qed.

Lemma table_stays_accepted_witness :
  forallb (fun p => accepted_username (fst p) && uuid_like (snd p))
    (read_uuids (snd (handle demo_env (Create (username_body " bob ") bob_uuid "t2")
                        demo_alice)))
  = true.
Proof.
  apply table_stays_accepted; reflexivity.
Defined.

(** * The subscription descriptors *)

Lemma prefix_app n s : String.prefix n (n ++ s) = true.
Proof.
  induction n as [|c n IH]; simpl; [destruct s; reflexivity|].
  destruct (Ascii.ascii_dec c c) as [_|Hne]; [exact IH|].
  exfalso. apply Hne. reflexivity.
Qed.

Lemma contains_app n p s : Py.contains n (p ++ n ++ s) = true.
Proof.
  induction p as [|c p IH].
  - simpl append. pose proof (prefix_app n s) as H.
    destruct (n ++ s); unfold Py.contains; rewrite H; reflexivity.
  - change (String c p ++ n ++ s) with (String c (p ++ n ++ s)).
    simpl. rewrite IH. apply orb_true_r.
Qed.

Lemma vless_link_contains E u uu sni sid :
  Py.contains uu (vless_link E u uu sni sid) = true.
Proof. unfold vless_link. apply (contains_app uu "vless://"). Qed.

Lemma vless_of_inbounds_contains E u uu items link :
  vless_of_inbounds E u uu items = inr (Some link) ->
  Py.contains uu link = true.
Proof.
  induction items as [|i items IH]; simpl; [discriminate|].
  unfold rbind.
  destruct (PyVal.get i "streamSettings" (JDict [])) as [e|ss]; [discriminate|].
  destruct (PyVal.get ss "realitySettings" JNull) as [e|rs]; [discriminate|].
  destruct (PyVal.truthy rs); [|exact IH].
  destruct (first_or_empty rs "serverNames") as [e|sni]; [discriminate|].
  destruct (first_or_empty rs "shortIds") as [e|sid]; [discriminate|].
  intros H. inversion H. apply vless_link_contains.
Qed.

Lemma vless_of_config_contains E u uu st link :
  vless_of_config E u uu st = inr (Some link) -> Py.contains uu link = true.
Proof.
  unfold vless_of_config, rbind.
  destruct (read_config st) as [e|cfg]; [discriminate|].
  destruct (PyVal.get cfg "inbounds" (JList [])) as [e|inb]; [discriminate|].
  destruct (PyVal.iter inb) as [e|items]; [discriminate|].
  apply vless_of_inbounds_contains.
Qed.

Lemma scan_app_none uid l l' :
  scan_subscriptions uid l = None ->
  scan_subscriptions uid (l ++ l') = scan_subscriptions uid l'.
Proof.
  induction l as [|[n|n [c|]] l IH]; simpl; auto.
  - destruct (negb (Py.startswith n ".")); auto.
    destruct (Py.contains uid c); [discriminate|auto].
  - destruct (negb (Py.startswith n ".")); auto.
Qed.

Lemma scan_write_sub uid t link entries :
  scan_subscriptions uid entries = None ->
  Py.startswith t "." = false -> Py.contains uid link = true ->
  scan_subscriptions uid (write_sub t link entries) = Some t.
Proof.
  intros Hs Ht Hc. unfold write_sub.
  assert (Hnew : scan_subscriptions uid [File t (Some link)] = Some t).
  { simpl. rewrite Ht, Hc. reflexivity. }
  destruct (existsb _ entries) eqn:Hex.
  - induction entries as [|e entries IH]; [discriminate|].
    cbn [map]. destruct (entry_name e =? t) eqn:He.
    + simpl. rewrite Ht, Hc. reflexivity.
    + cbn [existsb] in Hex. rewrite He in Hex. cbn [orb] in Hex.
      destruct e as [n|n [c|]]; simpl in Hs |- *.
      * auto.
      * destruct (negb (Py.startswith n ".")); auto.
        destruct (Py.contains uid c); [discriminate|auto].
      * destruct (negb (Py.startswith n ".")); auto.
  - rewrite scan_app_none by assumption. exact Hnew.
Qed.

Lemma scan_unlink_other uid t token entries :
  scan_subscriptions uid entries = Some token -> token <> t ->
  scan_subscriptions uid (unlink t entries) = Some token.
Proof.
  intros Hs Hne. unfold unlink.
  induction entries as [|e entries IH]; [discriminate|].
  cbn [filter]. destruct (String.eqb_spec (entry_name e) t) as [He|He];
    cbn [negb].
  - apply IH. destruct e as [n|n [c|]]; simpl in Hs, He; auto.
    + destruct (negb (Py.startswith n ".")); auto.
      destruct (Py.contains uid c); [|auto].
      inversion Hs. congruence.
    + destruct (negb (Py.startswith n ".")); auto.
  - destruct e as [n|n [c|]]; simpl in Hs |- *; auto.
    + destruct (negb (Py.startswith n ".")); auto.
      destruct (Py.contains uid c); auto.
    + destruct (negb (Py.startswith n ".")); auto.
Qed.

Lemma scan_sound uid entries token :
  scan_subscriptions uid entries = Some token ->
  exists content,
    In (File token (Some content)) entries
    /\ Py.startswith token "." = false /\ Py.contains uid content = true.
Proof.
  induction entries as [|[n|n [c|]] entries IH]; simpl; [discriminate| | |].
  - intros H. destruct (IH H) as [c Hc]. exists c. tauto.
  - destruct (Py.startswith n ".") eqn:Hd; cbn [negb].
    + intros H. destruct (IH H) as [c' Hc]. exists c'. tauto.
    + destruct (Py.contains uid c) eqn:Hc.
      * intros H. inversion H; subst. exists c. auto.
      * intros H. destruct (IH H) as [c' Hc']. exists c'. tauto.
  - destruct (negb (Py.startswith n "."));
      intros H; destruct (IH H) as [c' Hc]; exists c'; tauto.
Qed.

Lemma scan_complete uid entries :
  scan_subscriptions uid entries = None ->
  forall token content,
    In (File token (Some content)) entries ->
    Py.startswith token "." = false -> Py.contains uid content = false.
Proof.
  induction entries as [|[n|n [c|]] entries IH]; simpl; [tauto| | |].
  - intros H token content [Hin|Hin]; [discriminate|eauto].
  - destruct (Py.startswith n ".") eqn:Hd; cbn [negb].
    + intros H token content [Hin|Hin]; [|eauto].
      inversion Hin; subst. congruence.
    + destruct (Py.contains uid c) eqn:Hc; [discriminate|].
      intros H token content [Hin|Hin]; [|eauto].
      inversion Hin; subst. intros _. exact Hc.
  - destruct (negb (Py.startswith n "."));
      intros H token content [Hin|Hin]; try discriminate; eauto.
Qed.

(** X12. What [find_subscription_token] returns names a file of the
    subscription directory that is not hidden, decodes, and embeds the
    identifier of the user; it returns nothing for a user the table
    does not know; and for a known user with an identifier it returns
    nothing only when no such file exists.  The URL of
    [get_subscription_url] is the one built from that name. *)
Theorem find_subscription_token_spec E name st :
  (forall token, find_subscription_token name st = Some token ->
     exists uid content,
       dict_get (read_uuids st) name = Some uid
       /\ In (File token (Some content)) (sub_dir st)
       /\ Py.startswith token "." = false
       /\ Py.contains uid content = true)
  /\ (dict_mem name (read_uuids st) = false ->
      find_subscription_token name st = None)
  /\ (forall uid, dict_get (read_uuids st) name = Some uid -> uid <> "" ->
      find_subscription_token name st = None ->
      forall token content,
        In (File token (Some content)) (sub_dir st) ->
        Py.startswith token "." = false -> Py.contains uid content = false)
  /\ (forall url, get_subscription_url E name st = Some url ->
      exists token, find_subscription_token name st = Some token
                    /\ url = subscription_url E token).
Proof.
  unfold get_subscription_url, find_subscription_token, dict_mem.
  destruct (dict_get (read_uuids st) name) as [uid|]; repeat split;
    try discriminate.
  - intros token. destruct (uid =? ""); [discriminate|]. intros H.
    destruct (scan_sound _ _ _ H) as [c Hc]. exists uid, c. tauto.
  - intros uid' Hu Hne. inversion Hu; subst uid'.
    apply String.eqb_neq in Hne. rewrite Hne. apply scan_complete.
  - intros url. destruct (uid =? ""); [discriminate|].
    destruct (scan_subscriptions uid (sub_dir st)) as [token|]; [|discriminate].
    destruct (token =? ""); [discriminate|]. intros H. inversion H.
    exists token. auto.
Qed.

Lemma delete_user_sub_dir name st :
  dict_mem name (read_uuids st) = true ->
  sub_dir (snd (delete_user name st)) = sub_dir (without_subscription name st).
Proof.
  intros Hm. rewrite delete_user_run by assumption. cbv zeta.
  assert (Ht : sub_dir (tables_deleted name st)
               = sub_dir (without_subscription name st)) by reflexivity.
  destruct (PyVal.pop (read_totals st) name) as [e|totals]; [exact Ht|].
  set (s4 := write_totals totals (tables_deleted name st)).
  destruct (without_stats_frame name s4) as (_ & _ & _ & _ & S1 & _).
  destruct (without_history_frame name (without_stats name s4))
    as (_ & _ & _ & _ & S2 & _).
  cbv zeta in S1, S2.
  destruct (rebuild_frame (dict_del (read_uuids st) name)
              (Py.set_discard name (read_disabled st))
              (without_history name (without_stats name s4)))
    as (_ & _ & Hr & _).
  destruct (rebuild_xray_config _ _ _) as [[e|[]] s']; cbv zeta in Hr;
    cbn [fst snd] in *.
  - rewrite Hr, S2, S1. exact Ht.
  - unfold restarted, set_xray_restarts. cbn [sub_dir].
    rewrite Hr, S2, S1. exact Ht.
Qed.

(** X13. Deleting a user leaves the subscription of every other user in
    place: the file found for another user is still the one found for
    that user afterwards, unless it is the very file found for the
    deleted user. *)
Theorem delete_user_keeps_other_subscriptions name other token st :
  other <> name ->
  find_subscription_token other st = Some token ->
  find_subscription_token name st <> Some token ->
  find_subscription_token other (snd (delete_user name st)) = Some token.
Proof.
  intros Hne Ho Hn. destruct (dict_mem name (read_uuids st)) eqn:Hm.
  2:{ destruct (handler_404 name st Hm) as (-> & _). exact Ho. }
  pose proof (read_uuids_after demo_env (Delete name) st Hm eq_refl) as Hu.
  pose proof (delete_user_sub_dir name st Hm) as Hs.
  simpl in Hu. unfold find_subscription_token in *.
  rewrite Hu, Hs, dict_get_del.
  destruct (String.eqb_spec name other) as [->|_]; [congruence|].
  destruct (dict_get (read_uuids st) other) as [uid|]; [|discriminate].
  destruct (uid =? ""); [discriminate|].
  unfold without_subscription, find_subscription_token.
  destruct (dict_get (read_uuids st) name) as [uidn|]; [|exact Ho].
  destruct (uidn =? ""); [exact Ho|].
  destruct (scan_subscriptions uidn (sub_dir st)) as [t|]; [|exact Ho].
  destruct (t =? ""); [exact Ho|]. cbn [sub_dir set_sub_dir].
  apply scan_unlink_other; [exact Ho|]. intros ->. apply Hn. reflexivity.
Qed.

Lemma delete_user_keeps_other_subscriptions_witness :
  find_subscription_token "alice"
    (snd (delete_user "bob"
            (snd (create_user demo_env (username_body "bob") bob_uuid
                    "fedcba9876543210fedcba9876543210" demo_alice))))
  = Some "0123456789abcdef0123456789abcdef".
Proof.
  apply delete_user_keeps_other_subscriptions.
  - discriminate.
  - reflexivity.
  - discriminate.
Defined.

(** X14. The URL [create_user] answers with is the URL [list_users]
    shows from then on: when the identifier drawn occurs in no
    descriptor yet and the token drawn does not start with a dot, the
    file written is the one [find_subscription_token] finds for the new
    user, and [get_subscription_url] builds the URL of the response. *)
Theorem created_url_is_found E j uu t st resp st' url :
  uuid_like uu = true ->
  unreferenced uu st = true ->
  Py.startswith t "." = false ->
  create_user E j uu t st = (inr resp, st') ->
  subscription_url_of resp = Some (JStr url) ->
  exists u,
    requested_username j = Some u
    /\ find_subscription_token u st' = Some t
    /\ get_subscription_url E u st' = Some url.
Proof.
  intros Hu Hun Ht Hc Hurl.
  destruct (requested_username j) as [u|] eqn:Hj.
  2:{ destruct (create_user_unrequested_outcome E j uu t st Hj) as [[e He]|He];
        rewrite He in Hc; inversion Hc; subst; discriminate. }
  destruct (accepted_username u) eqn:Ha.
  2:{ destruct (create_user_400 E j u uu t st Hj Ha) as [msg He].
      rewrite He in Hc. inversion Hc; subst; discriminate. }
  destruct (dict_mem u (read_uuids st)) eqn:Hm.
  { rewrite (create_user_409 E j u uu t st Hj Ha Hm) in Hc.
    inversion Hc; subst; discriminate. }
  exists u. split; [reflexivity|].
  assert (Htr : triggers_rebuild (Create j uu t) st = true).
  { simpl. rewrite Hj, Ha, Hm. reflexivity. }
  pose proof (read_uuids_after E (Create j uu t) st Htr Hu) as Hr.
  simpl in Hr. rewrite Hj, Hc in Hr. cbn [snd] in Hr.
  rewrite (create_user_run E j u uu t st Hj Ha Hm) in Hc. cbv zeta in Hc.
  set (st1 := write_uuids (dict_set (read_uuids st) u uu) st) in *.
  rewrite create_subscription_file_run in Hc.
  assert (Hne : (uu =? "") = false).
  { unfold uuid_like in Hu. apply andb_true_iff in Hu as [Hu _].
    apply negb_true_iff in Hu. exact Hu. }
  destruct (vless_of_config E u uu st1) as [e|[link|]] eqn:Hv.
  - discriminate Hc.
  - destruct (link =? "").
    + destruct (rebuild_xray_config _ _ st1) as [[e|[]] s3];
        inversion Hc; subst; discriminate.
    + set (st2 := set_sub_dir (write_sub t link (sub_dir st1)) st1) in *.
      destruct (rebuild_frame (dict_set (read_uuids st) u uu) (read_disabled st2) st2)
        as (_ & _ & Hs & _).
      destruct (rebuild_xray_config _ _ st2) as [[e|[]] s3]; [discriminate Hc|].
      cbv zeta in Hs. cbn [snd] in Hs. inversion Hc; subst resp st'. clear Hc.
      unfold subscription_url_of, created_response in Hurl. simpl in Hurl.
      destruct (t =? "") eqn:Hte; [discriminate|]. inversion Hurl; subst url.
      assert (Hf : find_subscription_token u (restarted s3) = Some t).
      { unfold find_subscription_token. rewrite Hr, dict_get_set, String.eqb_refl, Hne.
        unfold restarted, set_xray_restarts. cbn [sub_dir]. rewrite Hs.
        unfold st2. cbn [sub_dir set_sub_dir]. unfold st1, write_uuids.
        cbn [sub_dir set_uuids_file].
        apply scan_write_sub; [|exact Ht|eapply vless_of_config_contains, Hv].
        unfold unreferenced in Hun.
        destruct (scan_subscriptions uu (sub_dir st)); [discriminate|reflexivity]. }
      split; [exact Hf|]. unfold get_subscription_url. rewrite Hf, Hte. reflexivity.
  - destruct (rebuild_xray_config _ _ st1) as [[e|[]] s3];
      inversion Hc; subst; discriminate.
Qed.

Lemma created_url_is_found_witness :
  exists u,
    requested_username (username_body " bob ") = Some u
    /\ find_subscription_token u
         (snd (create_user demo_env (username_body " bob ") bob_uuid
                 "fedcba9876543210fedcba9876543210" demo_alice))
       = Some "fedcba9876543210fedcba9876543210"
    /\ get_subscription_url demo_env u
         (snd (create_user demo_env (username_body " bob ") bob_uuid
                 "fedcba9876543210fedcba9876543210" demo_alice))
       = Some "http://203.0.113.7:8443/sub/fedcba9876543210fedcba9876543210".
Proof.
  eapply (created_url_is_found demo_env (username_body " bob ") bob_uuid
            "fedcba9876543210fedcba9876543210" demo_alice).
  - reflexivity.
  - reflexivity.
  - reflexivity.
  - lazy. reflexivity.
  - reflexivity.
Defined.

(** * The listing *)

Lemma map_res_inr {A B : Type} (f : A -> res B) l : forall bs,
  map_res f l = inr bs -> Forall2 (fun a b => f a = inr b) l bs.
Proof.
  induction l as [|a l IH]; simpl; intros bs H.
  - inversion H. constructor.
  - unfold rbind in H. destruct (f a) as [e|b] eqn:Hf; [discriminate|].
    destruct (map_res f l) as [e|bs'] eqn:Hm; [discriminate|].
    inversion H. constructor; auto.
Qed.

Lemma map_res_total {A B : Type} (f : A -> res B) l :
  (forall a, In a l -> exists b, f a = inr b) -> exists bs, map_res f l = inr bs.
Proof.
  induction l as [|a l IH]; simpl; intros H.
  - eexists; reflexivity.
  - destruct (H a (or_introl eq_refl)) as [b ->].
    destruct IH as [bs ->]; [intros x Hx; apply H; auto|].
    eexists; reflexivity.
Qed.

Lemma user_entry_inr E st disabled totals stats name e :
  user_entry E st disabled totals stats name = inr e ->
  exists rec_t rec_s up dn now top,
    PyVal.get totals name (JDict []) = inr rec_t
    /\ PyVal.get stats name (JDict []) = inr rec_s
    /\ PyVal.get rec_t "up" (JInt 0) = inr up
    /\ PyVal.get rec_t "dn" (JInt 0) = inr dn
    /\ e = JDict [("username", JStr name);
                  ("status", JStr (user_status disabled name));
                  ("subscription_url",
                   match get_subscription_url E name st with
                   | Some url => JStr url
                   | None => JNull
                   end);
                  ("traffic", JDict [("uplink", up); ("downlink", dn)]);
                  ("ips_now", now); ("ips_max_24h", top)].
Proof.
  unfold user_entry, rbind.
  destruct (PyVal.get totals name (JDict [])) as [x|rec_t]; [discriminate|].
  destruct (PyVal.get stats name (JDict [])) as [x|rec_s]; [discriminate|].
  destruct (PyVal.get rec_t "up" (JInt 0)) as [x|up] eqn:Hup; [discriminate|].
  destruct (PyVal.get rec_t "dn" (JInt 0)) as [x|dn] eqn:Hdn; [discriminate|].
  destruct (PyVal.get rec_s "ips_now" (JInt 0)) as [x|now]; [discriminate|].
  destruct (PyVal.get rec_s "ips_max_24h" (JInt 0)) as [x|top]; [discriminate|].
  intros H. inversion H. exists rec_t, rec_s, up, dn, now, top.
  repeat split; assumption.
Qed.

Lemma records_ok_get ledger name :
  records_ok ledger = true ->
  exists kv, PyVal.get ledger name (JDict []) = inr (JDict kv).
Proof.
  destruct ledger as [| | | | | |kv]; try discriminate. simpl. intros H.
  destruct (dict_get kv name) as [v|] eqn:Hg; [|eexists; reflexivity].
  apply dict_get_In in Hg. rewrite forallb_forall in H.
  specialize (H _ Hg). simpl in H. destruct v; try discriminate.
  eexists; reflexivity.
Qed.

Lemma user_entries_fields E st disabled totals stats names users :
  Forall2 (fun a b => user_entry E st disabled totals stats a = inr b) names users ->
  map (fun e => (field "username" e, field "status" e,
                 field "subscription_url" e)) users
  = map (fun n => (Some (JStr n), Some (JStr (user_status disabled n)),
                   Some (match get_subscription_url E n st with
                         | Some url => JStr url
                         | None => JNull
                         end))) names.
Proof.
  induction 1 as [|a b l bs Hab _ IH]; [reflexivity|].
  cbn [map]. rewrite IH. f_equal.
  destruct (user_entry_inr _ _ _ _ _ _ _ Hab)
    as (rt & rs & up & dn & now & top & _ & _ & _ & _ & ->).
  reflexivity.
Qed.

(** X15. When [list_users] returns, it answers 200 with one entry for
    each user of the Credential Table, in the order of the table, that
    carries the name, the status ("disabled" for a member of the
    Disabled Set, "active" otherwise) and the subscription URL found
    for the user, or null. *)
Theorem list_users_endpoint_entries E st resp :
  list_users_endpoint E st = inr resp ->
  status resp = 200
  /\ map (fun e => (field "username" e, field "status" e,
                    field "subscription_url" e)) (listed resp)
     = map (fun p => (Some (JStr (fst p)), Some (JStr (snd p)),
                      Some (match get_subscription_url E (fst p) st with
                            | Some url => JStr url
                            | None => JNull
                            end)))
           (list_users st).
Proof.
  unfold list_users_endpoint, list_users. cbv zeta. unfold rbind.
  destruct (map_res _ _) as [e|users] eqn:Hm; [discriminate|].
  intros H. inversion H. subst resp. split; [reflexivity|].
  unfold listed. cbn [body field dict_get String.eqb Ascii.eqb Bool.eqb].
  apply map_res_inr in Hm. rewrite (user_entries_fields _ _ _ _ _ _ _ Hm).
  unfold dict_keys. rewrite !map_map. reflexivity.
Qed.

Lemma list_users_endpoint_entries_witness :
  map (fun e => (field "username" e, field "status" e, field "subscription_url" e))
      (listed (mkResponse 200 (JDict [("users", JList [
         JDict [("username", JStr "alice"); ("status", JStr "disabled");
                ("subscription_url",
                 JStr "http://203.0.113.7:8443/sub/0123456789abcdef0123456789abcdef");
                ("traffic", JDict [("uplink", JInt 500); ("downlink", JInt 300)]);
                ("ips_now", JInt 0); ("ips_max_24h", JInt 0)]])])))
  = map (fun p => (Some (JStr (fst p)), Some (JStr (snd p)),
                   Some (match get_subscription_url demo_env (fst p) demo_disabled with
                         | Some url => JStr url
                         | None => JNull
                         end)))
        (list_users demo_disabled).
Proof.
  apply (list_users_endpoint_entries demo_env demo_disabled). reflexivity.
Defined.

(** X16. [list_users] returns when the Traffic Ledger and the user
    statistics are mappings whose records are objects, a missing or
    unreadable file counting as the empty mapping; with a ledger that
    is JSON but no mapping it raises [AttributeError] as soon as the
    Credential Table has a user. *)
Theorem list_users_endpoint_returns E st :
  (records_ok (read_totals st) = true -> records_ok (read_stats_users st) = true ->
   exists resp, list_users_endpoint E st = inr resp)
  /\ (is_dict (read_totals st) = false -> read_uuids st <> [] ->
      list_users_endpoint E st = inl AttributeError).
Proof.
  split.
  - intros Ht Hs. unfold list_users_endpoint. cbv zeta.
    destruct (map_res_total
                (user_entry E st (read_disabled st) (read_totals st)
                   (read_stats_users st))
                (dict_keys (read_uuids st))) as [users Hu].
    + intros name _. unfold user_entry, rbind.
      destruct (records_ok_get _ name Ht) as [kt ->].
      destruct (records_ok_get _ name Hs) as [ks ->].
      simpl. eexists; reflexivity.
    + unfold rbind. rewrite Hu. eexists; reflexivity.
  - intros Hd Hne. unfold list_users_endpoint. cbv zeta.
    destruct (read_uuids st) as [|[name uid] d]; [congruence|].
    cbn [dict_keys map map_res fst]. unfold user_entry, rbind.
    destruct (read_totals st); try discriminate; reflexivity.
Qed.

Lemma list_users_endpoint_returns_witness :
  (exists resp, list_users_endpoint demo_env demo_disabled = inr resp)
  /\ list_users_endpoint demo_env
       (set_totals_file (Some (Doc (JList []))) demo_alice)
     = inl AttributeError.
Proof.
  split.
  - apply (proj1 (list_users_endpoint_returns demo_env demo_disabled)); reflexivity.
  - apply (proj2 (list_users_endpoint_returns demo_env
                    (set_totals_file (Some (Doc (JList []))) demo_alice))).
    + reflexivity.
    + discriminate.
Defined.

Lemma Forall2_In_l {A B : Type} (R : A -> B -> Prop) l l' a :
  Forall2 R l l' -> In a l -> exists b, In b l' /\ R a b.
Proof.
  induction 1 as [|x y l l' Hxy _ IH]; simpl; [tauto|].
  intros [->|Hin]; [exists y; auto|].
  destruct (IH Hin) as [b [Hb Hr]]. exists b. auto.
Qed.

(** X17. After a traffic reset answered 200, a listing that returns
    shows the user with an uplink and a downlink of 0. *)
Theorem reset_then_listed_zero E name st resp st' listing :
  reset_traffic name st = (inr resp, st') ->
  status resp = 200 ->
  list_users_endpoint E st' = inr listing ->
  exists e,
    In e (listed listing)
    /\ field "username" e = Some (JStr name)
    /\ field "traffic" e
       = Some (JDict [("uplink", JInt 0); ("downlink", JInt 0)]).
Proof.
  intros Hr Hs Hl. destruct (dict_mem name (read_uuids st)) eqn:Hm.
  2:{ destruct (handler_404 name st Hm) as (_ & _ & _ & He).
      rewrite He in Hr. inversion Hr; subst. discriminate. }
  rewrite reset_traffic_run in Hr by assumption.
  destruct (read_totals st) as [| | | | | |kv] eqn:Ht; try discriminate.
  simpl in Hr. inversion Hr; subst resp st'. clear Hr Hs.
  unfold list_users_endpoint in Hl. cbv zeta in Hl. unfold rbind in Hl.
  destruct (map_res _ _) as [e|users] eqn:Hu; [discriminate|].
  inversion Hl; subst listing. clear Hl.
  apply map_res_inr in Hu.
  assert (Hin : In name (dict_keys (read_uuids (write_totals
                  (JDict (dict_set kv name zero_traffic)) st)))).
  { apply dict_mem_In. exact Hm. }
  destruct (Forall2_In_l _ _ _ _ Hu Hin) as [e [He Hf]].
  exists e. split; [exact He|].
  destruct (user_entry_inr _ _ _ _ _ _ _ Hf)
    as (rt & rs & up & dn & now & top & Hrt & _ & Hup & Hdn & ->).
  split; [reflexivity|].
  unfold read_totals, write_totals in Hrt. cbn in Hrt.
  rewrite dict_get_set, String.eqb_refl in Hrt. inversion Hrt; subst rt.
  cbn in Hup, Hdn. inversion Hup. inversion Hdn. reflexivity.
Qed.

Lemma reset_then_listed_zero_witness :
  exists e,
    In e (listed (mkResponse 200 (JDict [("users", JList [
         JDict [("username", JStr "alice"); ("status", JStr "active");
                ("subscription_url",
                 JStr "http://203.0.113.7:8443/sub/0123456789abcdef0123456789abcdef");
                ("traffic", JDict [("uplink", JInt 0); ("downlink", JInt 0)]);
                ("ips_now", JInt 0); ("ips_max_24h", JInt 0)]])])))
    /\ field "username" e = Some (JStr "alice")
    /\ field "traffic" e = Some (JDict [("uplink", JInt 0); ("downlink", JInt 0)]).
Proof.
  eapply (reset_then_listed_zero demo_env "alice" demo_alice).
  - lazy. reflexivity.
  - reflexivity.
  - lazy. reflexivity.
Defined.

(** * A ledger that is no mapping *)

(** X18. With a Traffic Ledger that is JSON but no mapping, on a known
    user [reset_traffic] raises [TypeError] and writes nothing, and
    [delete_user] raises after it took the user out of the Credential
    Table and before it rebuilt the configuration, which stays as it
    was. *)
Theorem ledger_not_mapping name st :
  dict_mem name (read_uuids st) = true ->
  totals_ok st = false ->
  reset_traffic name st = (inl TypeError, st)
  /\ exists e st',
       delete_user name st = (inl e, st')
       /\ dict_mem name (read_uuids st') = false
       /\ config_file st' = config_file st
       /\ xray_restarts st' = xray_restarts st.
Proof.
  intros Hm Ht.
  assert (Hd : is_dict (read_totals st) = false).
  { unfold totals_ok in Ht. unfold read_totals.
    destruct (totals_file st) as [[|j]|]; try discriminate. exact Ht. }
  split.
  - rewrite reset_traffic_run by assumption.
    destruct (read_totals st); try discriminate; reflexivity.
  - rewrite delete_user_run by assumption. cbv zeta.
    assert (Hp : exists e, PyVal.pop (read_totals st) name = inl e).
    { destruct (read_totals st); try discriminate; eexists; reflexivity. }
    destruct Hp as [e ->]. exists e, (tables_deleted name st).
    split; [reflexivity|].
    destruct (tables_deleted_files name st) as (Tu & _ & Tc & _).
    split; [|split; [exact Tc|]].
    + rewrite (read_uuids_ext _ (write_uuids (dict_del (read_uuids st) name) st))
        by (rewrite Tu; reflexivity).
      rewrite read_write_uuids by apply clean_dict_del, read_uuids_clean.
      apply dict_mem_del.
    + unfold tables_deleted. simpl. apply without_subscription_frame.
Qed.

Lemma ledger_not_mapping_witness :
  reset_traffic "alice" (set_totals_file (Some (Doc (JList []))) demo_alice)
  = (inl TypeError, set_totals_file (Some (Doc (JList []))) demo_alice).
Proof.
  apply (ledger_not_mapping "alice"
           (set_totals_file (Some (Doc (JList []))) demo_alice)); reflexivity.
Defined.

(** * The API key *)

Lemma handle_not_401 E r st resp st' :
  handle E r st = (inr resp, st') -> status resp <> 401.
Proof.
  intros Hh. destruct (triggers_rebuild r st) eqn:Ht.
  - rewrite handle_staged in Hh by assumption.
    destruct (prepared E r st) as [[e|resp0] s] eqn:Hp; [discriminate Hh|].
    destruct (rebuild_xray_config _ _ s) as [[e|[]] s']; [discriminate Hh|].
    inversion Hh; subst.
    destruct (prepared_status E r st resp s Hp) as [H|H]; rewrite H; discriminate.
  - destruct (handle_untriggered_outcome E r st Ht)
      as [[e He]|[(resp0 & He & Hs)|(n & totals & -> & He)]];
      rewrite He in Hh; inversion Hh; subst.
    + destruct Hs as [H|[H|[H|H]]]; rewrite H; discriminate.
    + discriminate.
Qed.

(** X19. A state-changing route runs its handler only for a request
    whose [X-API-Key] header is the configured key, and a key that is
    not configured lets no request through, not even one that sends an
    empty key.  Every other request is answered 401 with no file
    touched, and no handler answers 401 by itself. *)
Theorem route_needs_the_key E API_KEY header r st :
  (API_KEY <> "" /\ header = Some API_KEY ->
   route E API_KEY header r st = handle E r st)
  /\ (API_KEY = "" \/ header <> Some API_KEY ->
      route E API_KEY header r st
      = (inr (error_response 401 "Unauthorized"), st))
  /\ (is_response 401 (fst (route E API_KEY header r st)) = true
      <-> API_KEY = "" \/ header <> Some API_KEY).
Proof.
  assert (Hyes : API_KEY <> "" /\ header = Some API_KEY ->
                 route E API_KEY header r st = handle E r st).
  { intros [Hk ->]. unfold route, require_api_key.
    apply String.eqb_neq in Hk. rewrite Hk, String.eqb_refl. reflexivity. }
  assert (Hno : API_KEY = "" \/ header <> Some API_KEY ->
                route E API_KEY header r st
                = (inr (error_response 401 "Unauthorized"), st)).
  { unfold route, require_api_key. intros [->|Hh]; [reflexivity|].
    destruct (String.eqb_spec API_KEY "") as [->|Hk]; [reflexivity|]. cbn [orb].
    destruct header as [k|].
    - destruct (String.eqb_spec k API_KEY) as [->|Hne]; [congruence|reflexivity].
    - destruct (String.eqb_spec "" API_KEY) as [He|Hne]; [|reflexivity].
      exfalso. apply Hk. symmetry. exact He. }
  split; [exact Hyes|]. split; [exact Hno|]. split.
  - intros H. destruct (String.eqb_spec API_KEY "") as [He|He]; [auto|].
    right. intros ->. rewrite Hyes in H by auto.
    destruct (handle E r st) as [[e|resp] st'] eqn:Hh; [discriminate|].
    simpl in H. apply Nat.eqb_eq in H.
    exact (handle_not_401 E r st resp st' Hh H).
  - intros H. rewrite (Hno H). reflexivity.
Qed.

Lemma route_needs_the_key_witness :
  route demo_env "" (Some "") (Delete "alice") demo_alice
  = (inr (error_response 401 "Unauthorized"), demo_alice).
Proof.
  apply (proj1 (proj2 (route_needs_the_key demo_env "" (Some "")
                         (Delete "alice") demo_alice))).
  left. reflexivity.
Defined.

(** * The public key *)

Lemma reality_of_inbounds_key items reality :
  reality_of_inbounds items = inr (Some reality) ->
  dict_get reality "publicKey" = Some (JStr "").
Proof.
  induction items as [|i items IH]; simpl; [discriminate|].
  unfold rbind.
  destruct (PyVal.get i "streamSettings" (JDict [])) as [e|ss]; [discriminate|].
  destruct (PyVal.get ss "realitySettings" JNull) as [e|rs]; [discriminate|].
  destruct (PyVal.truthy rs); [|exact IH].
  destruct (PyVal.get rs "dest" (JStr "")) as [e|dest]; [discriminate|].
  destruct (PyVal.get rs "serverNames" (JList [])) as [e|names]; [discriminate|].
  destruct (PyVal.get rs "shortIds" (JList [])) as [e|sids]; [discriminate|].
  intros H. inversion H. reflexivity.
Qed.

Lemma load_reality_params_key st :
  match dict_get (load_reality_params st) "publicKey" with
  | Some v => v
  | None => JStr ""
  end = JStr "".
Proof.
  unfold load_reality_params.
  destruct (rbind _ _) as [e|[reality|]] eqn:Hr; try reflexivity.
  unfold rbind in Hr.
  destruct (read_config st) as [e|cfg]; [discriminate|].
  destruct (PyVal.get cfg "inbounds" (JList [])) as [e|inb]; [discriminate|].
  destruct (PyVal.iter inb) as [e|items]; [discriminate|].
  rewrite (reality_of_inbounds_key _ _ Hr). reflexivity.
Qed.

Lemma vless_of_inbounds_link E u uu items link :
  vless_of_inbounds E u uu items = inr (Some link) ->
  exists sni sid, link = vless_link E u uu sni sid.
Proof.
  induction items as [|i items IH]; simpl; [discriminate|].
  unfold rbind.
  destruct (PyVal.get i "streamSettings" (JDict [])) as [e|ss]; [discriminate|].
  destruct (PyVal.get ss "realitySettings" JNull) as [e|rs]; [discriminate|].
  destruct (PyVal.truthy rs); [|exact IH].
  destruct (first_or_empty rs "serverNames") as [e|sni]; [discriminate|].
  destruct (first_or_empty rs "shortIds") as [e|sid]; [discriminate|].
  intros H. inversion H. exists sni, sid. reflexivity.
Qed.

(** X20. The public key of a link comes from the environment alone.
    Whatever configuration [load_reality_params] read at startup, a
    link [build_vless_link] returns is the f-string of the source with
    [REALITY] as that function left it; with [REALITY_PUBLIC_KEY] set
    the link carries its value after [&pbk=], and without it the link
    carries nothing there, whatever the configuration holds. *)
Theorem public_key_from_env_only E startup u uu st link st' :
  build_vless_link E u uu st = (inr (Some link), st') ->
  exists sni sid,
    link = vless_link_with E (load_reality_params startup) u uu sni sid
    /\ (forall k, REALITY_PUBLIC_KEY E = Some k ->
          link = "vless://" ++ uu ++ "@" ++ SERVER_ADDRESS E
                 ++ ":443?security=reality&encryption=none&flow=xtls-rprx-vision&pbk="
                 ++ k ++ "&fp=chrome&sni=" ++ PyVal.format sni
                 ++ "&sid=" ++ PyVal.format sid ++ "&type=tcp#" ++ u)
    /\ (REALITY_PUBLIC_KEY E = None ->
        link = "vless://" ++ uu ++ "@" ++ SERVER_ADDRESS E
               ++ ":443?security=reality&encryption=none&flow=xtls-rprx-vision"
               ++ "&pbk=&fp=chrome&sni=" ++ PyVal.format sni
               ++ "&sid=" ++ PyVal.format sid ++ "&type=tcp#" ++ u).
Proof.
  rewrite build_vless_link_run. intros H. inversion H as [[Hv Hst]]. clear H.
  unfold vless_of_config, rbind in Hv.
  destruct (read_config st) as [e|cfg]; [discriminate|].
  destruct (PyVal.get cfg "inbounds" (JList [])) as [e|inb]; [discriminate|].
  destruct (PyVal.iter inb) as [e|items]; [discriminate|].
  destruct (vless_of_inbounds_link _ _ _ _ _ Hv) as (sni & sid & ->).
  exists sni, sid.
  pose proof (load_reality_params_key startup) as Hk.
  unfold vless_link_with, vless_link, public_key, pbk.
  destruct (REALITY_PUBLIC_KEY E) as [k0|].
  - split; [reflexivity|]. split; [|discriminate].
    intros k Hk0. inversion Hk0; subst k0. reflexivity.
  - rewrite Hk. split; [reflexivity|]. split; [discriminate|].
    intros _. reflexivity.
Qed.

Lemma public_key_from_env_only_witness :
  exists sni sid,
    "vless://11111111-1111-4111-8111-111111111111@203.0.113.7:443?security=reality&encryption=none&flow=xtls-rprx-vision&pbk=&fp=chrome&sni=example.com&sid=ab12&type=tcp#alice"
    = vless_link_with (mkEnv "" "203.0.113.7" "8443" None)
        (load_reality_params demo_fresh) "alice" alice_uuid sni sid.
Proof.
  destruct (public_key_from_env_only (mkEnv "" "203.0.113.7" "8443" None)
              demo_fresh "alice" alice_uuid demo_fresh
              "vless://11111111-1111-4111-8111-111111111111@203.0.113.7:443?security=reality&encryption=none&flow=xtls-rprx-vision&pbk=&fp=chrome&sni=example.com&sid=ab12&type=tcp#alice"
              demo_fresh eq_refl) as (sni & sid & H & _).
  exists sni, sid. exact H.
Defined.

(** * What a request leaves alone *)

Lemma write_sub_fresh t link entries :
  ~ In t (map entry_name entries) ->
  write_sub t link entries = (entries ++ [File t (Some link)])%list.
Proof.
  intros H. unfold write_sub.
  destruct (existsb _ entries) eqn:Hex; [|reflexivity].
  exfalso. apply H. apply existsb_exists in Hex as [e [He Hn]].
  apply String.eqb_eq in Hn. subst t. apply in_map, He.
Qed.

Lemma create_user_sub_dir E j u uu t st :
  requested_username j = Some u -> accepted_username u = true ->
  dict_mem u (read_uuids st) = false ->
  sub_dir (snd (create_user E j uu t st)) = sub_dir st
  \/ exists link,
       sub_dir (snd (create_user E j uu t st)) = write_sub t link (sub_dir st).
Proof.
  intros Hj Ha Hm. rewrite (create_user_run E j u uu t st Hj Ha Hm). cbv zeta.
  set (st1 := write_uuids (dict_set (read_uuids st) u uu) st).
  rewrite create_subscription_file_run.
  assert (Hcase : forall tok s2,
            sub_dir (snd (match rebuild_xray_config (dict_set (read_uuids st) u uu)
                                  (read_disabled s2) s2 with
                          | (inl e, st3) => (inl e, st3)
                          | (inr _, st3) =>
                              (inr (created_response E u uu tok), restarted st3)
                          end)) = sub_dir s2).
  { intros tok s2.
    destruct (rebuild_frame (dict_set (read_uuids st) u uu) (read_disabled s2) s2)
      as (_ & _ & Hs & _).
    destruct (rebuild_xray_config _ _ s2) as [[e|[]] s3]; cbv zeta in Hs;
      cbn [fst snd] in *; [exact Hs|].
    unfold restarted, set_xray_restarts. cbn [sub_dir]. exact Hs. }
  destruct (vless_of_config E u uu st1) as [e|[link|]].
  - left. reflexivity.
  - destruct (link =? "").
    + left. rewrite Hcase. reflexivity.
    + right. exists link. rewrite Hcase. reflexivity.
  - left. rewrite Hcase. reflexivity.
Qed.

Lemma scan_embeds uid entries :
  scan_subscriptions uid entries
  = match find (embeds uid) entries with
    | Some e => Some (entry_name e)
    | None => None
    end.
Proof.
  induction entries as [|[n|n [c|]] entries IH]; simpl; auto.
  - destruct (negb (Py.startswith n ".")); simpl; auto.
    destruct (Py.contains uid c); auto.
  - destruct (negb (Py.startswith n ".")); simpl; auto.
Qed.

Lemma scan_only uid token entries :
  (exists e, In e entries /\ embeds uid e = true) ->
  (forall e, In e entries -> embeds uid e = true -> entry_name e = token) ->
  scan_subscriptions uid entries = Some token.
Proof.
  intros [e [He Hemb]] Hall. rewrite scan_embeds.
  destruct (find (embeds uid) entries) as [e'|] eqn:Hf.
  - apply find_some in Hf as [Hin Hm]. rewrite (Hall e' Hin Hm). reflexivity.
  - rewrite (find_none _ _ Hf e He) in Hemb. discriminate.
Qed.

Lemma scan_some_embeds uid entries token :
  scan_subscriptions uid entries = Some token ->
  exists e, In e entries /\ embeds uid e = true.
Proof.
  rewrite scan_embeds.
  destruct (find (embeds uid) entries) as [e|] eqn:Hf; [|discriminate].
  intros _. exists e. apply find_some in Hf. exact Hf.
Qed.

(** X21. Creating a user leaves the subscription of an existing user in
    place, in whatever order the directory is listed afterwards: when
    the token drawn names no entry of the subscription directory yet,
    the file found for the user is the only one that embeds the
    identifier of that user, and the descriptor written under the new
    token does not embed it, the file found for that user after the
    request is the one found before, whatever the outcome and for every
    order of the entries. *)
Theorem create_user_keeps_other_subscriptions
    E j uu t st outcome st' other uid token :
  create_user E j uu t st = (outcome, st') ->
  uuid_like uu = true ->
  ~ In t (map entry_name (sub_dir st)) ->
  dict_get (read_uuids st) other = Some uid ->
  find_subscription_token other st = Some token ->
  only_descriptor uid token (sub_dir st) = true ->
  not_embedded uid t (sub_dir st') = true ->
  forall listing, Permutation listing (sub_dir st') ->
    find_subscription_token other (set_sub_dir listing st') = Some token.
Proof.
  intros Hc Hu Hf Hg Ho Honly Hnew listing Hperm.
  assert (Hst : st' = snd (create_user E j uu t st)) by (rewrite Hc; reflexivity).
  unfold find_subscription_token in Ho. rewrite Hg in Ho.
  destruct (uid =? "") eqn:Hne; [discriminate|].
  assert (Hr : dict_get (read_uuids st') other = Some uid
               /\ (sub_dir st' = sub_dir st
                   \/ exists link, sub_dir st'
                                   = (sub_dir st ++ [File t (Some link)])%list)).
  { subst st'. destruct (triggers_rebuild (Create j uu t) st) eqn:Ht.
    - pose proof (read_uuids_after E (Create j uu t) st Ht Hu) as Hr.
      simpl in Ht, Hr. destruct (requested_username j) as [u|] eqn:Hj;
        [|discriminate].
      apply andb_true_iff in Ht as [Ha Hm]. apply negb_true_iff in Hm.
      split.
      + rewrite Hr, dict_get_set.
        destruct (String.eqb_spec u other) as [->|_]; [|exact Hg].
        unfold dict_mem in Hm. rewrite Hg in Hm. discriminate.
      + destruct (create_user_sub_dir E j u uu t st Hj Ha Hm) as [->|[link ->]];
          [left; reflexivity|].
        right. exists link. apply write_sub_fresh, Hf.
    - destruct (handle_untriggered_outcome E (Create j uu t) st Ht)
        as [[e He]|[(resp & He & _)|(n & totals & Hn & _)]];
        [| |discriminate Hn]; simpl in He; rewrite He; auto. }
  destruct Hr as [Hg' Hsub].
  unfold find_subscription_token.
  rewrite (read_uuids_ext (set_sub_dir listing st') st') by reflexivity.
  rewrite Hg', Hne. cbn [sub_dir set_sub_dir].
  assert (Hold : forall e, In e (sub_dir st) -> In e listing).
  { intros e He. apply (Permutation_in _ (Permutation_sym Hperm)).
    destruct Hsub as [->|[link ->]]; [exact He|].
    apply in_or_app. left. exact He. }
  apply scan_only.
  - destruct (scan_some_embeds _ _ _ Ho) as [e [He Hm]].
    exists e. split; [apply Hold, He|exact Hm].
  - intros e He Hm. apply (Permutation_in _ Hperm) in He.
    unfold not_embedded in Hnew. rewrite forallb_forall in Hnew.
    pose proof (Hnew e He) as Hn. rewrite Hm in Hn. cbn [negb] in Hn.
    rewrite orb_false_r in Hn. apply negb_true_iff in Hn.
    assert (Hin : In e (sub_dir st)).
    { destruct Hsub as [Hs|[link Hs]]; rewrite Hs in He; [exact He|].
      apply in_app_or in He as [He|[He|[]]]; [exact He|].
      subst e. simpl in Hn. rewrite String.eqb_refl in Hn. discriminate. }
    unfold only_descriptor in Honly. rewrite forallb_forall in Honly.
    pose proof (Honly e Hin) as H. rewrite Hm in H. cbn [negb orb] in H.
    apply String.eqb_eq in H. exact H.
Qed.

Lemma create_user_keeps_other_subscriptions_witness :
  find_subscription_token "alice"
    (set_sub_dir
       (rev (sub_dir (snd (create_user demo_env (username_body "bob") bob_uuid
                             "fedcba9876543210fedcba9876543210" demo_alice))))
       (snd (create_user demo_env (username_body "bob") bob_uuid
               "fedcba9876543210fedcba9876543210" demo_alice)))
  = Some "0123456789abcdef0123456789abcdef".
Proof.
  apply (create_user_keeps_other_subscriptions demo_env (username_body "bob")
           bob_uuid "fedcba9876543210fedcba9876543210" demo_alice
           (fst (create_user demo_env (username_body "bob") bob_uuid
                   "fedcba9876543210fedcba9876543210" demo_alice))
           (snd (create_user demo_env (username_body "bob") bob_uuid
                   "fedcba9876543210fedcba9876543210" demo_alice))
           "alice" alice_uuid).
  - reflexivity.
  - reflexivity.
  - simpl. intros [H|[]]. discriminate H.
  - reflexivity.
  - reflexivity.
  - reflexivity.
  - reflexivity.
  - apply Permutation_sym, Permutation_rev.
Defined.

(** X22. Disabling and enabling a user touch nothing but the Disabled
    Set and the configuration: the Credential Table, the subscription
    files, the Traffic Ledger, the statistics and the history are after
    the request what they were before, whatever its outcome. *)
Theorem disable_enable_keep_records name st :
  same_records st (snd (disable_user name st))
  /\ same_records st (snd (enable_user name st)).
Proof.
  assert (H : forall r, r = Disable name \/ r = Enable name ->
                        same_records st (snd (handle demo_env r st))).
  { intros r Hr. destruct (triggers_rebuild r st) eqn:Ht.
    - rewrite handle_staged by assumption.
      assert (Hp : exists resp d, prepared demo_env r st
                                  = (inr resp, write_disabled d st)).
      { destruct Hr as [->| ->]; simpl; eexists; eexists; reflexivity. }
      destruct Hp as (resp & d & ->).
      destruct (rebuild_frame (uuids_after r st) (disabled_after r st)
                  (write_disabled d st)) as (Fu & _ & Fs & Ft & Fst & Fh & _).
      destruct (rebuild_xray_config _ _ _) as [[e|[]] s']; cbv zeta in *;
        cbn [fst snd] in *; unfold same_records;
        try (unfold restarted, set_xray_restarts;
             cbn [uuids_file sub_dir totals_file stats_file history_file]);
        rewrite Fu, Fs, Ft, Fst, Fh; repeat split; reflexivity.
    - destruct (handle_untriggered_outcome demo_env r st Ht)
        as [[e He]|[(resp & He & _)|(n & totals & Hn & _)]].
      + rewrite He. repeat split; reflexivity.
      + rewrite He. repeat split; reflexivity.
      + destruct Hr as [->| ->]; discriminate Hn. }
  split; [apply (H (Disable name))|apply (H (Enable name))]; auto.
Qed.

(** X23. A [stats.json] or [history.json] that is missing or is not
    JSON does not stop [delete_user]: with a configuration no handler
    trips over and a ledger that is a mapping, a known user is deleted
    with a 200, and the file that could not be read is left as it
    was. *)
Theorem delete_user_tolerates_monitoring name st :
  dict_mem name (read_uuids st) = true ->
  config_wf st = true -> totals_ok st = true ->
  exists st',
    delete_user name st
    = (inr (message_response ("User '" ++ name ++ "' deleted")), st')
    /\ (unreadable (stats_file st) -> stats_file st' = stats_file st)
    /\ (unreadable (history_file st) -> history_file st' = history_file st).
Proof.
  intros Hm Hc Ht. rewrite delete_user_run by assumption. cbv zeta.
  destruct (totals_ok_dict st Ht) as [kv ->]. simpl PyVal.pop. cbv iota.
  set (totals := JDict (dict_del kv name)).
  set (s4 := write_totals totals (tables_deleted name st)).
  set (s6 := without_history name (without_stats name s4)).
  destruct (tables_deleted_files name st) as (_ & _ & Tc & _ & Ts & Th).
  destruct (without_stats_frame name s4) as (_ & _ & Sc & _ & _ & Sh & _).
  destruct (without_history_frame name (without_stats name s4))
    as (_ & _ & Hcf & _ & _ & Hs & _).
  cbv zeta in Sc, Sh, Hcf, Hs.
  destruct (rebuild_wf (dict_del (read_uuids st) name)
              (Py.set_discard name (read_disabled st)) s6) as [cfg' ->].
  { rewrite (config_wf_ext st s6); [exact Hc|].
    unfold s6. rewrite Hcf, Sc. exact Tc. }
  eexists. split; [reflexivity|].
  unfold restarted, set_xray_restarts, write_config.
  cbn [stats_file history_file set_config_file]. split.
  - intros Hu. unfold s6. rewrite Hs.
    assert (Hs4 : stats_file s4 = stats_file st) by exact Ts.
    unfold without_stats. rewrite Hs4.
    destruct Hu as [Hu|Hu]; rewrite Hu; simpl; exact (eq_trans Hs4 Hu).
  - intros Hu. unfold s6.
    assert (Hh4 : history_file (without_stats name s4) = history_file st).
    { rewrite Sh. exact Th. }
    unfold without_history. rewrite Hh4.
    destruct Hu as [Hu|Hu]; rewrite Hu; simpl; exact (eq_trans Hh4 Hu).
Qed.

Lemma delete_user_tolerates_monitoring_witness :
  exists st',
    delete_user "alice" (set_stats_file (Some Garbage) demo_alice)
    = (inr (message_response ("User '" ++ "alice" ++ "' deleted")), st')
    /\ (unreadable (stats_file (set_stats_file (Some Garbage) demo_alice)) ->
        stats_file st' = stats_file (set_stats_file (Some Garbage) demo_alice))
    /\ (unreadable (history_file (set_stats_file (Some Garbage) demo_alice)) ->
        history_file st'
        = history_file (set_stats_file (Some Garbage) demo_alice)).
Proof.
  apply (delete_user_tolerates_monitoring "alice"
           (set_stats_file (Some Garbage) demo_alice)); reflexivity.
Defined.

